(** * organizer.py: categorising, de-duplicating and moving files

    A shallow embedding of [src/organizer.py] and the properties of its
    four functions: [get_category], [calculate_hash],
    [get_destination_path] and [organize_files].

    Python integers are [Z]; [bytes] are [list byte]; [dict]s are stdpp
    [gmap]s; the static category table, whose iteration order matters, is
    an association list.  The interpreter's library (str.lower, mimetypes,
    hashlib, datetime, pathlib, the file system and shutil) is a set of
    type classes: the program is written once over these interfaces, the
    general theorems hold for every implementation of them, and a small
    POSIX-like instance at the end of the file runs the program on
    concrete folders. *)

From Stdlib Require Import ZArith Ascii String List Strings.Byte SpecFloat Lia.
From stdpp Require Import base decidable option list gmap strings pretty.

Local Open Scope string_scope.
Local Open Scope Z_scope.

(** ** Exceptions

    Only instances of Python's [Exception] are modelled (what
    [except Exception] catches); an exception carries the text that
    [str(e)] (and so an f-string) prints. *)

Inductive exn : Type :=
| Exception (str : string).

Definition exn_str (e : exn) : string :=
  match e with Exception s => s end.

Inductive outcome (A : Type) : Type :=
| Ok (a : A)
| Raise (e : exn).

Arguments Ok {A} a.
Arguments Raise {A} e.

Definition is_ok {A} (o : outcome A) : bool :=
  match o with Ok _ => true | Raise _ => false end.

(** ** Strings *)

Definition ascii_lower (c : ascii) : ascii :=
  let n := nat_of_ascii c in
  if ((65 <=? n) && (n <=? 90))%nat then ascii_of_nat (n + 32) else c.

Definition ascii_upper (c : ascii) : ascii :=
  let n := nat_of_ascii c in
  if ((97 <=? n) && (n <=? 122))%nat then ascii_of_nat (n - 32) else c.

Fixpoint string_map (f : ascii -> ascii) (s : string) : string :=
  match s with
  | EmptyString => EmptyString
  | String c r => String (f c) (string_map f r)
  end.

(** [str.capitalize] on ASCII text: first character upper-cased, the rest
    lower-cased.  The program applies it to "image", "video" and "audio"
    only. *)
Definition capitalize (s : string) : string :=
  match s with
  | EmptyString => EmptyString
  | String c r => String (ascii_upper c) (string_map ascii_lower r)
  end.

(** [s.split(sep)[0]] for a one-character separator: the text before the
    first separator, the whole string when there is none. *)
Fixpoint split_head (sep : ascii) (s : string) : string :=
  match s with
  | EmptyString => EmptyString
  | String c r => if Ascii.eqb c sep then EmptyString else String c (split_head sep r)
  end.

(** Truth value of a [str]: the empty string is false. *)
Definition str_truthy (s : string) : bool :=
  match s with EmptyString => false | String _ _ => true end.

(** [x in xs] on a list of strings. *)
Definition str_in (x : string) (xs : list string) : bool :=
  bool_decide (x ∈ xs).

(** ** The interpreter's library *)

(** The fields of a [datetime] the program formats. *)
Record datetime : Type := mk_datetime {
  dt_year : nat;
  dt_month : nat;
  dt_day : nat
}.

Class PyLib : Type := {
  (** [str.lower] *)
  str_lower : string -> string;
  (** [mimetypes.guess_type(name)[0]] *)
  mimetypes_guess_type : string -> option string;
  (** [datetime.fromtimestamp], in the local time zone; raises on a
      timestamp out of the platform's range *)
  datetime_fromtimestamp : Z -> outcome datetime;
  (** [hashlib.md5()], [update] and [hexdigest] *)
  md5_state : Type;
  hashlib_md5 : md5_state;
  md5_update : md5_state -> list byte -> md5_state;
  md5_hexdigest : md5_state -> string
}.

(** ** Categorizer *)

Definition FILE_CATEGORIES : list (string * list string) :=
  [ ("Documents", [".pdf"; ".docx"; ".txt"; ".pptx"; ".xlsx"; ".csv"]);
    ("Images", [".jpg"; ".jpeg"; ".png"; ".gif"; ".bmp"; ".svg"]);
    ("Videos", [".mp4"; ".mkv"; ".avi"; ".mov"]);
    ("Music", [".mp3"; ".wav"; ".aac"; ".flac"]);
    ("Archives", [".zip"; ".rar"; ".tar"; ".gz"]) ].

(** The [for cat, exts in FILE_CATEGORIES.items()] loop: the first
    category, in the table's order, whose list holds [ext]. *)
Fixpoint first_category (ext : string) (table : list (string * list string))
  : option string :=
  match table with
  | [] => None
  | (cat, exts) :: rest =>
      if str_in ext exts then Some cat else first_category ext rest
  end.

Section Categorizer.
Context `{PyLib}.

Definition get_category (extension : string) : string :=
  let ext := str_lower extension in
  match first_category ext FILE_CATEGORIES with
  | Some cat => cat
  | None =>
      let mime := mimetypes_guess_type ("file" +:+ ext) in
      match mime with
      | Some m =>
          if str_truthy m then
            let main_type := split_head "/" m in
            if str_in main_type ["image"; "video"; "audio"]
            then capitalize main_type +:+ "s"
            else "Others"
          else "Others"
      | None => "Others"
      end
  end.

End Categorizer.

(** ** Expressions that may raise *)

Definition obind {A B} (o : outcome A) (k : A -> outcome B) : outcome B :=
  match o with
  | Ok a => k a
  | Raise e => Raise e
  end.

Notation "x <-? o ; k" := (obind o (fun x => k))
  (at level 60, o at next level, right associativity, only parsing).

(** ** pathlib and the file system *)

Class Pathlib (Path : Type) : Type := {
  (** [Path(s)] *)
  Path_of_str : string -> Path;
  (** [str(p)] *)
  path_str : Path -> string;
  (** [p.name] and [p.suffix] *)
  path_name : Path -> string;
  path_suffix : Path -> string;
  (** [p / s] *)
  path_join : Path -> string -> Path;
  (** [p.relative_to(base)]: raises ValueError when [p] is not below [base] *)
  path_relative_to : Path -> Path -> outcome Path
}.

Infix "//" := path_join (at level 40, left associativity).

(** [os.stat_result]: size in bytes, modification time in seconds since the
    epoch (its fractional part plays no role in the year and the month). *)
Record stat_result : Type := mk_stat {
  st_size : Z;
  st_mtime : Z
}.

(** An open binary file: the bytes not yet read and, when [fh_fault] is
    [Some (n, e)], the read that fails: the first [n] reads succeed and the
    next one raises [e] (an I/O error, or the file removed under the
    reader). *)
Record file_handle : Type := mk_handle {
  fh_data : list byte;
  fh_fault : option (nat * exn)
}.

(** [f.read(n)]: up to [n] bytes, [b""] at the end of the file. *)
Definition file_read (f : file_handle) (n : nat)
  : outcome (list byte * file_handle) :=
  match fh_fault f with
  | Some (O, e) => Raise e
  | Some (S k, e) =>
      Ok (firstn n (fh_data f), mk_handle (skipn n (fh_data f)) (Some (k, e)))
  | None =>
      Ok (firstn n (fh_data f), mk_handle (skipn n (fh_data f)) None)
  end.

(** The file system as the program uses it.  The calls that read it leave
    it as it was.  The two calls that write it are not atomic:
    [mkdir(parents=True)] that raises may have created some of the
    parents, and [shutil.move], when the rename fails, copies the file and
    then removes the source, so a call that raises may leave a copy at the
    destination.  [fs_mkdir_failed] and [shutil_move_failed] give the file
    system that a raising call leaves behind. *)
Class FileSystem (World Path : Type) : Type := {
  (** [p.iterdir()], as a list in enumeration order *)
  fs_iterdir : World -> Path -> outcome (list Path);
  (** [p.is_file()] *)
  fs_is_file : World -> Path -> bool;
  (** [p.stat()] *)
  fs_stat : World -> Path -> outcome stat_result;
  (** [open(p, 'rb')] *)
  fs_open_rb : World -> Path -> outcome file_handle;
  (** [p.mkdir(parents=.., exist_ok=..)] *)
  fs_mkdir : World -> Path -> forall (parents exist_ok : bool), outcome World;
  fs_mkdir_failed : World -> Path -> forall (parents exist_ok : bool), World;
  (** [shutil.move(src, dst)] *)
  shutil_move : World -> string -> Path -> outcome World;
  shutil_move_failed : World -> string -> Path -> World
}.

(** ** Hasher *)

Section Hasher.
Context `{PyLib}.

(** The [while len(buf) > 0] loop.  Every round consumes the non-empty
    buffer read before it, so [fuel] beyond the number of bytes at hand is
    never used up ([read_loop_fuel]); [None] is running out of fuel. *)
Fixpoint read_loop (fuel : nat) (block_size : nat) (hasher : md5_state)
         (f : file_handle) (buf : list byte) : option (outcome md5_state) :=
  match buf with
  | [] => Some (Ok hasher)
  | _ :: _ =>
      match fuel with
      | O => None
      | S fuel' =>
          let hasher := md5_update hasher buf in
          match file_read f block_size with
          | Raise e => Some (Raise e)
          | Ok (buf', f') => read_loop fuel' block_size hasher f' buf'
          end
      end
  end.

Context {World Path : Type} `{FileSystem World Path}.

(** [calculate_hash(filepath, block_size)]: [None] is Python's [None]. *)
Definition calculate_hash (w : World) (filepath : Path) (block_size : nat)
  : option string :=
  let hasher := hashlib_md5 in
  match fs_open_rb w filepath with
  | Raise _ => None
  | Ok f =>
      match file_read f block_size with
      | Raise _ => None
      | Ok (buf, f') =>
          match read_loop (S (length (fh_data f))) block_size hasher f' buf with
          | Some (Ok hasher) => Some (md5_hexdigest hasher)
          | Some (Raise _) => None
          | None => None
          end
      end
  end.

End Hasher.

Definition default_block_size : nat := Z.to_nat 65536.

(** ** Path Resolver *)

Definition digit_char (n : nat) : ascii :=
  ascii_of_nat (48 + n mod 10).

(** The [width] low decimal digits of [n], most significant first. *)
Fixpoint dec_digits (width : nat) (n : nat) : string :=
  match width with
  | O => EmptyString
  | S w => dec_digits w (n / 10) +:+ String (digit_char n) EmptyString
  end.

(** A number zero-padded to [width] digits ([%m] and [%d] with width 2); a
    number too large for the width is printed in full. *)
Definition zero_padded (width : nat) (n : nat) : string :=
  if (n <? 10 ^ width)%nat then dec_digits width n else pretty n.

(** The number that a string of decimal digits writes. *)
Definition decimal_value (s : string) : nat :=
  let fix go (acc : nat) (s : string) : nat :=
    match s with
    | EmptyString => acc
    | String c r => go (10 * acc + (nat_of_ascii c - 48))%nat r
    end in
  go 0%nat s.

(** A number below 10000 in decimal without padding; a larger number is
    printed in full. *)
Definition unpadded (n : nat) : string :=
  if (n <? 10)%nat then dec_digits 1 n
  else if (n <? 100)%nat then dec_digits 2 n
  else if (n <? 1000)%nat then dec_digits 3 n
  else zero_padded 4 n.

(** The directives as the C library prints them.  CPython hands [%Y] to
    the platform's [strftime]; glibc prints the year without padding, so
    the year 999 is "999", not "0999". *)
Definition strftime_directive (dt : datetime) (d : ascii) : string :=
  if Ascii.eqb d "Y" then unpadded (dt_year dt)
  else if Ascii.eqb d "m" then zero_padded 2 (dt_month dt)
  else if Ascii.eqb d "d" then zero_padded 2 (dt_day dt)
  else if Ascii.eqb d "%" then "%"
  else String "%" (String d EmptyString).

(** [dt.strftime(fmt)] for the directives %Y, %m, %d and %%. *)
Fixpoint strftime (dt : datetime) (fmt : string) : string :=
  match fmt with
  | EmptyString => EmptyString
  | String c rest =>
      if Ascii.eqb c "%" then
        match rest with
        | EmptyString => String c EmptyString
        | String d rest' => strftime_directive dt d +:+ strftime dt rest'
        end
      else String c (strftime dt rest)
  end.

Section PathResolver.
Context `{PyLib} {World Path : Type} `{Pathlib Path} `{FileSystem World Path}.

Definition get_destination_path (w : World) (folder file : Path)
           (category organize_mode : string) : outcome Path :=
  if String.eqb organize_mode "Category Only" then
    Ok (folder // category)
  else
    st <-? fs_stat w file;
    let timestamp := st_mtime st in
    dt_object <-? datetime_fromtimestamp timestamp;
    let year := strftime dt_object "%Y" in
    let month_year := strftime dt_object "%Y-%m" in
    if String.eqb organize_mode "Category / Year" then
      Ok (folder // category // year)
    else if String.eqb organize_mode "Category / Year-Month" then
      Ok (folder // category // month_year)
    else
      Ok (folder // category).

End PathResolver.

(** ** Progress percentage: [int((i / total) * 100)]

    Python evaluates this in binary64 floating point.  The Standard
    Library's executable specification of IEEE 754 ([SpecFloat], precision
    53, [emax] 1024) is used as it stands. *)

Definition prec : Z := 53.
Definition emax : Z := 1024.

(** An [int] as an exact, not yet rounded, operand. *)
Definition SF_of_int (z : Z) : spec_float :=
  match z with
  | Z0 => S754_zero false
  | Zpos p => S754_finite false p 0
  | Zneg p => S754_finite true p 0
  end.

(** [float(z)]: the nearest binary64 number. *)
Definition float_of_int (z : Z) : spec_float :=
  binary_normalize prec emax z 0 false.

(** [a / b] on [int]s: the correctly rounded quotient. *)
Definition int_truediv (a b : Z) : outcome spec_float :=
  if b =? 0 then Raise (Exception "division by zero")
  else
    match SFdiv prec emax (SF_of_int a) (SF_of_int b) with
    | S754_infinity _ =>
        Raise (Exception "integer division result too large for a float")
    | q => Ok q
    end.

(** [x * n] for a [float] and an [int]. *)
Definition float_mul_int (x : spec_float) (n : Z) : spec_float :=
  SFmul prec emax x (float_of_int n).

(** [int(x)]: truncation towards zero. *)
Definition int_of_float (x : spec_float) : outcome Z :=
  match x with
  | S754_zero _ => Ok 0
  | S754_finite s m e =>
      let magnitude :=
        if 0 <=? e then Z.shiftl (Zpos m) e else Z.shiftr (Zpos m) (- e) in
      Ok (if s then - magnitude else magnitude)
  | S754_infinity _ => Raise (Exception "cannot convert float infinity to integer")
  | S754_nan => Raise (Exception "cannot convert float NaN to integer")
  end.

Definition percent_of (i total : Z) : outcome Z :=
  x <-? int_truediv i total;
  int_of_float (float_mul_int x 100).

(** ** Orchestrator *)

(** The [analytics] dictionary.  [time_taken_sec] is held in milliseconds:
    the program rounds the elapsed seconds to three decimals. *)
Record analytics : Type := mk_analytics {
  total_files : Z;
  total_size_bytes : Z;
  categories : gmap string Z;
  time_taken_sec : Z;
  duplicates_removed : Z;
  space_saved_bytes : Z;
  logs : list string
}.

(** [d.setdefault(k, v)] and [d[k] += 1]. *)
Definition dict_setdefault (d : gmap string Z) (k : string) (v : Z) : gmap string Z :=
  match d !! k with
  | Some _ => d
  | None => <[k := v]> d
  end.

Definition dict_incr (d : gmap string Z) (k : string) : gmap string Z :=
  alter (fun v => v + 1) k d.

(** A progress callback: called with a percentage and a message, it
    returns or raises. *)
Definition callback : Type := Z -> string -> outcome unit.

(** The callback is an observer: when there is one, it returns. *)
Definition callback_returns (progress_callback : option callback) : Prop :=
  forall cb, progress_callback = Some cb -> forall percent message, cb percent message = Ok tt.

(** What the [try] block leaves for the rest of the iteration. *)
Inductive flow : Type :=
| Fallthrough
| Continue.

Section Orchestrator.
Context `{PyLib} {World Path : Type} `{Pathlib Path} `{FileSystem World Path}.

(** The file system, the variables of [organize_files] that the loop
    assigns, and the calls made to the progress callback so far. *)
Record state : Type := mk_state {
  st_world : World;
  st_analytics : analytics;
  st_seen_hashes : gmap string string;
  st_duplicate_files : Z;
  st_space_saved_bytes : Z;
  st_log_entry : string;
  st_events : list (Z * string)
}.

Definition set_world (w : World) (s : state) : state :=
  mk_state w (st_analytics s) (st_seen_hashes s) (st_duplicate_files s)
           (st_space_saved_bytes s) (st_log_entry s) (st_events s).

Definition set_analytics (a : analytics) (s : state) : state :=
  mk_state (st_world s) a (st_seen_hashes s) (st_duplicate_files s)
           (st_space_saved_bytes s) (st_log_entry s) (st_events s).

Definition set_seen_hashes (m : gmap string string) (s : state) : state :=
  mk_state (st_world s) (st_analytics s) m (st_duplicate_files s)
           (st_space_saved_bytes s) (st_log_entry s) (st_events s).

Definition set_duplicate_files (n : Z) (s : state) : state :=
  mk_state (st_world s) (st_analytics s) (st_seen_hashes s) n
           (st_space_saved_bytes s) (st_log_entry s) (st_events s).

Definition set_space_saved_bytes (n : Z) (s : state) : state :=
  mk_state (st_world s) (st_analytics s) (st_seen_hashes s)
           (st_duplicate_files s) n (st_log_entry s) (st_events s).

Definition set_log_entry (l : string) (s : state) : state :=
  mk_state (st_world s) (st_analytics s) (st_seen_hashes s)
           (st_duplicate_files s) (st_space_saved_bytes s) l (st_events s).

Definition set_events (ev : list (Z * string)) (s : state) : state :=
  mk_state (st_world s) (st_analytics s) (st_seen_hashes s)
           (st_duplicate_files s) (st_space_saved_bytes s) (st_log_entry s) ev.

Definition add_total_size_bytes (n : Z) (a : analytics) : analytics :=
  mk_analytics (total_files a) (total_size_bytes a + n) (categories a)
               (time_taken_sec a) (duplicates_removed a) (space_saved_bytes a)
               (logs a).

Definition set_categories (c : gmap string Z) (a : analytics) : analytics :=
  mk_analytics (total_files a) (total_size_bytes a) c (time_taken_sec a)
               (duplicates_removed a) (space_saved_bytes a) (logs a).

Definition set_time_taken_sec (t : Z) (a : analytics) : analytics :=
  mk_analytics (total_files a) (total_size_bytes a) (categories a) t
               (duplicates_removed a) (space_saved_bytes a) (logs a).

Definition set_duplicates_removed (n : Z) (a : analytics) : analytics :=
  mk_analytics (total_files a) (total_size_bytes a) (categories a)
               (time_taken_sec a) n (space_saved_bytes a) (logs a).

Definition set_space_saved (n : Z) (a : analytics) : analytics :=
  mk_analytics (total_files a) (total_size_bytes a) (categories a)
               (time_taken_sec a) (duplicates_removed a) n (logs a).

Definition append_log (l : string) (a : analytics) : analytics :=
  mk_analytics (total_files a) (total_size_bytes a) (categories a)
               (time_taken_sec a) (duplicates_removed a) (space_saved_bytes a)
               (logs a ++ [l]).

(** Statements: a state transformer that returns or raises.  What a
    statement did before it raised stays done. *)
Definition M (A : Type) : Type := state -> outcome A * state.

Definition ret {A} (a : A) : M A := fun s => (Ok a, s).

Definition bind {A B} (m : M A) (k : A -> M B) : M B :=
  fun s =>
    match m s with
    | (Ok a, s') => k a s'
    | (Raise e, s') => (Raise e, s')
    end.

Definition modify (f : state -> state) : M unit :=
  fun s => (Ok tt, f s).

Definition gets {A} (f : state -> A) : M A :=
  fun s => (Ok (f s), s).

(** An expression that may raise. *)
Definition lift {A} (o : outcome A) : M A :=
  fun s => (o, s).

(** A read of the file system. *)
Definition fs_read {A} (f : World -> outcome A) : M A :=
  fun s => (f (st_world s), s).

(** An update of the file system by a call that returns the new file
    system or raises and leaves the file system [failed] gives. *)
Definition fs_write (f : World -> outcome World) (failed : World -> World) : M unit :=
  fun s =>
    match f (st_world s) with
    | Ok w' => (Ok tt, set_world w' s)
    | Raise e => (Raise e, set_world (failed (st_world s)) s)
    end.

(** [try: m except Exception as e: handler e] *)
Definition try_except {A} (m : M A) (handler : exn -> M A) : M A :=
  fun s =>
    match m s with
    | (Ok a, s') => (Ok a, s')
    | (Raise e, s') => handler e s'
    end.

End Orchestrator.

Arguments state World : clear implicits.
Arguments M World A : clear implicits.

Notation "'do' x <- m ;; k" := (bind m (fun x => k))
  (at level 10, x name, m at level 99, k at level 200, only parsing).

Section Organize.
Context `{PyLib} {World Path : Type} `{Pathlib Path} `{FileSystem World Path}.

(** The log lines and progress messages, as the f-strings build them. *)
Definition warning_line (file : Path) : string :=
  "Warning: Could not read hash for " +:+ path_name file
  +:+ ". Skipping duplicate check.".

Definition duplicate_line (file : Path) : string :=
  "DUPLICATE REMOVED: " +:+ path_name file +:+ " -> Duplicates".

Definition moved_line (file relative : Path) : string :=
  "Moved: " +:+ path_name file +:+ " → " +:+ path_str relative.

Definition error_line (file : Path) (e : exn) : string :=
  "ERROR moving " +:+ path_name file +:+ ": " +:+ exn_str e.

Definition processing_message (i total : Z) (file : Path) : string :=
  "Processing " +:+ path_name file +:+ " (" +:+ pretty i +:+ "/"
  +:+ pretty total +:+ ")".

Definition completed_message (total_files : Z) : string :=
  "Completed — " +:+ pretty total_files +:+ " files organized.".

(** The test of the list comprehension that builds [files]. *)
Definition eligible (w : World) (f : Path) : bool :=
  fs_is_file w f && negb (str_in (path_name f) ["app.py"; "organizer.py"]).

(** A call [progress_callback(percent, message)], recorded in
    [st_events] whether it returns or raises. *)
Definition invoke (cb : callback) (percent : Z) (message : string) : M World unit :=
  fun s => (cb percent message, set_events (st_events s ++ [(percent, message)]) s).

Variables (folder : Path) (organize_mode : string) (check_duplicates : bool)
          (progress_callback : option callback) (total : Z).

(** Lines 112-124: the file is a duplicate. *)
Definition remove_duplicate (i : Z) (file : Path) (size : Z) : M World flow :=
  do _ <- modify (fun s => set_duplicate_files (st_duplicate_files s + 1) s) ;;
  do _ <- modify (fun s => set_space_saved_bytes (st_space_saved_bytes s + size) s) ;;
  let duplicate_dir := folder // "Duplicates (Removed)" in
  do _ <- fs_write (fun w => fs_mkdir w duplicate_dir false true)
                   (fun w => fs_mkdir_failed w duplicate_dir false true) ;;
  do _ <- fs_write (fun w => shutil_move w (path_str file) (duplicate_dir // path_name file))
                   (fun w => shutil_move_failed w (path_str file)
                                                (duplicate_dir // path_name file)) ;;
  do _ <- modify (set_log_entry (duplicate_line file)) ;;
  do _ <- modify (fun s => set_analytics (append_log (st_log_entry s) (st_analytics s)) s) ;;
  do _ <- match progress_callback with
          | Some cb =>
              do percent <- lift (percent_of i total) ;;
              do log_entry <- gets st_log_entry ;;
              invoke cb percent log_entry
          | None => ret tt
          end ;;
  ret Continue.

(** Lines 106-126: the duplicate check. *)
Definition duplicate_check (i : Z) (file : Path) (size : Z) : M World flow :=
  if check_duplicates then
    do file_hash <- gets (fun s => calculate_hash (st_world s) file default_block_size) ;;
    match file_hash with
    | None =>
        do _ <- modify (set_log_entry (warning_line file)) ;;
        ret Fallthrough
    | Some file_hash =>
        do seen_hashes <- gets st_seen_hashes ;;
        if bool_decide (is_Some (seen_hashes !! file_hash)) then
          remove_duplicate i file size
        else
          do _ <- modify (fun s =>
                    set_seen_hashes (<[file_hash := path_name file]> (st_seen_hashes s)) s) ;;
          ret Fallthrough
    end
  else ret Fallthrough.

(** Lines 129-139: categorise and move. *)
Definition categorize_and_move (file : Path) (ext : string) : M World flow :=
  let category := get_category ext in
  do _ <- modify (fun s =>
            set_analytics
              (set_categories (dict_setdefault (categories (st_analytics s)) category 0)
                              (st_analytics s)) s) ;;
  do _ <- modify (fun s =>
            set_analytics
              (set_categories (dict_incr (categories (st_analytics s)) category)
                              (st_analytics s)) s) ;;
  do dest_dir <- fs_read (fun w => get_destination_path w folder file category organize_mode) ;;
  do _ <- fs_write (fun w => fs_mkdir w dest_dir true true)
                   (fun w => fs_mkdir_failed w dest_dir true true) ;;
  do _ <- fs_write (fun w => shutil_move w (path_str file) (dest_dir // path_name file))
                   (fun w => shutil_move_failed w (path_str file)
                                                (dest_dir // path_name file)) ;;
  do relative <- lift (path_relative_to dest_dir folder) ;;
  do _ <- modify (set_log_entry (moved_line file relative)) ;;
  ret Fallthrough.

(** The body of the [try] statement, lines 101-139. *)
Definition try_body (i : Z) (file : Path) : M World flow :=
  let ext := path_suffix file in
  do st <- fs_read (fun w => fs_stat w file) ;;
  let size := st_size st in
  do _ <- modify (fun s => set_analytics (add_total_size_bytes size (st_analytics s)) s) ;;
  do fl <- duplicate_check i file size ;;
  match fl with
  | Continue => ret Continue
  | Fallthrough => categorize_and_move file ext
  end.

(** The [except Exception as e] clause, line 141. *)
Definition except_clause (file : Path) (e : exn) : M World flow :=
  do _ <- modify (set_log_entry (error_line file e)) ;;
  ret Fallthrough.

(** Lines 144-147: what follows the [try] statement. *)
Definition report_progress (i : Z) (file : Path) : M World unit :=
  do _ <- modify (fun s => set_analytics (append_log (st_log_entry s) (st_analytics s)) s) ;;
  match progress_callback with
  | Some cb =>
      if total =? 0 then ret tt
      else
        do percent <- lift (percent_of i total) ;;
        invoke cb percent (processing_message i total file)
  | None => ret tt
  end.

(** One iteration of the [for] loop, lines 99-147. *)
Definition iteration (i : Z) (file : Path) : M World unit :=
  do _ <- modify (set_log_entry "") ;;
  do fl <- try_except (try_body i file) (except_clause file) ;;
  match fl with
  | Continue => ret tt
  | Fallthrough => report_progress i file
  end.

(** [for i, file in enumerate(files, start=i)] *)
Fixpoint for_loop (i : Z) (files : list Path) : M World unit :=
  match files with
  | [] => ret tt
  | file :: rest =>
      do _ <- iteration i file ;;
      for_loop (i + 1) rest
  end.

End Organize.

Section OrganizeFiles.
Context `{PyLib} {World Path : Type} `{Pathlib Path} `{FileSystem World Path}.

Definition initial_analytics (total : Z) : analytics :=
  mk_analytics total 0 ∅ 0 0 0 [].

Definition initial_state (w : World) (total : Z) : state World :=
  mk_state w (initial_analytics total) ∅ 0 0 "" [].

(** Lines 149-158: after the loop. *)
Definition finish (progress_callback : option callback) (elapsed : Z)
  : M World (list string * analytics) :=
  do _ <- modify (fun s => set_analytics (set_time_taken_sec elapsed (st_analytics s)) s) ;;
  do _ <- modify (fun s =>
            set_analytics (set_duplicates_removed (st_duplicate_files s) (st_analytics s)) s) ;;
  do _ <- modify (fun s =>
            set_analytics (set_space_saved (st_space_saved_bytes s) (st_analytics s)) s) ;;
  do a <- gets st_analytics ;;
  do _ <- match progress_callback with
          | Some cb =>
              invoke cb 100 (completed_message (total_files a))
          | None => ret tt
          end ;;
  do a <- gets st_analytics ;;
  ret (logs a, a).

(** [organize_files(folder_path, organize_mode, check_duplicates,
    progress_callback)], run in the world [w].  [start] and [now] are the
    readings of [time.time()] on entry and when the elapsed time is
    taken, in milliseconds.  The result is what the call returns or
    raises, with the final state: the file system, the report and the
    progress events. *)
Definition organize_files (w : World) (start now : Z)
           (folder_path : string) (organize_mode : string)
           (check_duplicates : bool) (progress_callback : option callback)
  : outcome (list string * analytics) * state World :=
  let folder := Path_of_str folder_path in
  match fs_iterdir w folder with
  | Raise e => (Raise e, initial_state w 0)
  | Ok entries =>
      let files := filter (fun f => eligible w f = true) entries in
      let total := Z.of_nat (length files) in
      let logs : list string := [] in
      if total =? 0 then
        (do _ <- modify (fun s =>
                   set_analytics (set_time_taken_sec (now - start) (st_analytics s)) s) ;;
         do _ <- match progress_callback with
                 | Some cb => invoke cb 100 "No files to organize"
                 | None => ret tt
                 end ;;
         do a <- gets st_analytics ;;
         ret (logs, a)) (initial_state w total)
      else
        (do _ <- for_loop folder organize_mode check_duplicates progress_callback
                          total 1 files ;;
         finish progress_callback (now - start)) (initial_state w total)
  end.

End OrganizeFiles.

(** The state after lines 130-131 have counted a file in [category]. *)
Definition counted {World : Type} (category : string) (s : state World) : state World :=
  set_analytics
    (set_categories (dict_incr (dict_setdefault (categories (st_analytics s)) category 0)
                               category)
                    (st_analytics s)) s.

(** The progress events a call site adds: one when there is a callback. *)
Definition emitted (progress_callback : option callback) (percent : Z)
           (message : string) : list (Z * string) :=
  match progress_callback with
  | Some _ => [(percent, message)]
  | None => []
  end.

(** ** An instance: a small POSIX-like platform

    Paths are lists of components, the file system is an association list
    in directory order, time stamps are read in UTC.  Its digest is not
    MD5: it is the hexadecimal text of the content, which, like MD5,
    depends on the content only. *)

Record posix_path : Type := mk_path {
  pp_absolute : bool;
  pp_parts : list string
}.

(** The components of a path written with "/": empty components and "."
    are dropped. *)
Fixpoint split_slash (acc : string) (s : string) : list string :=
  let flush (acc : string) :=
    if String.eqb acc "" || String.eqb acc "." then [] else [acc] in
  match s with
  | EmptyString => flush acc
  | String c r =>
      if Ascii.eqb c "/" then flush acc ++ split_slash "" r
      else split_slash (acc +:+ String c EmptyString) r
  end.

Definition posix_of_str (s : string) : posix_path :=
  mk_path (match s with String c _ => Ascii.eqb c "/" | EmptyString => false end)
          (split_slash "" s).

Fixpoint join_slash (parts : list string) : string :=
  match parts with
  | [] => ""
  | [x] => x
  | x :: rest => x +:+ "/" +:+ join_slash rest
  end.

Definition posix_str (p : posix_path) : string :=
  if pp_absolute p then "/" +:+ join_slash (pp_parts p)
  else match pp_parts p with [] => "." | _ => join_slash (pp_parts p) end.

Definition posix_name (p : posix_path) : string :=
  List.last (pp_parts p) "".

(** The text from the last "." of a name on, if any. *)
Fixpoint from_last_dot (s : string) : option string :=
  match s with
  | EmptyString => None
  | String c r =>
      match from_last_dot r with
      | Some x => Some x
      | None => if Ascii.eqb c "." then Some s else None
      end
  end.

(** [PurePath.suffix]: the last dot must be neither the first nor the last
    character of the name. *)
Definition suffix_of_name (name : string) : string :=
  match from_last_dot name with
  | Some x =>
      if (String.length x =? String.length name)%nat || (String.length x =? 1)%nat
      then "" else x
  | None => ""
  end.

Definition posix_join (p : posix_path) (s : string) : posix_path :=
  let q := posix_of_str s in
  if pp_absolute q then q
  else mk_path (pp_absolute p) (pp_parts p ++ pp_parts q).

Fixpoint strip_prefix (base p : list string) : option (list string) :=
  match base, p with
  | [], _ => Some p
  | b :: base', x :: p' => if String.eqb b x then strip_prefix base' p' else None
  | _ :: _, [] => None
  end.

Definition posix_relative_to (p base : posix_path) : outcome posix_path :=
  match (if Bool.eqb (pp_absolute p) (pp_absolute base)
         then strip_prefix (pp_parts base) (pp_parts p) else None) with
  | Some rest => Ok (mk_path false rest)
  | None =>
      Raise (Exception ("'" +:+ posix_str p +:+ "' is not in the subpath of '"
                        +:+ posix_str base +:+ "'"))
  end.

#[export] Instance posix_pathlib : Pathlib posix_path := {
  Path_of_str := posix_of_str;
  path_str := posix_str;
  path_name := posix_name;
  path_suffix p := suffix_of_name (posix_name p);
  path_join := posix_join;
  path_relative_to := posix_relative_to
}.

(** A node of the file system.  A directory may be read-only; a file has
    content, a modification time, may be unreadable, and may have a fault
    that interrupts its reading. *)
Inductive node : Type :=
| Dir (writable : bool)
| File (data : list byte) (mtime : Z) (readable : bool) (fault : option (nat * exn)).

Definition posix_world : Type := list (list string * node).

Definition parts_eqb (a b : list string) : bool := bool_decide (a = b).

Fixpoint lookup_node (w : posix_world) (p : list string) : option node :=
  match w with
  | [] => None
  | (q, n) :: rest => if parts_eqb q p then Some n else lookup_node rest p
  end.

Definition remove_node (w : posix_world) (p : list string) : posix_world :=
  List.filter (fun '(q, _) => negb (parts_eqb q p)) w.

Definition parent_of (p : list string) : list string := removelast p.

Definition errno (code : string) (what : string) (p : list string) : exn :=
  Exception ("[Errno " +:+ code +:+ "] " +:+ what +:+ ": '/" +:+ join_slash p +:+ "'").

Definition posix_iterdir (w : posix_world) (p : posix_path) : outcome (list posix_path) :=
  match lookup_node w (pp_parts p) with
  | Some (Dir _) =>
      Ok (List.map (fun '(q, _) => mk_path (pp_absolute p) q)
            (List.filter (fun '(q, _) =>
                            match q with
                            | [] => false
                            | _ :: _ => parts_eqb (parent_of q) (pp_parts p)
                            end) w))
  | Some (File _ _ _ _) => Raise (errno "20" "Not a directory" (pp_parts p))
  | None => Raise (errno "2" "No such file or directory" (pp_parts p))
  end.

Definition posix_is_file (w : posix_world) (p : posix_path) : bool :=
  match lookup_node w (pp_parts p) with
  | Some (File _ _ _ _) => true
  | _ => false
  end.

Definition posix_stat (w : posix_world) (p : posix_path) : outcome stat_result :=
  match lookup_node w (pp_parts p) with
  | Some (File data mtime _ _) => Ok (mk_stat (Z.of_nat (length data)) mtime)
  | Some (Dir _) => Ok (mk_stat 4096 0)
  | None => Raise (errno "2" "No such file or directory" (pp_parts p))
  end.

Definition posix_open_rb (w : posix_world) (p : posix_path) : outcome file_handle :=
  match lookup_node w (pp_parts p) with
  | Some (File data _ true fault) => Ok (mk_handle data fault)
  | Some (File _ _ false _) => Raise (errno "13" "Permission denied" (pp_parts p))
  | Some (Dir _) => Raise (errno "21" "Is a directory" (pp_parts p))
  | None => Raise (errno "2" "No such file or directory" (pp_parts p))
  end.

(** Create the one directory [p]; its parent must be a writable directory. *)
Definition mkdir_one (w : posix_world) (p : list string) (exist_ok : bool)
  : outcome posix_world :=
  match lookup_node w p with
  | Some (Dir _) =>
      if exist_ok then Ok w else Raise (errno "17" "File exists" p)
  | Some (File _ _ _ _) => Raise (errno "17" "File exists" p)
  | None =>
      match lookup_node w (parent_of p) with
      | Some (Dir true) => Ok (w ++ [(p, Dir true)])%list
      | Some (Dir false) => Raise (errno "13" "Permission denied" p)
      | Some (File _ _ _ _) => Raise (errno "20" "Not a directory" p)
      | None => Raise (errno "2" "No such file or directory" p)
      end
  end.

(** The proper prefixes of [p] that are not the root, shortest first. *)
Fixpoint ancestors (done p : list string) : list (list string) :=
  match p with
  | [] => []
  | [_] => []
  | x :: rest => (done ++ [x])%list :: ancestors (done ++ [x])%list rest
  end.

Definition posix_mkdir (w : posix_world) (p : posix_path) (parents exist_ok : bool)
  : outcome posix_world :=
  w' <-? (if parents then
            fold_left (fun acc a => w <-? acc; mkdir_one w a true)
                      (ancestors [] (pp_parts p)) (Ok w)
          else Ok w);
  mkdir_one w' (pp_parts p) exist_ok.

Definition dir_writable (w : posix_world) (p : list string) : bool :=
  match lookup_node w p with
  | Some (Dir true) => true
  | _ => false
  end.

(** What a [mkdir] that raises leaves behind: with [parents], the
    ancestors that could be created. *)
Definition posix_mkdir_failed (w : posix_world) (p : posix_path) (parents exist_ok : bool)
  : posix_world :=
  if parents then
    fold_left (fun acc a => match mkdir_one acc a true with
                            | Ok w' => w'
                            | Raise _ => acc
                            end)
              (ancestors [] (pp_parts p)) w
  else w.

(** [shutil.move]: a rename when the two directories can be written.  An
    existing directory as destination receives the source under its own
    name; an existing file is replaced. *)
Definition posix_move (w : posix_world) (src : string) (dst : posix_path)
  : outcome posix_world :=
  let s := pp_parts (posix_of_str src) in
  match lookup_node w s with
  | None => Raise (errno "2" "No such file or directory" s)
  | Some n =>
      let real_dst :=
        match lookup_node w (pp_parts dst) with
        | Some (Dir _) => (pp_parts dst ++ [List.last s ""])%list
        | _ => pp_parts dst
        end in
      match lookup_node w real_dst with
      | Some (Dir _) =>
          Raise (Exception ("Destination path '/" +:+ join_slash real_dst
                            +:+ "' already exists"))
      | _ =>
          if dir_writable w (parent_of s) && dir_writable w (parent_of real_dst)
          then Ok (remove_node (remove_node w s) real_dst ++ [(real_dst, n)])%list
          else Raise (errno "13" "Permission denied" s)
      end
  end.

(** What a [shutil.move] that raises leaves behind.  When the source
    directory cannot be written the rename fails, the file is copied to the
    destination, and removing the source raises: the copy stays.  In the
    other cases nothing has been written. *)
Definition posix_move_failed (w : posix_world) (src : string) (dst : posix_path)
  : posix_world :=
  let s := pp_parts (posix_of_str src) in
  match lookup_node w s with
  | Some (File data mtime true None) =>
      let real_dst :=
        match lookup_node w (pp_parts dst) with
        | Some (Dir _) => (pp_parts dst ++ [List.last s ""])%list
        | _ => pp_parts dst
        end in
      match lookup_node w real_dst with
      | Some (Dir _) => w
      | _ =>
          if negb (dir_writable w (parent_of s)) && dir_writable w (parent_of real_dst)
          then (remove_node w real_dst ++ [(real_dst, File data mtime true None)])%list
          else w
      end
  | _ => w
  end.

#[export] Instance posix_fs : FileSystem posix_world posix_path := {
  fs_iterdir := posix_iterdir;
  fs_is_file := posix_is_file;
  fs_stat := posix_stat;
  fs_open_rb := posix_open_rb;
  fs_mkdir := posix_mkdir;
  fs_mkdir_failed := posix_mkdir_failed;
  shutil_move := posix_move;
  shutil_move_failed := posix_move_failed
}.

(** A few entries of the MIME table, by the extension of the name. *)
Definition posix_guess_type (name : string) : option string :=
  let ext := string_map ascii_lower (suffix_of_name name) in
  if String.eqb ext ".webp" then Some "image/webp"
  else if String.eqb ext ".webm" then Some "video/webm"
  else if String.eqb ext ".ogg" then Some "audio/ogg"
  else if String.eqb ext ".json" then Some "application/json"
  else if String.eqb ext ".html" then Some "text/html"
  else None.

(** The civil date of a day number counted from 1970-01-01. *)
Definition civil_from_days (days : Z) : Z * Z * Z :=
  let z := days + 719468 in
  let era := z / 146097 in
  let doe := z - era * 146097 in
  let yoe := (doe - doe / 1460 + doe / 36524 - doe / 146096) / 365 in
  let doy := doe - (365 * yoe + yoe / 4 - yoe / 100) in
  let mp := (5 * doy + 2) / 153 in
  let d := doy - (153 * mp + 2) / 5 + 1 in
  let m := if mp <? 10 then mp + 3 else mp - 9 in
  let y := yoe + era * 400 + (if m <=? 2 then 1 else 0) in
  (y, m, d).

Definition utc_fromtimestamp (timestamp : Z) : outcome datetime :=
  let '(y, m, d) := civil_from_days (timestamp / 86400) in
  if (1 <=? y) && (y <=? 9999)
  then Ok (mk_datetime (Z.to_nat y) (Z.to_nat m) (Z.to_nat d))
  else Raise (Exception ("year " +:+ pretty y +:+ " is out of range")).

Definition hex_char (n : nat) : ascii :=
  if (n <? 10)%nat then ascii_of_nat (48 + n) else ascii_of_nat (87 + n).

Fixpoint hex_of_bytes (l : list byte) : string :=
  match l with
  | [] => EmptyString
  | b :: rest =>
      let n := Byte.to_nat b in
      String (hex_char (n / 16)) (String (hex_char (n mod 16)) (hex_of_bytes rest))
  end.

#[export] Instance posix_pylib : PyLib := {
  str_lower := string_map ascii_lower;
  mimetypes_guess_type := posix_guess_type;
  datetime_fromtimestamp := utc_fromtimestamp;
  md5_state := list byte;
  hashlib_md5 := [];
  md5_update h buf := (h ++ buf)%list;
  md5_hexdigest := hex_of_bytes
}.

(** The bytes of an ASCII text. *)
Definition bytes_of (s : string) : list byte := list_byte_of_string s.

(** A folder of four files: two pictures with the same content, a text
    file, and a film that cannot be opened. *)
Definition demo_world : posix_world :=
  [ ([], Dir true);
    (["home"], Dir true);
    (["home"; "a.JPG"], File (bytes_of "sunset") 1721001600 true None);
    (["home"; "notes.txt"], File (bytes_of "to do") 1700000000 true None);
    (["home"; "b.jpeg"], File (bytes_of "sunset") 1721001700 true None);
    (["home"; "film.webm"], File (bytes_of "frames") 1600000000 false None);
    (["home"; "organizer.py"], File (bytes_of "import os") 1600000000 true None);
    (["home"; "sub"], Dir true) ].

(** A folder that holds only a sub-folder and the tool's own script. *)
Definition idle_world : posix_world :=
  [ ([], Dir true);
    (["home"], Dir true);
    (["home"; "organizer.py"], File (bytes_of "import os") 1600000000 true None);
    (["home"; "sub"], Dir true) ].

(** A read-only folder with a text file and a copy of it: nothing can be
    created in it and nothing can be moved out of it. *)
Definition locked_world : posix_world :=
  [ ([], Dir true);
    (["ro"], Dir false);
    (["ro"; "notes.txt"], File (bytes_of "to do") 1700000000 true None);
    (["ro"; "copy.txt"], File (bytes_of "to do") 1700000001 true None) ].

(** A folder with a deed last modified on 0999-09-09 (UTC). *)
Definition old_world : posix_world :=
  [ ([], Dir true);
    (["old"], Dir true);
    (["old"; "deed.txt"], File (bytes_of "deed") (-30620073600) true None) ].

(** A read-only folder whose sub-folder Documents exists and can be
    written: a file cannot be moved out of the folder, but it can be copied
    into the sub-folder. *)
Definition sticky_world : posix_world :=
  [ ([], Dir true);
    (["ro"], Dir false);
    (["ro"; "Documents"], Dir true);
    (["ro"; "notes.txt"], File (bytes_of "to do") 1700000000 true None) ].

(** A folder with two pictures of the same content under two names. *)
Definition twin_world : posix_world :=
  [ ([], Dir true);
    (["home"], Dir true);
    (["home"; "a.JPG"], File (bytes_of "sunset") 1721001600 true None);
    (["home"; "b.jpeg"], File (bytes_of "sunset") 1721001700 true None) ].

(** A folder of [n] text files f1.txt, f2.txt, ... *)
Definition numbered_world (n : nat) : posix_world :=
  ([ ([], Dir true); (["home"], Dir true) ]
   ++ List.map (fun k => (["home"; "f" +:+ pretty (Z.of_nat k) +:+ ".txt"],
                          File (bytes_of "x") 1700000000 true None))
               (seq 1 n))%list.

(** A callback that returns. *)
Definition quiet : callback := fun _ _ => Ok tt.

Definition fifty_run :=
  organize_files (numbered_world 50) 0 5 "/home" "Category Only" false (Some quiet).

Definition locked_run :=
  organize_files locked_world 0 5 "/ro" "Category Only" true (Some quiet).

Definition demo_run :=
  organize_files demo_world 0 250 "/home" "Category / Year-Month" true (Some quiet).

(** ** Binary64 rounding, arithmetically

    Every non-negative binary64 number is a whole number of units of
    2^-1074.  [RNu N D] is the rational N/D, counted in these units,
    rounded to the nearest binary64 number, ties to even: N/D is rounded to
    a multiple of 2^g, where g leaves 53 significant bits.  The lemmas
    [SFdiv_units] and [mul100_units] show that this is what [SFdiv] and
    [SFmul] compute. *)

Definition rne_div (n d : Z) : Z :=
  let q := n / d in
  let r := n mod d in
  match 2 * r ?= d with
  | Lt => q
  | Eq => if Z.even q then q else q + 1
  | Gt => q + 1
  end.

(** The number of binary digits. *)
Definition bitlen (z : Z) : Z := Zdigits2 z.

Definition RNu (N D : Z) : Z :=
  let g := Z.max (bitlen (N / D) - 53) 0 in
  rne_div N (D * 2 ^ g) * 2 ^ g.

(** The value of a non-negative binary64 number in units of 2^-1074. *)
Definition units (x : spec_float) : option Z :=
  match x with
  | S754_zero _ => Some 0
  | S754_finite false m e =>
      if -1074 <=? e then Some (Zpos m * 2 ^ (e + 1074)) else None
  | _ => None
  end.

(** Where the remainder [r] of a division by [d] lies, and the rounding
    record of the quotient [n / d]. *)
Definition loc_of (r d : Z) : location :=
  if r =? 0 then loc_Exact else loc_Inexact (2 * r ?= d).

Definition rec_of (n d : Z) : shr_record :=
  shr_record_of_loc (n / d) (loc_of (n mod d) d).

(** What [percent_of i total] evaluates to when [1 <= i <= total]
    ([percent_of_value]). *)
Definition percent_value (i total : Z) : Z :=
  RNu (100 * RNu (i * 2 ^ 1074) total) 1 / 2 ^ 1074.

(** The percentages of a run over [total] files: one per file, then the
    100 of the final event. *)
Definition percent_sequence (total : Z) : list Z :=
  (((fun i => percent_value i total) <$> seqZ 1 total) ++ [100])%list.

(** The exact percentage, [floor(100 * i / total)]. *)
Definition percent_exact (i total : Z) : Z := (100 * i) / total.

(** ** Invariants of a run *)

(** The sum of the per-category counts of a report. *)
Definition category_total (d : gmap string Z) : Z :=
  map_fold (fun _ v acc => v + acc) 0 d.

(** The three shapes of a log line: what lines 119, 139 and 141 build. *)
Definition log_line_shape (l : string) : bool :=
  String.prefix "Moved: " l || String.prefix "ERROR moving " l
  || String.prefix "DUPLICATE REMOVED: " l.

(** The two shapes left when no duplicate is removed. *)
Definition not_duplicate_line (l : string) : bool :=
  String.prefix "Moved: " l || String.prefix "ERROR moving " l.

(** What the loop keeps true of the counters after [n] iterations: the
    report's [total_files] is not touched, every file is counted at most
    once, a category is in the report with a count of at least one, and a
    duplicate is found only after a file has been counted in a category. *)
Definition counters_sound {World : Type} (total_files0 : Z) (n : nat)
           (s : state World) : Prop :=
  total_files (st_analytics s) = total_files0
  /\ 0 <= st_duplicate_files s
  /\ 0 <= category_total (categories (st_analytics s))
  /\ category_total (categories (st_analytics s)) + st_duplicate_files s <= Z.of_nat n
  /\ (forall k v, categories (st_analytics s) !! k = Some v ->
        k ∈ ["Documents"; "Images"; "Videos"; "Music"; "Archives"; "Audios"; "Others"]
        /\ 1 <= v)
  /\ (forall h, is_Some (st_seen_hashes s !! h) ->
        1 <= category_total (categories (st_analytics s)))
  /\ (st_duplicate_files s = 0 \/ 1 <= category_total (categories (st_analytics s))).

(** A log line about [file]: one of the three lines an iteration ends with. *)
Definition line_about {Path : Type} `{Pathlib Path} (file : Path) (l : string) : Prop :=
  (exists relative, l = moved_line file relative)
  \/ (exists e, l = error_line file e)
  \/ l = duplicate_line file.

(** A callback that raises on every call, and one that raises when it is
    told of a duplicate. *)
Definition broken : callback :=
  fun _ _ => Raise (Exception "display closed").

Definition fussy : callback :=
  fun _ message =>
    if String.prefix "DUPLICATE" message then Raise (Exception "display closed")
    else Ok tt.

(** A folder with a file whose second read fails. *)
Definition faulty_world : posix_world :=
  [ ([], Dir true);
    (["home"], Dir true);
    (["home"; "disk.img"],
     File (bytes_of "sunset") 1700000000 true
          (Some (1%nat, Exception "[Errno 5] Input/output error"))) ].

(** The run over the two pictures of the same content, with and without
    the duplicate check. *)
Definition twin_run (check_duplicates : bool) (progress_callback : option callback) :=
  organize_files twin_world 0 5 "/home" "Category Only" check_duplicates
                 progress_callback.

(** * Proofs *)

(** ** Binary64 rounding *)


Lemma rne_div_bounds n d : 0 < d -> n / d <= rne_div n d <= n / d + 1.
Proof.
  intros Hd. unfold rne_div.
  destruct (2 * (n mod d) ?= d); try destruct (Z.even (n / d)); lia.
Qed.

Lemma rne_div_exact k d : 0 < d -> rne_div (k * d) d = k.
Proof.
  intros Hd. unfold rne_div.
  rewrite Z.div_mul, Z.mod_mul by lia.
  destruct (Z.compare_spec (2 * 0) d); try reflexivity; lia.
Qed.

Lemma rne_div_mono n n' d : 0 < d -> n <= n' -> rne_div n d <= rne_div n' d.
Proof.
  intros Hd Hn.
  assert (Hq : n / d <= n' / d) by (apply Z.div_le_mono; lia).
  destruct (Z.eq_dec (n / d) (n' / d)) as [E|E].
  - assert (Hr : n mod d <= n' mod d).
    { pose proof (Z.div_mod n d ltac:(lia)). pose proof (Z.div_mod n' d ltac:(lia)).
      rewrite E in *. lia. }
    unfold rne_div. rewrite E.
    destruct (Z.compare_spec (2 * (n mod d)) d);
      destruct (Z.compare_spec (2 * (n' mod d)) d);
      try destruct (Z.even (n' / d)); lia.
  - pose proof (rne_div_bounds n d Hd). pose proof (rne_div_bounds n' d Hd). lia.
Qed.

Lemma rne_div_scale n d c : 0 < d -> 0 < c -> rne_div (n * c) (d * c) = rne_div n d.
Proof.
  intros Hd Hc. unfold rne_div.
  rewrite Z.div_mul_cancel_r by lia.
  rewrite Z.mul_mod_distr_r by lia.
  destruct (Z.compare_spec (2 * (n mod d * c)) (d * c));
    destruct (Z.compare_spec (2 * (n mod d)) d); try reflexivity; nia.
Qed.

Lemma rne_div_nonneg n d : 0 < d -> 0 <= n -> 0 <= rne_div n d.
Proof.
  intros Hd Hn. pose proof (rne_div_bounds n d Hd).
  pose proof (Z.div_pos n d Hn Hd). lia.
Qed.

Lemma rne_div_le n d k : 0 < d -> n <= k * d -> rne_div n d <= k.
Proof.
  intros Hd Hn. rewrite <- (rne_div_exact k d Hd). apply rne_div_mono; trivial.
Qed.

Lemma rne_div_ge n d k : 0 < d -> k * d <= n -> k <= rne_div n d.
Proof.
  intros Hd Hn. rewrite <- (rne_div_exact k d Hd). apply rne_div_mono; trivial.
Qed.


Lemma digits2_pos_size p : digits2_pos p = Pos.size p.
Proof. induction p; simpl; congruence. Qed.

Lemma bitlen_pos_spec p : 2 ^ (bitlen (Zpos p) - 1) <= Zpos p < 2 ^ bitlen (Zpos p).
Proof.
  change (bitlen (Zpos p)) with (Zpos (digits2_pos p)). rewrite digits2_pos_size.
  split.
  - pose proof (Pos.size_le p) as H.
    assert (Hz : (2 ^ Z.pos (Pos.size p) <= 2 * Z.pos p)).
    { rewrite <- Pos2Z.inj_pow. change (2 * Z.pos p) with (Z.pos (p~0)). apply Pos2Z.pos_le_pos. exact H. }
    replace (Z.pos (Pos.size p)) with (Z.succ (Z.pos (Pos.size p) - 1)) in Hz by lia.
    rewrite Z.pow_succ_r in Hz by lia. lia.
  - pose proof (Pos.size_gt p) as H.
    rewrite <- Pos2Z.inj_pow. apply Pos2Z.pos_lt_pos. exact H.
Qed.

Lemma bitlen_spec z : 0 < z -> 2 ^ (bitlen z - 1) <= z < 2 ^ bitlen z.
Proof. destruct z; try lia. intros _. apply bitlen_pos_spec. Qed.

Lemma bitlen_0 : bitlen 0 = 0.
Proof. reflexivity. Qed.

Lemma bitlen_nonneg z : 0 <= bitlen z.
Proof. destruct z; simpl; lia. Qed.

Lemma bitlen_pos z : 0 < z -> 0 < bitlen z.
Proof. destruct z; simpl; lia. Qed.

Lemma bitlen_unique z k : 2 ^ (k - 1) <= z < 2 ^ k -> 0 < z -> bitlen z = k.
Proof.
  intros [Hl Hu] Hz.
  destruct (bitlen_spec z Hz) as [Hl' Hu'].
  pose proof (bitlen_pos z Hz).
  assert (0 < k).
  { destruct (Z_lt_le_dec 0 k); trivial.
    assert (2 ^ k <= 2 ^ 0) by (apply Z.pow_le_mono_r; lia).
    simpl in *. lia. }
  destruct (Z.lt_trichotomy (bitlen z) k) as [C|[C|C]]; trivial.
  - assert (2 ^ bitlen z <= 2 ^ (k - 1)) by (apply Z.pow_le_mono_r; lia). lia.
  - assert (2 ^ k <= 2 ^ (bitlen z - 1)) by (apply Z.pow_le_mono_r; lia). lia.
Qed.

Lemma bitlen_le_mono a b : 0 <= a <= b -> bitlen a <= bitlen b.
Proof.
  intros [Ha Hab].
  destruct (Z.eq_dec a 0) as [->|Ha0]; [rewrite bitlen_0; apply bitlen_nonneg|].
  assert (0 < a) by lia. assert (0 < b) by lia.
  destruct (bitlen_spec a) as [La Ua]; trivial.
  destruct (bitlen_spec b) as [Lb Ub]; trivial.
  destruct (Z_lt_le_dec (bitlen b) (bitlen a)) as [C|C]; trivial.
  assert (2 ^ bitlen b <= 2 ^ (bitlen a - 1)) by (apply Z.pow_le_mono_r; lia). lia.
Qed.

Lemma bitlen_lt_pow z k : 0 <= z -> 0 <= k -> (z < 2 ^ k <-> bitlen z <= k).
Proof.
  intros Hz Hk.
  destruct (Z.eq_dec z 0) as [->|Hz0].
  - rewrite bitlen_0. split; intros; try lia.
  - destruct (bitlen_spec z) as [L U]; [lia|].
    pose proof (bitlen_pos z ltac:(lia)).
    split; intros Hc.
    + destruct (Z_lt_le_dec k (bitlen z)) as [C|C]; trivial.
      assert (2 ^ k <= 2 ^ (bitlen z - 1)) by (apply Z.pow_le_mono_r; lia). lia.
    + assert (2 ^ bitlen z <= 2 ^ k) by (apply Z.pow_le_mono_r; lia). lia.
Qed.


Lemma RNu_mono N N' D : 0 < D -> 0 <= N <= N' -> RNu N D <= RNu N' D.
Proof.
  intros HD [HN HNN]. unfold RNu.
  assert (Hq : 0 <= N / D <= N' / D).
  { split; [apply Z.div_pos; lia | apply Z.div_le_mono; lia]. }
  pose proof (bitlen_le_mono _ _ Hq) as Hb.
  set (g := Z.max (bitlen (N / D) - 53) 0).
  set (g' := Z.max (bitlen (N' / D) - 53) 0).
  assert (Hg : 0 <= g <= g') by lia.
  assert (P : 0 < 2 ^ g) by (apply Z.pow_pos_nonneg; lia).
  assert (P' : 0 < 2 ^ g') by (apply Z.pow_pos_nonneg; lia).
  destruct (Z.eq_dec g g') as [E|E].
  - rewrite <- E. apply Z.mul_le_mono_nonneg_r; [lia|].
    apply rne_div_mono; nia.
  - (* g < g' : compare with 2^(53+g) *)
    assert (Hlow : rne_div N (D * 2 ^ g) <= 2 ^ 53).
    { apply rne_div_le; [nia|].
      assert (N / D < 2 ^ (53 + g)).
      { apply bitlen_lt_pow; lia. }
      rewrite Z.pow_add_r in * by lia.
      pose proof (Z.div_mod N D ltac:(lia)). pose proof (Z.mod_pos_bound N D HD). nia. }
    assert (Hhigh : 2 ^ 52 <= rne_div N' (D * 2 ^ g')).
    { apply rne_div_ge; [nia|].
      assert (Hb' : bitlen (N' / D) = 53 + g') by lia.
      assert (0 < N' / D).
      { destruct (Z.eq_dec (N' / D) 0) as [Z0|]; [rewrite Z0, bitlen_0 in Hb'; lia | lia]. }
      destruct (bitlen_spec (N' / D)) as [L _]; trivial.
      rewrite Hb' in L. replace (53 + g' - 1) with (52 + g') in L by lia.
      rewrite Z.pow_add_r in L by lia.
      pose proof (Z.div_mod N' D ltac:(lia)). pose proof (Z.mod_pos_bound N' D HD). nia. }
    assert (2 ^ g' = 2 ^ g * 2 ^ (g' - g)).
    { rewrite <- Z.pow_add_r by lia. f_equal. lia. }
    assert (2 <= 2 ^ (g' - g)).
    { change 2 with (2 ^ 1) at 1. apply Z.pow_le_mono_r; lia. }
    change (2 ^ 53) with (2 * 2 ^ 52) in Hlow.
    nia.
Qed.

Lemma RNu_scale N D c : 0 < D -> 0 < c -> RNu (N * c) (D * c) = RNu N D.
Proof.
  intros HD Hc. unfold RNu.
  rewrite Z.div_mul_cancel_r by lia.
  set (g := Z.max (bitlen (N / D) - 53) 0).
  assert (0 < 2 ^ g) by (apply Z.pow_pos_nonneg; lia).
  replace (D * c * 2 ^ g) with (D * 2 ^ g * c) by ring.
  rewrite rne_div_scale by nia. reflexivity.
Qed.

Lemma RNu_nonneg N D : 0 < D -> 0 <= N -> 0 <= RNu N D.
Proof.
  intros HD HN. unfold RNu.
  set (g := Z.max (bitlen (N / D) - 53) 0).
  assert (0 < 2 ^ g) by (apply Z.pow_pos_nonneg; lia).
  pose proof (rne_div_nonneg N (D * 2 ^ g) ltac:(nia) HN). nia.
Qed.

(** A multiple of a power of two with at most 53 significant bits is its own rounding. *)
Lemma RNu_exact m h D :
  0 < D -> 0 <= h -> 2 ^ 52 <= m < 2 ^ 53 -> RNu (m * 2 ^ h * D) D = m * 2 ^ h.
Proof.
  intros HD Hh Hm. unfold RNu.
  rewrite Z.div_mul by lia.
  assert (P : 0 < 2 ^ h) by (apply Z.pow_pos_nonneg; lia).
  assert (Hb : bitlen (m * 2 ^ h) = 53 + h).
  { apply bitlen_unique; [|nia].
    replace (53 + h - 1) with (52 + h) by lia.
    rewrite !Z.pow_add_r by lia. nia. }
  rewrite Hb. replace (Z.max (53 + h - 53) 0) with h by lia.
  replace (m * 2 ^ h * D) with (m * (D * 2 ^ h)) by ring.
  rewrite rne_div_exact by nia. reflexivity.
Qed.

(** ** Symbolic execution of SpecFloat's rounding *)



Lemma new_location_spec d r : 0 < d -> 0 <= r < d -> new_location d r = loc_of r d.
Proof.
  intros Hd Hr. unfold new_location, new_location_even, new_location_odd, loc_of.
  destruct (Z.even d) eqn:Ev; destruct (r =? 0) eqn:R0; try reflexivity.
  f_equal.
  assert (Hodd : Z.odd d = true) by (rewrite <- Z.negb_even, Ev; reflexivity).
  apply Z.odd_spec in Hodd. destruct Hodd as [k Hk].
  destruct (Z.compare_spec (2 * r + 1) d); destruct (Z.compare_spec (2 * r) d);
    try reflexivity; lia.
Qed.

Lemma loc_of_shr_record_of_loc m l : loc_of_shr_record (shr_record_of_loc m l) = l.
Proof. destruct l as [|[]]; reflexivity. Qed.

Lemma shr_m_shr_record_of_loc m l : shr_m (shr_record_of_loc m l) = m.
Proof. destruct l as [|[]]; reflexivity. Qed.

Lemma shr_1_rec n d : 0 <= n -> 0 < d -> shr_1 (rec_of n d) = rec_of n (2 * d).
Proof.
  intros Hn Hd. unfold rec_of.
  assert (Hq : 0 <= n / d) by (apply Z.div_pos; lia).
  pose proof (Z.mod_pos_bound n d Hd) as Hr.
  pose proof (Z.div_mod n d ltac:(lia)) as Hnd.
  assert (Hq2 : n / (2 * d) = (n / d) / 2).
  { rewrite (Z.mul_comm 2 d). rewrite Z.div_div by lia. reflexivity. }
  pose proof (Z.div_mod (n / d) 2 ltac:(lia)) as Hqd.
  pose proof (Z.mod_pos_bound (n / d) 2 ltac:(lia)) as Hqr.
  assert (Hr2 : n mod (2 * d) = n mod d + d * ((n / d) mod 2)).
  { symmetry. apply Z.mod_unique with (q := (n / d) / 2); [ left; nia | nia ]. }
  rewrite Hq2, Hr2.
  destruct (n / d) as [|p|p] eqn:Eq; [| |lia].
  - (* quotient 0 *)
    change (0 / 2) with 0. change (0 mod 2) with 0.
    replace (n mod d + d * 0) with (n mod d) by ring.
    unfold loc_of. destruct (n mod d =? 0) eqn:R0; [reflexivity|].
    apply Z.eqb_neq in R0.
    destruct (Z.compare_spec (2 * (n mod d)) d); destruct (Z.compare_spec (2 * (n mod d)) (2 * d));
      try reflexivity; lia.
  - destruct p as [p|p|].
    + (* odd: 2p+1 *)
      replace (Z.pos p~1 / 2) with (Z.pos p) by (rewrite Pos2Z.inj_xI; apply Z.div_unique with (r := 1); lia).
      replace (Z.pos p~1 mod 2) with 1 by (rewrite Pos2Z.inj_xI; apply Z.mod_unique with (q := Z.pos p); lia).
      unfold loc_of. 
      destruct (n mod d + d * 1 =? 0) eqn:R1; [apply Z.eqb_eq in R1; lia|].
      destruct (n mod d =? 0) eqn:R0.
      * apply Z.eqb_eq in R0.
        destruct (Z.compare_spec (2 * (n mod d + d * 1)) (2 * d)); try reflexivity; lia.
      * apply Z.eqb_neq in R0.
        destruct (Z.compare_spec (2 * (n mod d + d * 1)) (2 * d));
          destruct (Z.compare_spec (2 * (n mod d)) d); try reflexivity; lia.
    + (* even: 2p *)
      replace (Z.pos p~0 / 2) with (Z.pos p) by (apply Z.div_unique with (r := 0); lia).
      replace (Z.pos p~0 mod 2) with 0 by (apply Z.mod_unique with (q := Z.pos p); lia).
      replace (n mod d + d * 0) with (n mod d) by ring.
      unfold loc_of. destruct (n mod d =? 0) eqn:R0; [reflexivity|].
      apply Z.eqb_neq in R0.
      destruct (Z.compare_spec (2 * (n mod d)) d); destruct (Z.compare_spec (2 * (n mod d)) (2 * d));
        try reflexivity; lia.
    + (* one *)
      change (1 / 2) with 0. change (1 mod 2) with 1.
      unfold loc_of.
      destruct (n mod d + d * 1 =? 0) eqn:R1; [apply Z.eqb_eq in R1; lia|].
      destruct (n mod d =? 0) eqn:R0.
      * apply Z.eqb_eq in R0.
        destruct (Z.compare_spec (2 * (n mod d + d * 1)) (2 * d)); try reflexivity; lia.
      * apply Z.eqb_neq in R0.
        destruct (Z.compare_spec (2 * (n mod d + d * 1)) (2 * d));
          destruct (Z.compare_spec (2 * (n mod d)) d); try reflexivity; lia.
Qed.

Lemma pow2_xI p : 2 ^ Z.pos p~1 = 2 * 2 ^ Z.pos p * 2 ^ Z.pos p.
Proof.
  rewrite Pos2Z.inj_xI. replace (2 * Z.pos p + 1) with (1 + Z.pos p + Z.pos p) by lia.
  rewrite !Z.pow_add_r by lia. reflexivity.
Qed.

Lemma pow2_xO p : 2 ^ Z.pos p~0 = 2 ^ Z.pos p * 2 ^ Z.pos p.
Proof.
  replace (Z.pos p~0) with (Z.pos p + Z.pos p) by lia.
  rewrite !Z.pow_add_r by lia. reflexivity.
Qed.

Lemma iter_shr_1_rec p : forall n d, 0 <= n -> 0 < d ->
  SpecFloat.iter_pos shr_1 p (rec_of n d) = rec_of n (d * 2 ^ Zpos p).
Proof.
  induction p as [p IH|p IH|]; intros n d Hn Hd; simpl SpecFloat.iter_pos.
  - rewrite shr_1_rec by lia.
    assert (0 < 2 ^ Z.pos p) by (apply Z.pow_pos_nonneg; lia).
    rewrite IH by lia. rewrite IH by nia.
    rewrite pow2_xI. f_equal. ring.
  - assert (0 < 2 ^ Z.pos p) by (apply Z.pow_pos_nonneg; lia).
    rewrite IH by lia. rewrite IH by nia.
    rewrite pow2_xO. f_equal. ring.
  - rewrite shr_1_rec by lia. f_equal. change (2 ^ 1) with 2. ring.
Qed.

Lemma shr_rec n d e k : 0 <= n -> 0 < d -> 0 <= k ->
  shr (rec_of n d) e k = (rec_of n (d * 2 ^ k), e + k).
Proof.
  intros Hn Hd Hk. unfold shr. destruct k as [|p|p]; [| |lia].
  - rewrite Z.mul_1_r, Z.add_0_r. reflexivity.
  - rewrite iter_shr_1_rec by lia. reflexivity.
Qed.

Lemma round_rec n d : 0 < d ->
  round_nearest_even (shr_m (rec_of n d)) (loc_of_shr_record (rec_of n d)) = rne_div n d.
Proof.
  intros Hd. unfold rec_of. rewrite shr_m_shr_record_of_loc, loc_of_shr_record_of_loc.
  unfold rne_div, loc_of, round_nearest_even.
  destruct (n mod d =? 0) eqn:R0.
  - apply Z.eqb_eq in R0. rewrite R0.
    destruct (Z.compare_spec (2 * 0) d); try reflexivity; lia.
  - reflexivity.
Qed.

Lemma rec_of_exact m : shr_record_of_loc m loc_Exact = rec_of m 1.
Proof.
  unfold rec_of. rewrite Z.div_1_r, Z.mod_1_r. reflexivity.
Qed.


Lemma fexp_eq e : fexp prec emax e = Z.max (e - 53) (-1074).
Proof. reflexivity. Qed.


Lemma pow2_pos k : 0 <= k -> 0 < 2 ^ k.
Proof. intros. apply Z.pow_pos_nonneg; lia. Qed.

Lemma pow2_split a b : 0 <= a -> 0 <= b -> 2 ^ (a + b) = 2 ^ a * 2 ^ b.
Proof. intros. apply Z.pow_add_r; lia. Qed.

Lemma div_small_bound n d k : 0 <= n -> 0 < d -> n / d < k -> n < k * d.
Proof.
  intros Hn Hd H. pose proof (Z.div_mod n d ltac:(lia)). pose proof (Z.mod_pos_bound n d Hd). nia.
Qed.

Lemma bra_spec n d ex :
  0 <= n -> 0 < d ->
  let e1 := fexp prec emax (Zdigits2 (n / d) + ex) in
  ex <= e1 -> e1 < 971 ->
  units (binary_round_aux prec emax false (n / d) ex (loc_of (n mod d) d))
  = Some (rne_div n (d * 2 ^ (e1 - ex)) * 2 ^ (e1 + 1074)).
Proof.
  intros Hn Hd e1 Hex Hov.
  unfold binary_round_aux, shr_fexp.
  fold (rec_of n d). fold e1.
  rewrite shr_rec by lia.
  assert (Pk : 0 < 2 ^ (e1 - ex)) by (apply pow2_pos; lia).
  rewrite round_rec by nia.
  set (m2 := rne_div n (d * 2 ^ (e1 - ex))).
  assert (He1 : -1074 <= e1) by (unfold e1; rewrite fexp_eq; lia).
  assert (Hm2 : 0 <= m2 <= 2 ^ 53).
  { split; [apply rne_div_nonneg; nia|].
    apply rne_div_le; [nia|].
    assert (Hq : 0 <= n / d) by (apply Z.div_pos; lia).
    assert (Hlt : n / d < 2 ^ (53 + (e1 - ex))).
    { apply bitlen_lt_pow; [lia|lia|].
      unfold e1. rewrite fexp_eq. unfold bitlen. lia. }
    apply div_small_bound in Hlt; [|lia|lia].
    rewrite pow2_split in Hlt by lia. nia. }
  replace (ex + (e1 - ex)) with e1 by lia.
  rewrite rec_of_exact.
  rewrite fexp_eq.
  destruct (Z.eq_dec m2 (2 ^ 53)) as [E53|N53].
  - (* the rounding carried into the next binade *)
    rewrite E53.
    change (Zdigits2 (2 ^ 53)) with 54.
    replace (Z.max (54 + e1 - 53) (-1074) - e1) with 1 by lia.
    rewrite shr_rec by lia.
    unfold rec_of. rewrite shr_m_shr_record_of_loc.
    change (2 ^ 53 / (1 * 2 ^ 1)) with (Z.pos (2 ^ 52)).
    cbv iota beta.
    replace (e1 + 1 <=? emax - prec) with true by (symmetry; apply Z.leb_le; unfold emax, prec; lia).
    unfold units.
    replace (-1074 <=? e1 + 1) with true by (symmetry; apply Z.leb_le; lia).
    f_equal. replace (e1 + 1 + 1074) with (1 + (e1 + 1074)) by lia.
    rewrite pow2_split by lia. change (Z.pos (2 ^ 52)) with (2 ^ 52). change (2 ^ 53) with (2 ^ 52 * 2 ^ 1). ring.
  - assert (Hb : bitlen m2 <= 53).
    { apply bitlen_lt_pow; lia. }
    unfold bitlen in Hb.
    assert (Hk2 : Z.max (Zdigits2 m2 + e1 - 53) (-1074) - e1 <= 0) by lia.
    unfold shr at 1.
    destruct (Z.max (Zdigits2 m2 + e1 - 53) (-1074) - e1) as [|p|p] eqn:K2; [| lia |].
    + unfold rec_of. rewrite shr_m_shr_record_of_loc, Z.div_1_r.
      destruct m2 as [|m|m] eqn:Em; [| |lia].
      * reflexivity.
      * replace (e1 <=? emax - prec) with true by (symmetry; apply Z.leb_le; unfold emax, prec; lia).
        unfold units.
        replace (-1074 <=? e1) with true by (symmetry; apply Z.leb_le; lia).
        reflexivity.
    + unfold rec_of. rewrite shr_m_shr_record_of_loc, Z.div_1_r.
      destruct m2 as [|m|m] eqn:Em; [| |lia].
      * reflexivity.
      * replace (e1 <=? emax - prec) with true by (symmetry; apply Z.leb_le; unfold emax, prec; lia).
        unfold units.
        replace (-1074 <=? e1) with true by (symmetry; apply Z.leb_le; lia).
        reflexivity.
Qed.

Lemma bitlen_scaled n d a b :
  0 <= n -> 0 < d -> 0 <= a -> 0 <= b ->
  let E := a - b in
  (n / d = 0 -> E <= 0) ->
  Z.max (bitlen (n * 2 ^ a / (d * 2 ^ b)) - 53) 0 = Z.max (bitlen (n / d) + E - 53) 0.
Proof.
  intros Hn Hd Ha Hb E Hz.
  pose proof (pow2_pos a Ha) as Pa. pose proof (pow2_pos b Hb) as Pb.
  assert (Hq : 0 <= n / d) by (apply Z.div_pos; lia).
  destruct (Z.eq_dec (n / d) 0) as [Q0|Q0].
  - rewrite Q0, bitlen_0. specialize (Hz Q0).
    assert (n < d) by (pose proof (div_small_bound n d 1 Hn Hd); lia).
    assert (2 ^ a <= 2 ^ b) by (apply Z.pow_le_mono_r; lia).
    rewrite Z.div_small by nia. rewrite bitlen_0. lia.
  - assert (Hmx : 0 < n / d) by lia.
    destruct (bitlen_spec (n / d) Hmx) as [L U].
    pose proof (bitlen_pos (n / d) Hmx) as Hdm.
    set (dm := bitlen (n / d)) in *.
    assert (Ln : 2 ^ (dm - 1) * d <= n).
    { pose proof (Z.div_mod n d ltac:(lia)). pose proof (Z.mod_pos_bound n d Hd). nia. }
    assert (Un : n < 2 ^ dm * d).
    { apply div_small_bound; lia. }
    destruct (Z_lt_le_dec 0 (dm + E)) as [C|C].
    + assert (bitlen (n * 2 ^ a / (d * 2 ^ b)) = dm + E); [|lia].
      assert (Hlow : 2 ^ (dm + E - 1) <= n * 2 ^ a / (d * 2 ^ b)).
      { apply Z.div_le_lower_bound; [nia|].
        assert (d * 2 ^ b * 2 ^ (dm + E - 1) = 2 ^ (dm - 1) * d * 2 ^ a).
        { replace (d * 2 ^ b * 2 ^ (dm + E - 1)) with (d * (2 ^ b * 2 ^ (dm + E - 1))) by ring.
          rewrite <- pow2_split by lia.
          replace (2 ^ (dm - 1) * d * 2 ^ a) with (d * (2 ^ (dm - 1) * 2 ^ a)) by ring.
          rewrite <- pow2_split by lia. do 2 f_equal. unfold E. lia. }
        nia. }
      apply bitlen_unique.
      * split; [exact Hlow|].
        apply Z.div_lt_upper_bound; [nia|].
        assert (d * 2 ^ b * 2 ^ (dm + E) = 2 ^ dm * d * 2 ^ a).
        { replace (d * 2 ^ b * 2 ^ (dm + E)) with (d * (2 ^ b * 2 ^ (dm + E))) by ring.
          rewrite <- pow2_split by lia.
          replace (2 ^ dm * d * 2 ^ a) with (d * (2 ^ dm * 2 ^ a)) by ring.
          rewrite <- pow2_split by lia. do 2 f_equal. unfold E. lia. }
        nia.
      * pose proof (pow2_pos (dm + E - 1) ltac:(lia)). lia.
    + assert (2 ^ dm * 2 ^ a <= 2 ^ b).
      { rewrite <- pow2_split by lia. apply Z.pow_le_mono_r; unfold E in *; lia. }
      rewrite Z.div_small by nia. rewrite bitlen_0. lia.
Qed.

Lemma bra_units n d ex a b :
  0 <= n -> 0 < d -> 0 <= a -> 0 <= b -> ex + 1074 = a - b ->
  let e1 := fexp prec emax (Zdigits2 (n / d) + ex) in
  ex <= e1 -> e1 < 971 ->
  units (binary_round_aux prec emax false (n / d) ex (loc_of (n mod d) d))
  = Some (RNu (n * 2 ^ a) (d * 2 ^ b)).
Proof.
  intros Hn Hd Ha Hb HE e1 Hex Hov.
  rewrite bra_spec by assumption. fold e1. f_equal.
  unfold RNu.
  assert (Hg : Z.max (bitlen (n * 2 ^ a / (d * 2 ^ b)) - 53) 0 = e1 + 1074).
  { rewrite bitlen_scaled; try lia.
    - unfold e1. rewrite fexp_eq. unfold bitlen. lia.
    - intros Q0. unfold e1 in Hex. rewrite Q0, fexp_eq in Hex. simpl Zdigits2 in Hex. lia. }
  rewrite Hg.
  pose proof (pow2_pos a Ha) as Pa. pose proof (pow2_pos b Hb) as Pb.
  pose proof (pow2_pos (e1 - ex) ltac:(lia)) as Pk.
  assert (He1 : -1074 <= e1) by (unfold e1; rewrite fexp_eq; lia).
  assert (Hden : d * 2 ^ b * 2 ^ (e1 + 1074) = d * 2 ^ (e1 - ex) * 2 ^ a).
  { replace (d * 2 ^ b * 2 ^ (e1 + 1074)) with (d * (2 ^ b * 2 ^ (e1 + 1074))) by ring.
    rewrite <- pow2_split by lia.
    replace (d * 2 ^ (e1 - ex) * 2 ^ a) with (d * (2 ^ (e1 - ex) * 2 ^ a)) by ring.
    rewrite <- pow2_split by lia. do 2 f_equal. lia. }
  rewrite Hden. rewrite rne_div_scale by nia. reflexivity.
Qed.


Lemma div_eucl_eq a b : Z.div_eucl a b = (a / b, a mod b).
Proof. unfold Z.div, Z.modulo. destruct (Z.div_eucl a b). reflexivity. Qed.

Lemma SFdiv_units i T :
  1 <= i <= T ->
  units (SFdiv prec emax (SF_of_int i) (SF_of_int T)) = Some (RNu (i * 2 ^ 1074) T).
Proof.
  intros [Hi HiT].
  destruct i as [|pi|pi]; try lia. destruct T as [|pT|pT]; try lia.
  unfold SF_of_int, SFdiv, SFdiv_core_binary.
  fold (bitlen (Z.pos pi)). fold (bitlen (Z.pos pT)).
  set (d1 := bitlen (Z.pos pi)). set (d2 := bitlen (Z.pos pT)).
  rewrite fexp_eq.
  destruct (bitlen_spec (Z.pos pi)) as [L1 U1]; [lia|]. fold d1 in L1, U1.
  destruct (bitlen_spec (Z.pos pT)) as [L2 U2]; [lia|]. fold d2 in L2, U2.
  assert (Hd12 : 0 < d1 <= d2).
  { split; [apply bitlen_pos; lia | apply bitlen_le_mono; lia]. }
  set (e0 := Z.max (d1 - d2 - 53) (-1074)).
  replace (Z.min (Z.max (d1 + 0 - (d2 + 0) - 53) (-1074)) (0 - 0)) with e0 by (unfold e0; lia).
  assert (He0 : -1074 <= e0 < 0) by (unfold e0; lia).
  destruct (0 - 0 - e0) as [|s|s] eqn:Es; [lia| |lia].
  rewrite Z.shiftl_mul_pow2 by lia.
  rewrite div_eucl_eq.
  pose proof (pow2_pos (Z.pos s) ltac:(lia)) as Ps.
  rewrite new_location_spec by (try apply Z.mod_pos_bound; lia).
  change (xorb false false) with false.
  rewrite (bra_units (Z.pos pi * 2 ^ Z.pos s) (Z.pos pT) e0 (e0 + 1074) 0); try lia.
  - f_equal. rewrite Z.mul_1_r. f_equal.
    rewrite <- Z.mul_assoc, <- pow2_split by lia. do 2 f_equal. lia.
  - (* the quotient has enough digits *)
    rewrite fexp_eq.
    destruct (Z.eq_dec e0 (-1074)) as [E|E]; [lia|].
    assert (Hs : Z.pos s = 53 + d2 - d1) by (unfold e0 in *; lia).
    assert (2 ^ 52 <= Z.pos pi * 2 ^ Z.pos s / Z.pos pT).
    { apply Z.div_le_lower_bound; [lia|].
      rewrite Hs. replace (53 + d2 - d1) with ((52 + d2) - (d1 - 1)) by lia.
      assert (2 ^ (52 + d2) = 2 ^ (d1 - 1) * 2 ^ (52 + d2 - (d1 - 1))).
      { rewrite <- pow2_split by lia. f_equal. lia. }
      assert (2 ^ (52 + d2) = 2 ^ 52 * 2 ^ d2) by (apply pow2_split; lia).
      pose proof (pow2_pos (52 + d2 - (d1 - 1)) ltac:(lia)). nia. }
    assert (53 <= bitlen (Z.pos pi * 2 ^ Z.pos s / Z.pos pT)).
    { change 53 with (bitlen (2 ^ 52)). apply bitlen_le_mono. lia. }
    unfold bitlen in *. lia.
  - (* no overflow *)
    rewrite fexp_eq.
    assert (Z.pos pi * 2 ^ Z.pos s / Z.pos pT < 2 ^ (Z.pos s + 1)).
    { apply Z.div_lt_upper_bound; [lia|]. rewrite pow2_split by lia. change (2 ^ 1) with 2. nia. }
    assert (bitlen (Z.pos pi * 2 ^ Z.pos s / Z.pos pT) <= Z.pos s + 1).
    { apply bitlen_lt_pow; try lia. apply Z.div_pos; lia. }
    unfold bitlen in *. lia.
Qed.


Lemma float_of_int_100 : float_of_int 100 = S754_finite false 7036874417766400 (-46).
Proof. vm_compute. reflexivity. Qed.

Lemma mul100_units x U :
  units x = Some U -> U <= 2 ^ 1074 ->
  units (float_mul_int x 100) = Some (RNu (100 * U) 1).
Proof.
  intros Hx HU. unfold float_mul_int. rewrite float_of_int_100.
  destruct x as [s| | |s m e]; try discriminate.
  - simpl in Hx. injection Hx as <-. reflexivity.
  - destruct s; try discriminate. unfold units in Hx.
    destruct (-1074 <=? e) eqn:He; try discriminate.
    apply Z.leb_le in He. injection Hx as Hx.
    change (Z.pos m * 2 ^ (e + 1074) = U) in Hx. subst U.
    unfold SFmul. change (xorb false false) with false.
    set (M := 7036874417766400%positive).
    assert (HM : Z.pos M = 100 * 2 ^ 46) by reflexivity.
    rewrite Pos2Z.inj_mul.
    set (n := Z.pos m * Z.pos M).
    assert (Hn : 0 < n) by (unfold n; lia).
    replace n with (n / 1) at 1 by apply Z.div_1_r.
    replace loc_Exact with (loc_of (n mod 1) 1) by (rewrite Z.mod_1_r; reflexivity).
    pose proof (pow2_pos (e + 1074) ltac:(lia)) as Pe.
    destruct (bitlen_spec (Z.pos m)) as [Lm Um]; [lia|].
    pose proof (bitlen_pos (Z.pos m) ltac:(lia)) as Hdm.
    set (dm := bitlen (Z.pos m)) in *.
    assert (Hdme : dm + e <= 1).
    { destruct (Z_lt_le_dec 1 (dm + e)) as [C|C]; [|lia].
      assert (2 ^ 1074 < 2 ^ (dm - 1) * 2 ^ (e + 1074)).
      { rewrite <- pow2_split by lia. apply Z.pow_lt_mono_r; lia. }
      assert (2 ^ (dm - 1) * 2 ^ (e + 1074) <= Z.pos m * 2 ^ (e + 1074))
        by (apply Z.mul_le_mono_nonneg_r; lia).
      lia. }
    assert (Hbn : 53 <= bitlen n <= dm + 53).
    { split.
      - change 53 with (bitlen (2 ^ 52)). apply bitlen_le_mono.
        unfold n. rewrite HM. change (2 ^ 52) with (1 * (16 * 2 ^ 48)). change (2 ^ 46) with 70368744177664. lia.
      - apply bitlen_lt_pow; try lia. rewrite pow2_split by lia.
        unfold n. rewrite HM.
        assert (100 * 2 ^ 46 < 2 ^ 53) by reflexivity. nia. }
    rewrite (bra_units n 1 (e + -46) (Z.max (e + 1028) 0) (Z.max (- (e + 1028)) 0)); try lia.
    + f_equal.
      destruct (Z_le_gt_dec 0 (e + 1028)) as [C|C].
      * replace (Z.max (e + 1028) 0) with (e + 1028) by lia.
        replace (Z.max (- (e + 1028)) 0) with 0 by lia.
        change (1 * 2 ^ 0) with 1. f_equal.
        unfold n. rewrite HM.
        replace (e + 1074) with (46 + (e + 1028)) by lia.
        rewrite (pow2_split 46 (e + 1028)) by lia. ring.
      * replace (Z.max (e + 1028) 0) with 0 by lia.
        replace (Z.max (- (e + 1028)) 0) with (- (e + 1028)) by lia.
        rewrite Z.mul_1_r.
        pose proof (pow2_pos (- (e + 1028)) ltac:(lia)) as Pb.
        rewrite <- (RNu_scale (100 * (Z.pos m * 2 ^ (e + 1074))) 1 (2 ^ (- (e + 1028)))) by lia.
        f_equal.
        unfold n. rewrite HM.
        replace (100 * (Z.pos m * 2 ^ (e + 1074)) * 2 ^ (- (e + 1028)))
          with (Z.pos m * (100 * (2 ^ (e + 1074) * 2 ^ (- (e + 1028))))) by ring.
        rewrite <- (pow2_split (e + 1074) (- (e + 1028))) by lia.
        replace (e + 1074 + - (e + 1028)) with 46 by lia. reflexivity.
    + rewrite Z.div_1_r, fexp_eq. unfold bitlen in *. lia.
    + rewrite Z.div_1_r, fexp_eq. unfold bitlen in *. lia.
Qed.


Lemma int_of_float_units x U :
  units x = Some U -> int_of_float x = Ok (U / 2 ^ 1074).
Proof.
  intros Hx. destruct x as [s| | |s m e]; try discriminate.
  - simpl in Hx. injection Hx as <-. reflexivity.
  - destruct s; try discriminate. unfold units in Hx.
    destruct (-1074 <=? e) eqn:He; try discriminate.
    apply Z.leb_le in He. injection Hx as Hx.
    change (Z.pos m * 2 ^ (e + 1074) = U) in Hx. subst U.
    unfold int_of_float. f_equal.
    destruct (0 <=? e) eqn:H0.
    + apply Z.leb_le in H0. rewrite Z.shiftl_mul_pow2 by lia.
      rewrite (Z.add_comm e), pow2_split by lia.
      rewrite (Z.mul_comm (2 ^ 1074)), Z.mul_assoc, Z.div_mul; [reflexivity|].
      pose proof (pow2_pos 1074 ltac:(lia)); lia.
    + apply Z.leb_gt in H0. rewrite Z.shiftr_div_pow2 by lia.
      assert (2 ^ 1074 = 2 ^ (- e) * 2 ^ (e + 1074)).
      { rewrite <- pow2_split by lia. f_equal. lia. }
      rewrite H. rewrite Z.div_mul_cancel_r; [reflexivity| |].
      * pose proof (pow2_pos (- e) ltac:(lia)); lia.
      * pose proof (pow2_pos (e + 1074) ltac:(lia)); lia.
Qed.

(** ** The progress percentage *)

Lemma RNu_one D : 0 < D -> RNu (D * 2 ^ 1074) D = 2 ^ 1074.
Proof.
  intros HD.
  replace (D * 2 ^ 1074) with (2 ^ 52 * 2 ^ 1022 * D).
  - rewrite RNu_exact; [|lia|lia|].
    + rewrite <- pow2_split by lia. reflexivity.
    + split; [lia|]. apply Z.pow_lt_mono_r; lia.
  - rewrite <- pow2_split by lia. change (52 + 1022) with 1074. ring.
Qed.

Lemma RNu_hundred : RNu (100 * 2 ^ 1074) 1 = 100 * 2 ^ 1074.
Proof.
  replace (100 * 2 ^ 1074) with (100 * 2 ^ 46 * 2 ^ 1028 * 1).
  - rewrite RNu_exact; [reflexivity|lia|lia|].
    split; [|reflexivity]. change (2 ^ 52) with (1 * (64 * 2 ^ 46)).
    change (2 ^ 46) with 70368744177664. lia.
  - rewrite Z.mul_1_r, <- Z.mul_assoc, <- pow2_split by lia. reflexivity.
Qed.

Lemma RNu_quotient_le_one i total :
  1 <= i <= total -> 0 <= RNu (i * 2 ^ 1074) total <= 2 ^ 1074.
Proof.
  intros Hi. pose proof (pow2_pos 1074 ltac:(lia)) as P. split.
  - apply RNu_nonneg; nia.
  - pose proof (RNu_one total ltac:(lia)) as H1.
    pose proof (RNu_mono (i * 2 ^ 1074) (total * 2 ^ 1074) total ltac:(lia) ltac:(nia)).
    lia.
Qed.

Lemma percent_of_value i total :
  1 <= i <= total -> percent_of i total = Ok (percent_value i total).
Proof.
  intros Hi. unfold percent_of, int_truediv.
  replace (total =? 0) with false by (symmetry; apply Z.eqb_neq; lia).
  pose proof (SFdiv_units i total Hi) as Hu.
  pose proof (RNu_quotient_le_one i total Hi) as [_ Hle].
  destruct (SFdiv prec emax (SF_of_int i) (SF_of_int total)) as [s| | |s m e] eqn:Hq;
    try discriminate Hu; unfold obind;
    rewrite (int_of_float_units _ _ (mul100_units _ _ Hu Hle)); reflexivity.
Qed.

(** The product falls just below the integer for file 29 of 50 and of
    100. *)
Example percent_of_29_50 : percent_of 29 50 = Ok 57 /\ percent_exact 29 50 = 58.
Proof. split; vm_compute; reflexivity. Qed.

Example percent_of_29_100 : percent_of 29 100 = Ok 28 /\ percent_exact 29 100 = 29.
Proof. split; vm_compute; reflexivity. Qed.

Lemma percent_value_mono i j total :
  1 <= i <= j -> 0 < total -> percent_value i total <= percent_value j total.
Proof.
  intros Hij HT. unfold percent_value.
  pose proof (pow2_pos 1074 ltac:(lia)) as P.
  apply Z.div_le_mono; [lia|].
  apply RNu_mono; [lia|].
  assert (0 <= RNu (i * 2 ^ 1074) total) by (apply RNu_nonneg; nia).
  assert (RNu (i * 2 ^ 1074) total <= RNu (j * 2 ^ 1074) total)
    by (apply RNu_mono; [lia | nia]).
  lia.
Qed.

Lemma percent_value_full total : 0 < total -> percent_value total total = 100.
Proof.
  intros HT. unfold percent_value.
  rewrite RNu_one, RNu_hundred by lia.
  apply Z.div_mul. pose proof (pow2_pos 1074 ltac:(lia)). lia.
Qed.

Lemma percent_value_range i total :
  1 <= i <= total -> 0 <= percent_value i total <= 100.
Proof.
  intros Hi. split.
  - unfold percent_value. apply Z.div_pos; [|apply pow2_pos; lia].
    apply RNu_nonneg; [lia|].
    pose proof (RNu_quotient_le_one i total Hi). lia.
  - pose proof (percent_value_full total ltac:(lia)).
    pose proof (percent_value_mono i total total ltac:(lia) ltac:(lia)). lia.
Qed.

(** ** Categorizer *)

(** Membership in a list written out. *)
Ltac list_mem :=
  repeat rewrite elem_of_cons in *; rewrite ?elem_of_nil in *;
  intuition (subst; auto 12; congruence).

Lemma str_in_true x xs : str_in x xs = true <-> x ∈ xs.
Proof. unfold str_in. apply bool_decide_eq_true. Qed.

Lemma str_in_false x xs : str_in x xs = false <-> x ∉ xs.
Proof. unfold str_in. apply bool_decide_eq_false. Qed.

Lemma first_category_None ext table :
  first_category ext table = None <->
  (forall cat exts, (cat, exts) ∈ table -> ext ∉ exts).
Proof.
  induction table as [|[c es] rest IH]; simpl.
  - split; [|reflexivity]. intros _ cat exts Hin. inversion Hin.
  - destruct (str_in ext es) eqn:Hes.
    + split; [discriminate|]. intros Hall. exfalso.
      apply str_in_true in Hes. apply (Hall c es); [left|exact Hes].
    + apply str_in_false in Hes. rewrite IH. split.
      * intros Hall cat exts Hin. apply elem_of_cons in Hin as [Heq|Hin].
        -- injection Heq as -> ->. exact Hes.
        -- eauto.
      * intros Hall cat exts Hin. apply (Hall cat exts). right. exact Hin.
Qed.

(** The extension lists of the table are disjoint, so the first match is
    the only one. *)
Lemma first_category_owner ext cat exts :
  (cat, exts) ∈ FILE_CATEGORIES -> ext ∈ exts ->
  first_category ext FILE_CATEGORIES = Some cat.
Proof.
  intros Hin Hext. unfold FILE_CATEGORIES in Hin.
  repeat (apply elem_of_cons in Hin as [Heq|Hin];
          [injection Heq as -> ->;
           repeat (apply elem_of_cons in Hext as [->|Hext]; [reflexivity|]);
           inversion Hext |]).
  inversion Hin.
Qed.

Lemma first_category_range ext cat :
  first_category ext FILE_CATEGORIES = Some cat ->
  cat ∈ ["Documents"; "Images"; "Videos"; "Music"; "Archives"].
Proof.
  unfold FILE_CATEGORIES. simpl.
  repeat (destruct (str_in ext _); [intros [= <-]; list_mem|]).
  discriminate.
Qed.

Section CategorizerFacts.
Context `{PyLib}.

Lemma get_category_static extension cat exts :
  (cat, exts) ∈ FILE_CATEGORIES -> str_lower extension ∈ exts ->
  get_category extension = cat.
Proof.
  intros Hin Hext. unfold get_category.
  rewrite (first_category_owner _ _ _ Hin Hext). reflexivity.
Qed.

Lemma get_category_inferred extension :
  first_category (str_lower extension) FILE_CATEGORIES = None ->
  get_category extension =
    match mimetypes_guess_type ("file" +:+ str_lower extension) with
    | Some m =>
        let main_type := split_head "/" m in
        if String.eqb main_type "image" then "Images"
        else if String.eqb main_type "video" then "Videos"
        else if String.eqb main_type "audio" then "Audios"
        else "Others"
    | None => "Others"
    end.
Proof.
  intros Hnone. unfold get_category. rewrite Hnone.
  destruct (mimetypes_guess_type _) as [m|]; [|reflexivity].
  destruct m as [|c m]; [reflexivity|]. cbv beta iota delta [str_truthy].
  cbv zeta.
  destruct (String.eqb_spec (split_head "/" (String c m)) "image") as [->|N1]; [reflexivity|].
  destruct (String.eqb_spec (split_head "/" (String c m)) "video") as [->|N2]; [reflexivity|].
  destruct (String.eqb_spec (split_head "/" (String c m)) "audio") as [->|N3]; [reflexivity|].
  replace (str_in _ _) with false; [reflexivity|].
  symmetry. apply str_in_false. list_mem.
Qed.

End CategorizerFacts.

(** C4. For every extension, [get_category] returns the owning category
    of the lower-cased extension when the static table has it; otherwise
    "Images", "Videos" or "Audios" when the guessed MIME type has the
    top-level type image, video or audio (for audio "Audios", not
    "Audio"); otherwise "Others".  It is a total function, and its result
    is always one of seven names. *)
Theorem get_category_spec `{PyLib} (extension : string) :
  let ext := str_lower extension in
  (forall cat exts,
      (cat, exts) ∈ FILE_CATEGORIES -> ext ∈ exts -> get_category extension = cat)
  /\ ((forall cat exts, (cat, exts) ∈ FILE_CATEGORIES -> ext ∉ exts) ->
      match mimetypes_guess_type ("file" +:+ ext) with
      | Some m =>
          (split_head "/" m = "image" -> get_category extension = "Images")
          /\ (split_head "/" m = "video" -> get_category extension = "Videos")
          /\ (split_head "/" m = "audio" -> get_category extension = "Audios")
          /\ (split_head "/" m ∉ ["image"; "video"; "audio"] ->
              get_category extension = "Others")
      | None => get_category extension = "Others"
      end)
  /\ get_category extension
       ∈ ["Documents"; "Images"; "Videos"; "Music"; "Archives"; "Audios"; "Others"].
Proof.
  intros ext. split; [|split].
  - intros cat exts. apply get_category_static.
  - intros Hnone. apply first_category_None in Hnone.
    rewrite (get_category_inferred _ Hnone). fold ext.
    destruct (mimetypes_guess_type _) as [m|]; [|reflexivity].
    cbv zeta. repeat split.
    + intros ->. reflexivity.
    + intros ->. reflexivity.
    + intros ->. reflexivity.
    + intros Hn.
      destruct (String.eqb_spec (split_head "/" m) "image"); [list_mem|].
      destruct (String.eqb_spec (split_head "/" m) "video"); [list_mem|].
      destruct (String.eqb_spec (split_head "/" m) "audio"); [list_mem|].
      reflexivity.
  - destruct (first_category ext FILE_CATEGORIES) as [cat|] eqn:Hf.
    + unfold get_category. fold ext. rewrite Hf.
      apply first_category_range in Hf. list_mem.
    + rewrite (get_category_inferred _ Hf).
      destruct (mimetypes_guess_type _) as [m|]; [|list_mem].
      cbv zeta. repeat (destruct (String.eqb _ _); [list_mem|]). list_mem.
Qed.

(** A picture in upper case, an extension the table lacks but the MIME
    table knows as audio, and one nobody knows. *)
Lemma get_category_spec_witness :
  get_category ".PNG" = "Images"
  /\ get_category ".ogg" = "Audios"
  /\ get_category ".xyz" = "Others".
Proof.
  pose proof (get_category_spec ".PNG") as (H1 & _ & _).
  pose proof (get_category_spec ".ogg") as (_ & H2 & _).
  pose proof (get_category_spec ".xyz") as (_ & H3 & _).
  split; [|split].
  - apply (H1 "Images" [".jpg"; ".jpeg"; ".png"; ".gif"; ".bmp"; ".svg"]).
    + unfold FILE_CATEGORIES. list_mem.
    + change (".png" ∈ [".jpg"; ".jpeg"; ".png"; ".gif"; ".bmp"; ".svg"]). list_mem.
  - apply H2; [|reflexivity].
    apply first_category_None. reflexivity.
  - apply H3. apply first_category_None. reflexivity.
Defined.

(** ** Path Resolver *)

Lemma append_cons c (s t : string) : String c s +:+ t = String c (s +:+ t).
Proof. reflexivity. Qed.

Lemma append_empty_l (t : string) : "" +:+ t = t.
Proof. reflexivity. Qed.

Lemma append_empty_r (s : string) : s +:+ "" = s.
Proof. induction s as [|c s IH]; [reflexivity|]. rewrite append_cons, IH. reflexivity. Qed.

Lemma append_length (s t : string) :
  String.length (s +:+ t) = (String.length s + String.length t)%nat.
Proof.
  induction s as [|c s IH]; [reflexivity|].
  rewrite append_cons. simpl. rewrite IH. reflexivity.
Qed.

Lemma dec_digits_length width n : String.length (dec_digits width n) = width.
Proof.
  revert n. induction width as [|w IH]; intros n; [reflexivity|].
  change (dec_digits (S w) n)
    with (dec_digits w (n / 10) +:+ String (digit_char n) EmptyString).
  rewrite append_length, IH. simpl. lia.
Qed.

Lemma decimal_go_append acc s c :
  (fix go (acc : nat) (s : string) : nat :=
     match s with
     | EmptyString => acc
     | String c r => go (10 * acc + (nat_of_ascii c - 48))%nat r
     end) acc (s +:+ String c EmptyString)
  = (10 * (fix go (acc : nat) (s : string) : nat :=
             match s with
             | EmptyString => acc
             | String c r => go (10 * acc + (nat_of_ascii c - 48))%nat r
             end) acc s + (nat_of_ascii c - 48))%nat.
Proof.
  revert acc. induction s as [|d s IH]; intros acc; [reflexivity|].
  rewrite append_cons. apply IH.
Qed.

Lemma digit_char_value n : (nat_of_ascii (digit_char n) - 48 = n mod 10)%nat.
Proof.
  unfold digit_char.
  assert (Hlt : (n mod 10 < 10)%nat) by (apply Nat.mod_upper_bound; lia).
  rewrite nat_ascii_embedding by lia. lia.
Qed.

Lemma dec_digits_value width n :
  decimal_value (dec_digits width n) = (n mod 10 ^ width)%nat.
Proof.
  revert n. induction width as [|w IH]; intros n.
  - change (0 = n mod 1)%nat. rewrite Nat.mod_1_r. reflexivity.
  - change (dec_digits (S w) n)
      with (dec_digits w (n / 10) +:+ String (digit_char n) EmptyString).
    unfold decimal_value in *. rewrite decimal_go_append, IH.
    rewrite digit_char_value.
    rewrite Nat.pow_succ_r', Nat.Div0.mod_mul_r. lia.
Qed.

Lemma zero_padded_length width n :
  (n < 10 ^ width)%nat -> String.length (zero_padded width n) = width.
Proof.
  intros Hn. unfold zero_padded.
  replace (n <? 10 ^ width)%nat with true by (symmetry; apply Nat.ltb_lt; exact Hn).
  apply dec_digits_length.
Qed.

Lemma zero_padded_value width n :
  (n < 10 ^ width)%nat -> decimal_value (zero_padded width n) = n.
Proof.
  intros Hn. unfold zero_padded.
  replace (n <? 10 ^ width)%nat with true by (symmetry; apply Nat.ltb_lt; exact Hn).
  rewrite dec_digits_value. apply Nat.mod_small. exact Hn.
Qed.

Lemma unpadded_value n : (n < 10 ^ 4)%nat -> decimal_value (unpadded n) = n.
Proof.
  intros Hn. unfold unpadded.
  destruct (Nat.ltb_spec n 10);
    [rewrite dec_digits_value; apply Nat.mod_small; simpl; lia|].
  destruct (Nat.ltb_spec n 100);
    [rewrite dec_digits_value; apply Nat.mod_small; simpl; lia|].
  destruct (Nat.ltb_spec n 1000);
    [rewrite dec_digits_value; apply Nat.mod_small; simpl; lia|].
  apply zero_padded_value. exact Hn.
Qed.

(** The years from 1000 on have four digits, the years before have fewer. *)
Lemma unpadded_length n :
  (n < 10 ^ 4)%nat ->
  ((1000 <= n)%nat -> String.length (unpadded n) = 4%nat)
  /\ ((n < 1000)%nat -> (String.length (unpadded n) < 4)%nat).
Proof.
  intros Hn. unfold unpadded.
  destruct (Nat.ltb_spec n 10); [rewrite dec_digits_length; lia|].
  destruct (Nat.ltb_spec n 100); [rewrite dec_digits_length; lia|].
  destruct (Nat.ltb_spec n 1000); [rewrite dec_digits_length; lia|].
  rewrite zero_padded_length by exact Hn. lia.
Qed.

Lemma strftime_Y dt : strftime dt "%Y" = unpadded (dt_year dt).
Proof. apply append_empty_r. Qed.

Lemma strftime_Y_m dt :
  strftime dt "%Y-%m" = unpadded (dt_year dt) +:+ "-" +:+ zero_padded 2 (dt_month dt).
Proof.
  change (strftime dt "%Y-%m")
    with (unpadded (dt_year dt) +:+ String "-" (zero_padded 2 (dt_month dt) +:+ "")).
  rewrite append_empty_r. reflexivity.
Qed.

Section PathResolverFacts.
Context `{PyLib} {World Path : Type} `{Pathlib Path} `{FileSystem World Path}.

(** The modification time is read before the mode is matched against
    the two dated modes, so an unreadable file raises for every mode but
    "Category Only". *)
Lemma get_destination_path_raises (w : World) (folder file : Path)
      (category mode : string) (e : exn) :
  mode <> "Category Only" -> fs_stat w file = Raise e ->
  get_destination_path w folder file category mode = Raise e.
Proof.
  intros Hmode Hstat. unfold get_destination_path.
  destruct (String.eqb_spec mode "Category Only"); [contradiction|].
  rewrite Hstat. reflexivity.
Qed.

End PathResolverFacts.

(** C5 (amended).  [get_destination_path] returns root/category for the
    mode "Category Only", whatever the file.  For every other mode it
    reads the file's modification time first and raises what [file.stat()]
    or [datetime.fromtimestamp] raises.  For a file whose modification
    time is read as the date [dt], it returns root/category/<year> for
    "Category / Year" and root/category/<year>-<2-digit month> for
    "Category / Year-Month" (so root/category/2024-07 for a file modified
    in July 2024), where <year> is the year in decimal as [%Y] prints it:
    four digits for the years 1000 to 9999, fewer for the years before;
    and root/category for any other mode string. *)
Theorem get_destination_path_spec `{PyLib} {World Path : Type} `{Pathlib Path}
        `{FileSystem World Path}
        (w : World) (folder file : Path) (category mode : string) :
  (mode = "Category Only" ->
   get_destination_path w folder file category mode = Ok (folder // category))
  /\ (mode <> "Category Only" ->
      (forall e, fs_stat w file = Raise e ->
                 get_destination_path w folder file category mode = Raise e)
      /\ (forall st e,
             fs_stat w file = Ok st ->
             datetime_fromtimestamp (st_mtime st) = Raise e ->
             get_destination_path w folder file category mode = Raise e))
  /\ (forall st dt,
         fs_stat w file = Ok st ->
         datetime_fromtimestamp (st_mtime st) = Ok dt ->
         Z.of_nat (dt_year dt) <= 9999 -> (1 <= dt_month dt <= 12)%nat ->
         let year := unpadded (dt_year dt) in
         let month := zero_padded 2 (dt_month dt) in
         decimal_value year = dt_year dt
         /\ (1000 <= Z.of_nat (dt_year dt) -> String.length year = 4%nat)
         /\ (Z.of_nat (dt_year dt) < 1000 -> (String.length year < 4)%nat)
         /\ (String.length month = 2%nat /\ decimal_value month = dt_month dt)
         /\ (mode = "Category / Year" ->
             get_destination_path w folder file category mode
             = Ok (folder // category // year))
         /\ (mode = "Category / Year-Month" ->
             get_destination_path w folder file category mode
             = Ok (folder // category // (year +:+ "-" +:+ month)))
         /\ (mode = "Category / Year-Month" -> dt_year dt = 2024%nat ->
             dt_month dt = 7%nat ->
             get_destination_path w folder file category mode
             = Ok (folder // category // "2024-07"))
         /\ (mode ∉ ["Category Only"; "Category / Year"; "Category / Year-Month"] ->
             get_destination_path w folder file category mode
             = Ok (folder // category))).
Proof.
  split; [|split].
  - intros ->. reflexivity.
  - intros Hmode. split.
    + intros e Hstat. apply get_destination_path_raises; assumption.
    + intros st e Hstat Hdt. unfold get_destination_path.
      destruct (String.eqb_spec mode "Category Only"); [contradiction|].
      rewrite Hstat. unfold obind. rewrite Hdt. reflexivity.
  - intros st dt Hstat Hdt Hy Hm year month.
    assert (Hy4 : (dt_year dt < 10 ^ 4)%nat).
    { apply Nat2Z.inj_lt. replace (Z.of_nat (10 ^ 4)) with 10000 by reflexivity. lia. }
    assert (Hm2 : (dt_month dt < 10 ^ 2)%nat).
    { apply Nat2Z.inj_lt. replace (Z.of_nat (10 ^ 2)) with 100 by reflexivity. lia. }
    assert (Hyear : get_destination_path w folder file category "Category / Year-Month"
                    = Ok (folder // category // (year +:+ "-" +:+ month))).
    { unfold get_destination_path. simpl String.eqb. rewrite Hstat. unfold obind.
      rewrite Hdt. rewrite strftime_Y_m. reflexivity. }
    destruct (unpadded_length (dt_year dt) Hy4) as [Hfour Hfewer].
    split; [|split; [|split; [|split; [|split; [|split; [|split]]]]]].
    + apply unpadded_value. exact Hy4.
    + intros Hge. apply Hfour. lia.
    + intros Hlt. apply Hfewer. lia.
    + split; [apply zero_padded_length | apply zero_padded_value]; exact Hm2.
    + intros ->. unfold get_destination_path. simpl String.eqb.
      rewrite Hstat. unfold obind. rewrite Hdt, strftime_Y. reflexivity.
    + intros ->. exact Hyear.
    + intros -> Hy24 Hm7. rewrite Hyear. unfold year, month. rewrite Hy24, Hm7.
      reflexivity.
    + intros Hother. unfold get_destination_path.
      destruct (String.eqb_spec mode "Category Only"); [list_mem|].
      rewrite Hstat. unfold obind. rewrite Hdt.
      destruct (String.eqb_spec mode "Category / Year"); [list_mem|].
      destruct (String.eqb_spec mode "Category / Year-Month"); [list_mem|].
      reflexivity.
Qed.

(** The picture of the demo folder, modified on 2024-07-15 (UTC). *)
Lemma get_destination_path_spec_witness :
  get_destination_path demo_world (Path_of_str "/home")
    (Path_of_str "/home/a.JPG") "Images" "Category / Year-Month"
  = Ok (Path_of_str "/home/Images/2024-07")
  /\ get_destination_path demo_world (Path_of_str "/home")
       (Path_of_str "/home/a.JPG") "Images" "Category Only"
     = Ok (Path_of_str "/home/Images").
Proof.
  pose proof (get_destination_path_spec demo_world (Path_of_str "/home")
                (Path_of_str "/home/a.JPG") "Images" "Category / Year-Month")
    as (_ & _ & Hdated).
  pose proof (get_destination_path_spec demo_world (Path_of_str "/home")
                (Path_of_str "/home/a.JPG") "Images" "Category Only")
    as [Honly _].
  split.
  - specialize (Hdated (mk_stat 6 1721001600) (mk_datetime 2024 7 15)
                       eq_refl eq_refl ltac:(simpl; lia) ltac:(simpl; lia)).
    destruct Hdated as (_ & _ & _ & _ & _ & _ & H2024 & _).
    exact (H2024 eq_refl eq_refl eq_refl).
  - exact (Honly eq_refl).
Defined.

(** The claim as the specification states it fails twice.  An
    unrecognised mode does not always fall back to root/category: for a
    file that is not there the call raises.  And the year segment does not
    always have four digits: for the deed of the old folder, modified on
    0999-09-09, "Category / Year" gives root/Documents/999. *)
Lemma get_destination_path_counterexample :
  ~ (forall (w : posix_world) (folder file : posix_path) (category mode : string),
        mode ∉ ["Category Only"; "Category / Year"; "Category / Year-Month"] ->
        get_destination_path w folder file category mode = Ok (folder // category))
  /\ ~ (forall (w : posix_world) (folder file : posix_path) (category : string)
               (st : stat_result) (dt : datetime),
          fs_stat w file = Ok st ->
          datetime_fromtimestamp (st_mtime st) = Ok dt ->
          get_destination_path w folder file category "Category / Year"
          = Ok (folder // category // zero_padded 4 (dt_year dt))).
Proof.
  split.
  - intros Hclaim.
    specialize (Hclaim demo_world (Path_of_str "/home") (Path_of_str "/home/ghost.txt")
                       "Documents" "By Size").
    assert (Hother : "By Size" ∉ ["Category Only"; "Category / Year";
                                  "Category / Year-Month"]) by list_mem.
    specialize (Hclaim Hother). vm_compute in Hclaim. discriminate Hclaim.
  - intros Hclaim.
    assert (Hcode : get_destination_path old_world (Path_of_str "/old")
                      (Path_of_str "/old/deed.txt") "Documents" "Category / Year"
                    = Ok (Path_of_str "/old" // "Documents" // "999"))
      by (vm_compute; reflexivity).
    specialize (Hclaim old_world (Path_of_str "/old") (Path_of_str "/old/deed.txt")
                       "Documents" (mk_stat 4 (-30620073600)) (mk_datetime 999 9 9)).
    assert (Hstat : fs_stat old_world (Path_of_str "/old/deed.txt")
                    = Ok (mk_stat 4 (-30620073600))) by (vm_compute; reflexivity).
    assert (Hdt : datetime_fromtimestamp (-30620073600) = Ok (mk_datetime 999 9 9))
      by (vm_compute; reflexivity).
    specialize (Hclaim Hstat Hdt). rewrite Hcode in Hclaim.
    vm_compute in Hclaim. discriminate Hclaim.
Qed.

(** ** Hasher *)

Section HasherFacts.
Context `{PyLib} {World Path : Type} `{FileSystem World Path}.

Lemma file_read_length f n buf f' :
  file_read f n = Ok (buf, f') ->
  (length buf + length (fh_data f') = length (fh_data f))%nat.
Proof.
  unfold file_read. destruct (fh_fault f) as [[[|k] e]|]; intros [= <- <-]; simpl;
    rewrite <- (firstn_skipn n (fh_data f)) at 3; rewrite length_app; reflexivity.
Qed.

(** The loop ends before the fuel does. *)
Lemma read_loop_fuel fuel block_size hasher f buf :
  (length buf + length (fh_data f) <= fuel)%nat ->
  read_loop fuel block_size hasher f buf <> None.
Proof.
  revert hasher f buf. induction fuel as [|fuel IH]; intros hasher f buf Hfuel.
  - destruct buf; [discriminate | simpl in Hfuel; lia].
  - destruct buf as [|b buf]; [discriminate|]. simpl.
    destruct (file_read f block_size) as [[buf' f']|e] eqn:Hread; [|discriminate].
    apply IH. apply file_read_length in Hread. simpl in Hfuel. lia.
Qed.


(** [calculate_hash] returns [None] exactly when opening or reading the
    file raises; it never raises itself. *)
Lemma calculate_hash_open_raises (w : World) (filepath : Path) block_size e :
  fs_open_rb w filepath = Raise e -> calculate_hash w filepath block_size = None.
Proof. intros Hopen. unfold calculate_hash. rewrite Hopen. reflexivity. Qed.

Lemma calculate_hash_first_read_raises (w : World) (filepath : Path) block_size data e :
  fs_open_rb w filepath = Ok (mk_handle data (Some (O, e))) ->
  calculate_hash w filepath block_size = None.
Proof. intros Hopen. unfold calculate_hash. rewrite Hopen. reflexivity. Qed.



(** In [calculate_hash] the fuel is never used up: the [None] of
    [read_loop] does not occur there. *)
Lemma calculate_hash_fuel block_size hasher f buf f' :
  file_read f block_size = Ok (buf, f') ->
  read_loop (S (length (fh_data f))) block_size hasher f' buf <> None.
Proof.
  intros Hread. apply read_loop_fuel. apply file_read_length in Hread. lia.
Qed.

End HasherFacts.

(** ** Orchestrator *)

(** Unfold the statements of an iteration down to the state they act on. *)
Ltac munfold :=
  unfold iteration, try_except, try_body, except_clause, report_progress,
    duplicate_check, remove_duplicate, categorize_and_move, invoke,
    bind, ret, modify, gets, lift, fs_read, fs_write in *.

Lemma dict_count_lookup (d : gmap string Z) (k : string) :
  dict_incr (dict_setdefault d k 0) k !! k = Some (default 0 (d !! k) + 1).
Proof.
  unfold dict_incr, dict_setdefault. rewrite lookup_alter_eq.
  destruct (d !! k) as [v|] eqn:Hk.
  - rewrite Hk. reflexivity.
  - rewrite lookup_insert_eq. reflexivity.
Qed.

Lemma dict_count_other (d : gmap string Z) (k k' : string) :
  k <> k' -> dict_incr (dict_setdefault d k 0) k !! k' = d !! k'.
Proof.
  intros Hne. unfold dict_incr, dict_setdefault. rewrite lookup_alter_ne by done.
  destruct (d !! k); [reflexivity|]. apply lookup_insert_ne. done.
Qed.

Section OrganizeFacts.
Context `{PyLib} {World Path : Type} `{Pathlib Path} `{FileSystem World Path}.
Variables (folder : Path) (organize_mode : string) (check_duplicates : bool)
          (progress_callback : option callback) (total : Z).


(** What the [try] block does to the log and to the progress events, on
    each of its three ways out, when the callback returns. *)
Lemma try_body_spec s i file :
  callback_returns progress_callback -> 1 <= i <= total ->
  match try_body folder organize_mode check_duplicates progress_callback total i file s with
  | (Ok Continue, s1) =>
            logs (st_analytics s1) = (logs (st_analytics s) ++ [duplicate_line file])%list
      /\ st_events s1
         = (st_events s
            ++ emitted progress_callback (percent_value i total) (duplicate_line file))%list
  | (Ok Fallthrough, s1) =>
      logs (st_analytics s1) = logs (st_analytics s)
      /\ st_events s1 = st_events s
      /\ exists relative, st_log_entry s1 = moved_line file relative
  | (Raise e, s1) =>
      logs (st_analytics s1) = logs (st_analytics s)
      /\ st_events s1 = st_events s
  end.
Proof.
  intros Hcb Hi. unfold emitted. munfold.
  rewrite !percent_of_value by lia.
  destruct progress_callback as [cb|]; [specialize (Hcb cb eq_refl)|].
  - repeat (case_match; simplify_eq/=; rewrite ?Hcb in *; try done);
      repeat split; try done; eauto; try (rewrite app_nil_r; done).
  - repeat (case_match; simplify_eq/=; try done);
      repeat split; try done; eauto; try (rewrite app_nil_r; done).
Qed.

(** One iteration, when the callback returns: it returns, it appends one
    line to the log, and it emits one progress event, whatever the [try]
    block did. *)
Lemma iteration_spec s i file :
  callback_returns progress_callback -> 1 <= i <= total ->
  let r := iteration folder organize_mode check_duplicates progress_callback total i file s in
  r.1 = Ok tt
  /\ (exists line, logs (st_analytics r.2) = (logs (st_analytics s) ++ [line])%list)
  /\ (exists message,
        st_events r.2
        = (st_events s ++ emitted progress_callback (percent_value i total) message)%list).
Proof.
  intros Hcb Hi. cbv zeta.
  pose proof (try_body_spec (set_log_entry "" s) i file Hcb Hi) as Hbody.
  unfold iteration, try_except, except_clause, report_progress, invoke, emitted in *.
  unfold bind, ret, modify, gets, lift in *.
  rewrite !percent_of_value by lia.
  replace (total =? 0) with false by (symmetry; apply Z.eqb_neq; lia).
  destruct (try_body _ _ _ _ _ _ _ _) as [[[|]|e] s1]; simpl in *.
  - destruct Hbody as (Hlogs & Hev & _).
    destruct progress_callback as [cb|]; [rewrite (Hcb cb eq_refl)|]; simpl;
      rewrite Hlogs, Hev, ?app_nil_r; eauto.
  - destruct Hbody as (Hlogs & Hev). eauto.
  - destruct Hbody as (Hlogs & Hev).
    destruct progress_callback as [cb|]; [rewrite (Hcb cb eq_refl)|]; simpl;
      rewrite Hlogs, Hev, ?app_nil_r; eauto.
Qed.

(** An exception raised in the [try] block becomes the "ERROR moving"
    line of that file. *)
Lemma iteration_error s i file e s1 :
  callback_returns progress_callback -> 1 <= i <= total ->
  try_body folder organize_mode check_duplicates progress_callback total i file
           (set_log_entry "" s) = (Raise e, s1) ->
  logs (st_analytics
          (iteration folder organize_mode check_duplicates progress_callback total i file s).2)
  = (logs (st_analytics s) ++ [error_line file e])%list.
Proof.
  intros Hcb Hi Hraise.
  pose proof (try_body_spec (set_log_entry "" s) i file Hcb Hi) as Hbody.
  unfold iteration, try_except, except_clause, report_progress, invoke in *.
  unfold bind, ret, modify, gets, lift in *.
  rewrite !percent_of_value by lia.
  replace (total =? 0) with false by (symmetry; apply Z.eqb_neq; lia).
  rewrite Hraise in *. simpl in *. destruct Hbody as (Hlogs & _).
  destruct progress_callback as [cb|]; [rewrite (Hcb cb eq_refl)|]; simpl;
    rewrite Hlogs; reflexivity.
Qed.

(** The first statement of the [try] block that can raise is
    [file.stat()]. *)
Lemma try_body_stat_raises s i file e :
  fs_stat (st_world s) file = Raise e ->
  try_body folder organize_mode check_duplicates progress_callback total i file s
  = (Raise e, s).
Proof.
  intros Hstat. unfold try_body, bind, fs_read. rewrite Hstat. reflexivity.
Qed.

(** The loop goes on with the next file. *)
Lemma for_loop_continues s s' i file rest :
  iteration folder organize_mode check_duplicates progress_callback total i file s
  = (Ok tt, s') ->
  for_loop folder organize_mode check_duplicates progress_callback total i (file :: rest) s
  = for_loop folder organize_mode check_duplicates progress_callback total (i + 1) rest s'.
Proof.
  intros Hiter. simpl. unfold bind at 1. rewrite Hiter. reflexivity.
Qed.

Lemma for_loop_spec files : forall s i,
  callback_returns progress_callback ->
  1 <= i -> i + Z.of_nat (length files) - 1 <= total ->
  let r := for_loop folder organize_mode check_duplicates progress_callback total i files s in
  r.1 = Ok tt
  /\ length (logs (st_analytics r.2)) = (length (logs (st_analytics s)) + length files)%nat
  /\ (st_events r.2).*1
     = ((st_events s).*1
        ++ match progress_callback with
           | Some _ => (fun k => percent_value k total) <$> seqZ i (Z.of_nat (length files))
           | None => []
           end)%list.
Proof.
  induction files as [|file rest IH]; intros s i Hcb Hi Htotal; cbv zeta.
  - simpl. repeat split; [lia|]. destruct progress_callback; simpl; rewrite app_nil_r; reflexivity.
  - simpl length in Htotal.
    pose proof (iteration_spec s i file Hcb ltac:(lia)) as Hspec. cbv zeta in Hspec.
    destruct Hspec as (Hret & [line Hlogs] & [msg Hev]).
    destruct (iteration folder organize_mode check_duplicates progress_callback total i file s)
      as [o s'] eqn:Hiter.
    simpl in Hret, Hlogs, Hev. subst o.
    rewrite (for_loop_continues _ _ _ _ _ Hiter).
    specialize (IH s' (i + 1) Hcb ltac:(lia) ltac:(lia)). cbv zeta in IH.
    destruct IH as (IHret & IHlogs & IHev).
    repeat split; [exact IHret| |].
    + rewrite IHlogs, Hlogs, length_app. simpl. lia.
    + rewrite IHev, Hev. unfold emitted. rewrite fmap_app, <- app_assoc. f_equal.
      destruct progress_callback; [|reflexivity].
      replace (Z.of_nat (length (file :: rest))) with (Z.succ (Z.of_nat (length rest)))
        by (simpl length; lia).
      rewrite (seqZ_cons i (Z.succ _)) by lia. rewrite Z.pred_succ. reflexivity.
Qed.

End OrganizeFacts.

Section EscapeFacts.
Context `{PyLib} {World Path : Type} `{Pathlib Path} `{FileSystem World Path}.
Variables (folder : Path) (organize_mode : string) (check_duplicates : bool)
          (progress_callback : option callback) (total : Z).

(** An iteration raises only what the callback raised at line 147. *)
Lemma iteration_raises s i file e :
  1 <= i <= total ->
  (iteration folder organize_mode check_duplicates progress_callback total i file s).1
  = Raise e ->
  exists f, progress_callback = Some f
            /\ f (percent_value i total) (processing_message i total file) = Raise e.
Proof.
  intros Hi. unfold iteration, try_except, except_clause, report_progress, invoke.
  unfold bind, modify, ret, lift.
  rewrite !percent_of_value by lia.
  replace (total =? 0) with false by (symmetry; apply Z.eqb_neq; lia).
  destruct (try_body _ _ _ _ _ _ _ _) as [[[|]|e'] s1]; simpl;
    try discriminate;
    (destruct progress_callback as [f|]; [|discriminate]); simpl;
    intros Hr; exists f; (split; [reflexivity | exact Hr]).
Qed.

Lemma for_loop_raises files e : forall s i,
  1 <= i -> i + Z.of_nat (length files) - 1 <= total ->
  (for_loop folder organize_mode check_duplicates progress_callback total i files s).1
  = Raise e ->
  exists f percent message, progress_callback = Some f /\ f percent message = Raise e.
Proof.
  induction files as [|file rest IH]; intros s i Hi Htotal; [discriminate|].
  simpl length in Htotal. simpl for_loop. unfold bind at 1.
  pose proof (iteration_raises s i file) as Hiter.
  destruct (iteration folder organize_mode check_duplicates progress_callback total
              i file s) as [[[]|e'] s'].
  - apply IH; lia.
  - simpl. intros [= ->]. destruct (Hiter e ltac:(lia) eq_refl) as (f & Hf & Hr). eauto.
Qed.

End EscapeFacts.

Section OrganizeFilesFacts.
Context `{PyLib} {World Path : Type} `{Pathlib Path} `{FileSystem World Path}.

(** The eligible files of a folder, in enumeration order. *)
Lemma organize_files_nonempty w start now folder_path organize_mode check_duplicates
      progress_callback entries :
  fs_iterdir w (Path_of_str folder_path) = Ok entries ->
  filter (fun f => eligible w f = true) entries <> [] ->
  let files := filter (fun f => eligible w f = true) entries in
  let total := Z.of_nat (length files) in
  organize_files w start now folder_path organize_mode check_duplicates progress_callback
  = bind (for_loop (Path_of_str folder_path) organize_mode check_duplicates
                   progress_callback total 1 files)
         (fun _ => finish progress_callback (now - start))
         (initial_state w total).
Proof.
  intros Henum Hne files total. subst files total.
  unfold organize_files. rewrite Henum.
  destruct (filter (fun f => eligible w f = true) entries) as [|f fs]; [contradiction|].
  reflexivity.
Qed.

End OrganizeFilesFacts.

(** C6. When no file of the folder is eligible, [organize_files] emits
    one progress event, (100, "No files to organize"), to the callback it
    was given (none when it was given none), leaves the folder as it is,
    and returns an empty log with a report whose counters are all zero,
    whose per-category map is empty, and whose elapsed time is the
    difference of the two clock readings. *)
Theorem organize_files_empty `{PyLib} {World Path : Type} `{Pathlib Path}
        `{FileSystem World Path}
        (w : World) (start now : Z) (folder_path organize_mode : string)
        (check_duplicates : bool) (progress_callback : option callback)
        (entries : list Path) :
  fs_iterdir w (Path_of_str folder_path) = Ok entries ->
  filter (fun f => eligible w f = true) entries = [] ->
  let r := organize_files w start now folder_path organize_mode check_duplicates
                          progress_callback in
  (forall cb, progress_callback = Some cb ->
              st_events r.2 = [(100, "No files to organize")])
  /\ (progress_callback = None -> st_events r.2 = [])
  /\ st_world r.2 = w
  /\ (callback_returns progress_callback ->
      exists report,
        r.1 = Ok ([], report)
        /\ total_files report = 0 /\ total_size_bytes report = 0
        /\ duplicates_removed report = 0 /\ space_saved_bytes report = 0
        /\ categories report = ∅ /\ logs report = []
        /\ time_taken_sec report = now - start).
Proof.
  intros Henum Hnone r. subst r. unfold organize_files. rewrite Henum, Hnone.
  simpl. unfold bind, modify, gets, ret, invoke.
  destruct progress_callback as [cb|]; simpl.
  - repeat split; try done.
    + intros cb' [= <-]. destruct (cb 100 "No files to organize"); reflexivity.
    + destruct (cb 100 "No files to organize"); reflexivity.
    + intros Hcb. rewrite (Hcb cb eq_refl). simpl. eexists. repeat split.
  - repeat split; try done. intros _. eexists. repeat split.
Qed.

Lemma quiet_returns : callback_returns (Some quiet).
Proof. intros cb [= <-] percent message. reflexivity. Qed.

Lemma organize_files_empty_witness :
  let r := organize_files idle_world 0 5 "/home" "Category Only" true (Some quiet) in
  st_events r.2 = [(100, "No files to organize")]
  /\ exists report, r.1 = Ok ([], report) /\ total_files report = 0.
Proof.
  assert (Henum : fs_iterdir idle_world (Path_of_str "/home")
                  = Ok [mk_path true ["home"; "organizer.py"]; mk_path true ["home"; "sub"]])
    by (vm_compute; reflexivity).
  assert (Hnone : filter (fun f => eligible idle_world f = true)
                    [mk_path true ["home"; "organizer.py"]; mk_path true ["home"; "sub"]]
                  = [])
    by (vm_compute; reflexivity).
  destruct (organize_files_empty idle_world 0 5 "/home" "Category Only" true (Some quiet)
              _ Henum Hnone) as (Hev & _ & _ & Hret).
  split.
  - exact (Hev quiet eq_refl).
  - destruct (Hret quiet_returns) as (report & Hr & Htotal & _).
    exists report. split; assumption.
Defined.

Section PathFacts.
Context `{PyLib} {World Path : Type} `{Pathlib Path} `{FileSystem World Path}.
Variables (folder : Path) (organize_mode : string) (check_duplicates : bool)
          (progress_callback : option callback) (total : Z).

(** Lines 129-139 along each of their ways out: the file is counted in
    its category first; the destination, the directory and the move
    follow. *)
Lemma categorize_and_move_spec (file : Path) (ext : string) (s : state World) :
  let category := get_category ext in
  categorize_and_move folder organize_mode file ext s
  = match get_destination_path (st_world s) folder file category organize_mode with
    | Raise e => (Raise e, counted category s)
    | Ok dest_dir =>
        match fs_mkdir (st_world s) dest_dir true true with
        | Raise e =>
            (Raise e,
             set_world (fs_mkdir_failed (st_world s) dest_dir true true)
                       (counted category s))
        | Ok w1 =>
            match shutil_move w1 (path_str file) (dest_dir // path_name file) with
            | Raise e =>
                (Raise e,
                 set_world (shutil_move_failed w1 (path_str file)
                                               (dest_dir // path_name file))
                           (counted category s))
            | Ok w2 =>
                match path_relative_to dest_dir folder with
                | Raise e => (Raise e, set_world w2 (counted category s))
                | Ok relative =>
                    (Ok Fallthrough,
                     set_log_entry (moved_line file relative)
                                   (set_world w2 (counted category s)))
                end
            end
        end
    end.
Proof.
  intros category. munfold. unfold counted. simpl. fold category.
  destruct (get_destination_path _ _ _ _ _) as [dest|e]; [|reflexivity].
  destruct (fs_mkdir _ _ _ _) as [w1|e]; [|reflexivity]. simpl.
  destruct (shutil_move _ _ _) as [w2|e]; [|reflexivity]. simpl.
  destruct (path_relative_to _ _) as [rel|e]; reflexivity.
Qed.

(** A file that is not a duplicate leaves the duplicate check with the
    file system, the report, the counters and the events as they were. *)
Lemma duplicate_check_fallthrough i file size (s s2 : state World) :
  duplicate_check folder check_duplicates progress_callback total i file size s
  = (Ok Fallthrough, s2) ->
  st_world s2 = st_world s /\ st_analytics s2 = st_analytics s
  /\ st_duplicate_files s2 = st_duplicate_files s
  /\ st_space_saved_bytes s2 = st_space_saved_bytes s
  /\ st_events s2 = st_events s.
Proof.
  munfold. intros Hdup.
  repeat (case_match; simplify_eq/=; try done).
Qed.

(** Lines 144-147 append the pending line to the log; apart from the
    progress events they change nothing else, whatever the callback does. *)
Lemma report_progress_state i file (s : state World) :
  let r := report_progress progress_callback total i file s in
  st_analytics r.2 = append_log (st_log_entry s) (st_analytics s)
  /\ st_world r.2 = st_world s
  /\ st_seen_hashes r.2 = st_seen_hashes s
  /\ st_duplicate_files r.2 = st_duplicate_files s
  /\ st_space_saved_bytes r.2 = st_space_saved_bytes s.
Proof.
  cbv zeta. munfold.
  destruct progress_callback as [cb|]; [|done].
  destruct (total =? 0); [done|].
  destruct (percent_of i total) as [p|e]; [|done]. simpl.
  destruct (cb p (processing_message i total file)); done.
Qed.

(** The iteration of a file whose [try] block raises [e] in state [s1]. *)
Lemma iteration_raised i file (s s1 : state World) e :
  try_body folder organize_mode check_duplicates progress_callback total i file
           (set_log_entry "" s) = (Raise e, s1) ->
  iteration folder organize_mode check_duplicates progress_callback total i file s
  = report_progress progress_callback total i file (set_log_entry (error_line file e) s1).
Proof.
  intros Hraise. unfold iteration, try_except, except_clause, bind, modify, ret.
  rewrite Hraise. reflexivity.
Qed.

(** The iteration of a file whose [try] block falls through in state [s1]. *)
Lemma iteration_fell_through i file (s s1 : state World) :
  try_body folder organize_mode check_duplicates progress_callback total i file
           (set_log_entry "" s) = (Ok Fallthrough, s1) ->
  iteration folder organize_mode check_duplicates progress_callback total i file s
  = report_progress progress_callback total i file s1.
Proof.
  intros Hok. unfold iteration, try_except, except_clause, bind, modify, ret.
  rewrite Hok. reflexivity.
Qed.

(** The [try] block of a file that is not a duplicate. *)
Lemma try_body_not_duplicate i file st (s s2 : state World) :
  fs_stat (st_world s) file = Ok st ->
  duplicate_check folder check_duplicates progress_callback total i file (st_size st)
    (set_analytics (add_total_size_bytes (st_size st) (st_analytics s)) s)
  = (Ok Fallthrough, s2) ->
  try_body folder organize_mode check_duplicates progress_callback total i file s
  = categorize_and_move folder organize_mode file (path_suffix file) s2.
Proof.
  intros Hstat Hdup. unfold try_body, bind, fs_read, modify.
  rewrite Hstat. simpl. rewrite Hdup. reflexivity.
Qed.

End PathFacts.

(** C1 (amended).  In every run over a non-empty list of files, an
    exception raised inside the [try] block of an iteration (by reading
    the file's metadata, categorisation, destination resolution, directory
    creation or the move) is caught: the line "ERROR moving <name>:
    <reason>" is appended to the log, and the iteration ends with the
    progress call of line 147.  A file that cannot be read for hashing
    raises nothing: [calculate_hash] returns [None].  The only exceptions
    that leave an iteration, and [organize_files], are those that the
    progress callback raises; when the callback returns, the loop goes on
    with the next file and [organize_files] returns a log with one line
    per file. *)
Theorem organize_files_isolates_failures `{PyLib} {World Path : Type} `{Pathlib Path}
        `{FileSystem World Path}
        (w : World) (start now : Z) (folder_path organize_mode : string)
        (check_duplicates : bool) (progress_callback : option callback)
        (entries : list Path) :
  fs_iterdir w (Path_of_str folder_path) = Ok entries ->
  filter (fun f => eligible w f = true) entries <> [] ->
  let folder := Path_of_str folder_path in
  let files := filter (fun f => eligible w f = true) entries in
  let total := Z.of_nat (length files) in
  let run := organize_files w start now folder_path organize_mode check_duplicates
                            progress_callback in
  (forall e,
      run.1 = Raise e ->
      exists f percent message,
        progress_callback = Some f /\ f percent message = Raise e)
  /\ (callback_returns progress_callback ->
      exists log report,
        run.1 = Ok (log, report) /\ length log = length files /\ logs report = log)
  /\ (forall i file s,
         1 <= i <= total ->
         let r := iteration folder organize_mode check_duplicates progress_callback total
                            i file s in
         (forall e s1,
             try_body folder organize_mode check_duplicates progress_callback total
                      i file (set_log_entry "" s) = (Raise e, s1) ->
             logs (st_analytics r.2)
             = (logs (st_analytics s1)
                ++ ["ERROR moving " +:+ path_name file +:+ ": " +:+ exn_str e])%list
             /\ r.1 = match progress_callback with
                      | Some f => f (percent_value i total)
                                    (processing_message i total file)
                      | None => Ok tt
                      end)
         /\ (forall e,
                fs_stat (st_world s) file = Raise e ->
                logs (st_analytics r.2)
                = (logs (st_analytics s)
                   ++ ["ERROR moving " +:+ path_name file +:+ ": " +:+ exn_str e])%list)
         /\ (forall e,
                r.1 = Raise e ->
                exists f,
                  progress_callback = Some f
                  /\ f (percent_value i total) (processing_message i total file)
                     = Raise e)
         /\ (forall rest s',
                r = (Ok tt, s') ->
                for_loop folder organize_mode check_duplicates progress_callback total
                         i (file :: rest) s
                = for_loop folder organize_mode check_duplicates progress_callback total
                           (i + 1) rest s'))
  /\ (forall (w' : World) (unreadable : Path) e,
         fs_open_rb w' unreadable = Raise e ->
         calculate_hash w' unreadable default_block_size = None).
Proof.
  intros Henum Hne folder files total run.
  assert (Hcaught : forall i file s e s1,
             1 <= i <= total ->
             try_body folder organize_mode check_duplicates progress_callback total
                      i file (set_log_entry "" s) = (Raise e, s1) ->
             let r := iteration folder organize_mode check_duplicates progress_callback
                                total i file s in
             logs (st_analytics r.2)
             = (logs (st_analytics s1) ++ [error_line file e])%list
             /\ r.1 = match progress_callback with
                      | Some f => f (percent_value i total)
                                    (processing_message i total file)
                      | None => Ok tt
                      end).
  { intros i file s e s1 Hi Hraise. cbv zeta.
    rewrite (iteration_raised _ _ _ _ _ _ _ _ _ _ Hraise).
    unfold report_progress, invoke, bind, modify, lift, ret.
    rewrite !percent_of_value by lia.
    replace (total =? 0) with false by (symmetry; apply Z.eqb_neq; lia).
    destruct progress_callback as [f|]; simpl; split; reflexivity. }
  split; [|split; [|split]].
  - intros e. subst run.
    rewrite (organize_files_nonempty _ _ _ _ _ _ _ _ Henum Hne).
    fold folder files total. unfold bind at 1.
    destruct (for_loop folder organize_mode check_duplicates progress_callback total 1 files
                (initial_state w total)) as [[[]|e'] s'] eqn:Hfor.
    + unfold finish, bind, modify, gets, ret, invoke.
      destruct progress_callback as [f|]; [|discriminate]. simpl.
      destruct (f 100 _) eqn:Hf; [discriminate|].
      simpl. intros [= ->]. eauto.
    + simpl. intros [= ->].
      apply (for_loop_raises folder organize_mode check_duplicates progress_callback total
               files e (initial_state w total) 1); [lia | unfold total; lia |].
      rewrite Hfor. reflexivity.
  - intros Hcb. subst run.
    rewrite (organize_files_nonempty _ _ _ _ _ _ _ _ Henum Hne).
    fold folder files total.
    pose proof (for_loop_spec folder organize_mode check_duplicates progress_callback total
                  files (initial_state w total) 1 Hcb ltac:(lia) ltac:(unfold total; lia))
      as Hloop.
    cbv zeta in Hloop. destruct Hloop as (Hret & Hlen & _).
    unfold bind at 1.
    destruct (for_loop folder organize_mode check_duplicates progress_callback total 1 files
                (initial_state w total)) as [o s'] eqn:Hfor.
    simpl in Hret, Hlen. subst o.
    unfold finish, bind, modify, gets, ret, invoke.
    destruct progress_callback as [cb|]; [rewrite (Hcb cb eq_refl)|]; simpl;
      (eexists; eexists; split; [reflexivity|split; [exact Hlen|reflexivity]]).
  - intros i file s Hi r. split; [|split; [|split]].
    + intros e s1 Hraise. exact (Hcaught i file s e s1 Hi Hraise).
    + intros e Hstat.
      destruct (Hcaught i file s e (set_log_entry "" s) Hi) as [Hlogs _];
        [apply try_body_stat_raises; exact Hstat | exact Hlogs].
    + intros e Hr.
      exact (iteration_raises folder organize_mode check_duplicates progress_callback total
               s i file e Hi Hr).
    + intros rest s' Hr. apply for_loop_continues. exact Hr.
  - intros w' unreadable e. apply calculate_hash_open_raises.
Qed.

Lemma locked_entries :
  fs_iterdir locked_world (Path_of_str "/ro")
  = Ok [mk_path true ["ro"; "notes.txt"]; mk_path true ["ro"; "copy.txt"]].
Proof. vm_compute. reflexivity. Qed.

Lemma locked_files :
  filter (fun f => eligible locked_world f = true)
         [mk_path true ["ro"; "notes.txt"]; mk_path true ["ro"; "copy.txt"]]
  = [mk_path true ["ro"; "notes.txt"]; mk_path true ["ro"; "copy.txt"]].
Proof. vm_compute. reflexivity. Qed.

(** Both files of the read-only folder fail to move, and the call
    returns two lines. *)
Lemma organize_files_isolates_failures_witness :
  exists log report,
    (organize_files locked_world 0 5 "/ro" "Category Only" true (Some quiet)).1
    = Ok (log, report)
    /\ length log = 2%nat /\ logs report = log.
Proof.
  assert (Hne : filter (fun f => eligible locked_world f = true)
                  [mk_path true ["ro"; "notes.txt"]; mk_path true ["ro"; "copy.txt"]]
                <> []) by (rewrite locked_files; discriminate).
  destruct (organize_files_isolates_failures locked_world 0 5 "/ro" "Category Only" true
              (Some quiet) _ locked_entries Hne) as (_ & Hret & _).
  specialize (Hret quiet_returns). rewrite locked_files in Hret. exact Hret.
Defined.

(** The claim as the specification states it fails twice.  An exception
    does escape [organize_files]: with a callback that raises, the run
    over the two pictures raises.  And a failure to hash is not turned
    into an "ERROR moving" line: the film of the demo folder cannot be
    opened, and the log of the run has no such line for it. *)
Lemma organize_files_isolates_failures_counterexample :
  ~ (forall progress_callback : option callback,
        exists log report, (twin_run true progress_callback).1 = Ok (log, report))
  /\ ~ (forall (file : posix_path) (e : exn),
          file ∈ mk_path true <$> [["home"; "a.JPG"]; ["home"; "notes.txt"];
                                   ["home"; "b.jpeg"]; ["home"; "film.webm"]] ->
          fs_open_rb demo_world file = Raise e ->
          exists reason, error_line file reason ∈ logs (st_analytics demo_run.2)).
Proof.
  split.
  - intros Hclaim. destruct (Hclaim (Some broken)) as (log & report & Hrun).
    vm_compute in Hrun. discriminate Hrun.
  - intros Hclaim.
    destruct (Hclaim (mk_path true ["home"; "film.webm"])
                     (errno "13" "Permission denied" ["home"; "film.webm"]))
      as (reason & Hin).
    + simpl. do 3 right. left.
    + vm_compute. reflexivity.
    + assert (Hlogs : logs (st_analytics demo_run.2)
                      = [moved_line (mk_path true ["home"; "a.JPG"])
                                    (mk_path false ["Images"; "2024-07"]);
                         moved_line (mk_path true ["home"; "notes.txt"])
                                    (mk_path false ["Documents"; "2023-11"]);
                         duplicate_line (mk_path true ["home"; "b.jpeg"]);
                         moved_line (mk_path true ["home"; "film.webm"])
                                    (mk_path false ["Videos"; "2020-09"])])
        by (vm_compute; reflexivity).
      rewrite Hlogs in Hin. destruct reason as [text].
      repeat (apply elem_of_cons in Hin; destruct Hin as [Hin|Hin];
              [vm_compute in Hin; discriminate Hin|]).
      apply elem_of_nil in Hin. exact Hin.
Qed.

(** C9. A file that is not a duplicate is counted in its category before
    its destination is created and the move is tried.  When creating the
    destination or moving raises, the log gets the "ERROR moving" line, the
    count stays incremented, and the file system is the one that the call
    that raised left behind: nothing is done to it afterwards.  In the run
    over the read-only folder the report counts one file in "Documents"
    although the folder is exactly as it was. *)
Theorem category_count_survives_failed_move `{PyLib} {World Path : Type}
        `{Pathlib Path} `{FileSystem World Path}
        (folder : Path) (organize_mode : string) (check_duplicates : bool)
        (progress_callback : option callback) (total i : Z) (file : Path)
        (s s2 : state World) (st : stat_result) (dest_dir : Path) (e : exn) :
  let category := get_category (path_suffix file) in
  fs_stat (st_world s) file = Ok st ->
  duplicate_check folder check_duplicates progress_callback total i file (st_size st)
    (set_analytics (add_total_size_bytes (st_size st) (st_analytics s))
                   (set_log_entry "" s))
  = (Ok Fallthrough, s2) ->
  get_destination_path (st_world s) folder file category organize_mode = Ok dest_dir ->
  (fs_mkdir (st_world s) dest_dir true true = Raise e
   \/ exists w1, fs_mkdir (st_world s) dest_dir true true = Ok w1
                 /\ shutil_move w1 (path_str file) (dest_dir // path_name file) = Raise e) ->
  let r := iteration folder organize_mode check_duplicates progress_callback total i file s in
  categories (st_analytics r.2) !! category
  = Some (default 0 (categories (st_analytics s) !! category) + 1)
  /\ logs (st_analytics r.2) = (logs (st_analytics s) ++ [error_line file e])%list
  /\ (fs_mkdir (st_world s) dest_dir true true = Raise e
      /\ st_world r.2 = fs_mkdir_failed (st_world s) dest_dir true true
      \/ exists w1,
           fs_mkdir (st_world s) dest_dir true true = Ok w1
           /\ shutil_move w1 (path_str file) (dest_dir // path_name file) = Raise e
           /\ st_world r.2
              = shutil_move_failed w1 (path_str file) (dest_dir // path_name file))
  /\ (exists log report,
         locked_run.1 = Ok (log, report)
         /\ categories report !! "Documents" = Some 1
         /\ st_world locked_run.2 = locked_world).
Proof.
  intros category Hstat Hdup Hdest Hfail r.
  destruct (duplicate_check_fallthrough _ _ _ _ _ _ _ _ _ Hdup)
    as (Hw & Ha & _).
  simpl in Hw, Ha.
  assert (Hbody : exists s1,
             try_body folder organize_mode check_duplicates progress_callback total i file
                      (set_log_entry "" s) = (Raise e, s1)
             /\ st_analytics s1 = st_analytics (counted category s2)
             /\ (fs_mkdir (st_world s) dest_dir true true = Raise e
                 /\ st_world s1 = fs_mkdir_failed (st_world s) dest_dir true true
                 \/ exists w1,
                      fs_mkdir (st_world s) dest_dir true true = Ok w1
                      /\ shutil_move w1 (path_str file) (dest_dir // path_name file)
                         = Raise e
                      /\ st_world s1
                         = shutil_move_failed w1 (path_str file)
                                              (dest_dir // path_name file))).
  { rewrite (try_body_not_duplicate _ _ _ _ _ _ _ st _ s2) by assumption.
    rewrite categorize_and_move_spec. fold category. rewrite Hw, Hdest.
    destruct Hfail as [Hmk|(w1 & Hmk & Hmv)].
    - rewrite Hmk. eexists. split; [reflexivity|]. split; [reflexivity|].
      left. split; reflexivity.
    - rewrite Hmk, Hmv. eexists. split; [reflexivity|]. split; [reflexivity|].
      right. exists w1. split; [reflexivity|]. split; [exact Hmv | reflexivity]. }
  destruct Hbody as (s1 & Hraise & Ha1 & Hw1).
  subst r. rewrite (iteration_raised _ _ _ _ _ _ _ _ _ _ Hraise).
  pose proof (report_progress_state progress_callback total i file
                (set_log_entry (error_line file e) s1)) as Hrep.
  cbv zeta in Hrep. destruct Hrep as (Hra & Hrw & _).
  rewrite Hra, Hrw. simpl. rewrite Ha1. unfold counted. simpl. rewrite Ha. simpl.
  split; [apply dict_count_lookup|]. split; [reflexivity|]. split; [exact Hw1|].
  vm_compute. eexists. eexists. repeat split.
Qed.

(** The first file of the read-only folder: its destination cannot be
    created, and it is counted, not moved.  And the file of the read-only
    folder whose destination exists: the move raises after the file has
    been copied, the file is counted, it is still at its source, and a copy
    is at the destination. *)
Lemma category_count_survives_failed_move_witness :
  (let r := iteration (Path_of_str "/ro") "Category Only" true (Some quiet) 2 1
                      (mk_path true ["ro"; "notes.txt"]) (initial_state locked_world 2) in
   categories (st_analytics r.2) !! "Documents" = Some 1
   /\ logs (st_analytics r.2)
      = ["ERROR moving notes.txt: [Errno 13] Permission denied: '/ro/Documents'"])
  /\ (let r := iteration (Path_of_str "/ro") "Category Only" false (Some quiet) 1 1
                         (mk_path true ["ro"; "notes.txt"])
                         (initial_state sticky_world 1) in
      categories (st_analytics r.2) !! "Documents" = Some 1
      /\ logs (st_analytics r.2)
         = ["ERROR moving notes.txt: [Errno 13] Permission denied: '/ro/notes.txt'"]
      /\ fs_is_file (st_world r.2) (mk_path true ["ro"; "notes.txt"]) = true
      /\ fs_is_file (st_world r.2) (mk_path true ["ro"; "Documents"; "notes.txt"])
         = true).
Proof.
  split.
  - pose proof (category_count_survives_failed_move (Path_of_str "/ro") "Category Only"
                  true (Some quiet) 2 1 (mk_path true ["ro"; "notes.txt"])
                  (initial_state locked_world 2)) as Hthm.
    cbv zeta in Hthm.
    edestruct Hthm as (Hcount & Hlogs & _).
    + vm_compute. reflexivity.
    + vm_compute. reflexivity.
    + vm_compute. reflexivity.
    + left. vm_compute. reflexivity.
    + split; [exact Hcount | exact Hlogs].
  - pose proof (category_count_survives_failed_move (Path_of_str "/ro") "Category Only"
                  false (Some quiet) 1 1 (mk_path true ["ro"; "notes.txt"])
                  (initial_state sticky_world 1)) as Hthm.
    cbv zeta in Hthm.
    edestruct Hthm as (Hcount & Hlogs & Hworld & _).
    + vm_compute. reflexivity.
    + vm_compute. reflexivity.
    + vm_compute. reflexivity.
    + right. eexists. split; vm_compute; reflexivity.
    + split; [exact Hcount|]. split; [exact Hlogs|].
      destruct Hworld as [[Hmk _]|(w1 & Hmk & _ & Hw)].
      * vm_compute in Hmk. discriminate Hmk.
      * vm_compute in Hmk. injection Hmk as <-. rewrite Hw.
        split; vm_compute; reflexivity.
Defined.

Section DuplicateFacts.
Context `{PyLib} {World Path : Type} `{Pathlib Path} `{FileSystem World Path}.
Variables (folder : Path) (organize_mode : string)
          (progress_callback : option callback) (total : Z).

(** Lines 112-118 along their two failing ways out: the two counters are
    incremented before the folder is created and the move is tried. *)
Lemma remove_duplicate_raises i file size (s : state World) e :
  let duplicate_dir := folder // "Duplicates (Removed)" in
  let counted_duplicate :=
    set_space_saved_bytes (st_space_saved_bytes s + size)
      (set_duplicate_files (st_duplicate_files s + 1) s) in
  (fs_mkdir (st_world s) duplicate_dir false true = Raise e ->
   remove_duplicate folder progress_callback total i file size s
   = (Raise e,
      set_world (fs_mkdir_failed (st_world s) duplicate_dir false true)
                counted_duplicate))
  /\ (forall w1,
         fs_mkdir (st_world s) duplicate_dir false true = Ok w1 ->
         shutil_move w1 (path_str file) (duplicate_dir // path_name file) = Raise e ->
         remove_duplicate folder progress_callback total i file size s
         = (Raise e,
            set_world (shutil_move_failed w1 (path_str file)
                                          (duplicate_dir // path_name file))
                      counted_duplicate)).
Proof.
  cbv zeta. split.
  - intros Hmk. munfold. simpl. rewrite Hmk. reflexivity.
  - intros w1 Hmk Hmv. munfold. simpl. rewrite Hmk. simpl. rewrite Hmv. reflexivity.
Qed.

(** The [try] block of a file whose digest has been seen. *)
Lemma try_body_duplicate i file st h first (s : state World) :
  fs_stat (st_world s) file = Ok st ->
  calculate_hash (st_world s) file default_block_size = Some h ->
  st_seen_hashes s !! h = Some first ->
  try_body folder organize_mode true progress_callback total i file s
  = match remove_duplicate folder progress_callback total i file (st_size st)
            (set_analytics (add_total_size_bytes (st_size st) (st_analytics s)) s) with
    | (Ok Fallthrough, s') =>
        categorize_and_move folder organize_mode file (path_suffix file) s'
    | r => r
    end.
Proof.
  intros Hstat Hhash Hseen. unfold try_body, duplicate_check, bind, fs_read, modify, gets.
  rewrite Hstat. simpl. rewrite Hhash. simpl. rewrite Hseen.
  rewrite bool_decide_eq_true_2 by (eexists; reflexivity).
  destruct (remove_duplicate _ _ _ _ _ _ _) as [[[|]|e] s']; reflexivity.
Qed.

(** After the loop the two counters are copied into the report. *)
Lemma finish_report elapsed (s : state World) :
  callback_returns progress_callback ->
  exists report,
    (finish progress_callback elapsed s).1 = Ok (logs report, report)
    /\ duplicates_removed report = st_duplicate_files s
    /\ space_saved_bytes report = st_space_saved_bytes s
    /\ time_taken_sec report = elapsed
    /\ categories report = categories (st_analytics s)
    /\ logs report = logs (st_analytics s)
    /\ total_files report = total_files (st_analytics s)
    /\ total_size_bytes report = total_size_bytes (st_analytics s)
    /\ st_world (finish progress_callback elapsed s).2 = st_world s
    /\ st_events (finish progress_callback elapsed s).2
       = (st_events s
          ++ emitted progress_callback 100
               (completed_message (total_files (st_analytics s))))%list.
Proof.
  intros Hcb. unfold finish, bind, modify, gets, ret, invoke, emitted.
  exists (set_space_saved (st_space_saved_bytes s)
            (set_duplicates_removed (st_duplicate_files s)
               (set_time_taken_sec elapsed (st_analytics s)))).
  destruct progress_callback as [cb|]; [rewrite (Hcb cb eq_refl)|]; simpl;
    repeat split; rewrite ?app_nil_r; reflexivity.
Qed.

End DuplicateFacts.

Lemma error_line_not_duplicate_line `{Pathlib} (file : Path) (e : exn) :
  error_line file e <> duplicate_line file.
Proof. unfold error_line, duplicate_line. discriminate. Qed.

Lemma moved_line_not_warning_line `{Pathlib} (file relative : Path) :
  moved_line file relative <> warning_line file.
Proof. unfold moved_line, warning_line. discriminate. Qed.

Lemma error_line_not_warning_line `{Pathlib} (file : Path) (e : exn) :
  error_line file e <> warning_line file.
Proof. unfold error_line, warning_line. discriminate. Qed.

(** C10. For a file detected as a duplicate, [duplicate_files] and
    [space_saved_bytes] are incremented before the folder "Duplicates
    (Removed)" is created and the move is tried.  When either raises, the
    log gets the "ERROR moving" line and not the "DUPLICATE REMOVED" line,
    the counters stay incremented, and the file system is the one that the
    call that raised left behind; after the loop the counters are copied
    into the report.  In the run over the read-only folder the report
    counts one duplicate removed and five bytes saved although the folder
    is exactly as it was. *)
Theorem duplicate_counters_survive_failed_move `{PyLib} {World Path : Type}
        `{Pathlib Path} `{FileSystem World Path}
        (folder : Path) (organize_mode : string)
        (progress_callback : option callback) (total i : Z) (file : Path)
        (s : state World) (st : stat_result) (h first : string) (e : exn) :
  let duplicate_dir := folder // "Duplicates (Removed)" in
  fs_stat (st_world s) file = Ok st ->
  calculate_hash (st_world s) file default_block_size = Some h ->
  st_seen_hashes s !! h = Some first ->
  (fs_mkdir (st_world s) duplicate_dir false true = Raise e
   \/ exists w1, fs_mkdir (st_world s) duplicate_dir false true = Ok w1
                 /\ shutil_move w1 (path_str file) (duplicate_dir // path_name file)
                    = Raise e) ->
  let r := iteration folder organize_mode true progress_callback total i file s in
  st_duplicate_files r.2 = st_duplicate_files s + 1
  /\ st_space_saved_bytes r.2 = st_space_saved_bytes s + st_size st
  /\ logs (st_analytics r.2) = (logs (st_analytics s) ++ [error_line file e])%list
  /\ error_line file e <> duplicate_line file
  /\ (fs_mkdir (st_world s) duplicate_dir false true = Raise e
      /\ st_world r.2 = fs_mkdir_failed (st_world s) duplicate_dir false true
      \/ exists w1,
           fs_mkdir (st_world s) duplicate_dir false true = Ok w1
           /\ shutil_move w1 (path_str file) (duplicate_dir // path_name file) = Raise e
           /\ st_world r.2
              = shutil_move_failed w1 (path_str file) (duplicate_dir // path_name file))
  /\ (forall elapsed (s' : state World),
         callback_returns progress_callback ->
         exists report,
           (finish progress_callback elapsed s').1 = Ok (logs report, report)
           /\ duplicates_removed report = st_duplicate_files s'
           /\ space_saved_bytes report = st_space_saved_bytes s')
  /\ (exists log report,
         locked_run.1 = Ok (log, report)
         /\ duplicates_removed report = 1 /\ space_saved_bytes report = 5
         /\ st_world locked_run.2 = locked_world).
Proof.
  intros duplicate_dir Hstat Hhash Hseen Hfail r.
  assert (Hbody : exists s1,
             try_body folder organize_mode true progress_callback total i file
                      (set_log_entry "" s) = (Raise e, s1)
             /\ st_duplicate_files s1 = st_duplicate_files s + 1
             /\ st_space_saved_bytes s1 = st_space_saved_bytes s + st_size st
             /\ logs (st_analytics s1) = logs (st_analytics s)
             /\ (fs_mkdir (st_world s) duplicate_dir false true = Raise e
                 /\ st_world s1 = fs_mkdir_failed (st_world s) duplicate_dir false true
                 \/ exists w1,
                      fs_mkdir (st_world s) duplicate_dir false true = Ok w1
                      /\ shutil_move w1 (path_str file) (duplicate_dir // path_name file)
                         = Raise e
                      /\ st_world s1
                         = shutil_move_failed w1 (path_str file)
                                              (duplicate_dir // path_name file))).
  { rewrite (try_body_duplicate _ _ _ _ _ _ st h first) by assumption.
    pose proof (remove_duplicate_raises folder progress_callback total i file (st_size st)
                  (set_analytics (add_total_size_bytes (st_size st)
                                    (st_analytics (set_log_entry "" s)))
                                 (set_log_entry "" s)) e) as Hrd.
    cbv zeta in Hrd. destruct Hrd as [Hrd1 Hrd2].
    destruct Hfail as [Hmk|(w1 & Hmk & Hmv)].
    - rewrite (Hrd1 Hmk). eexists. split; [reflexivity|]. simpl.
      split; [reflexivity|]. split; [reflexivity|]. split; [reflexivity|].
      left. split; [exact Hmk | reflexivity].
    - rewrite (Hrd2 w1 Hmk Hmv). eexists. split; [reflexivity|]. simpl.
      split; [reflexivity|]. split; [reflexivity|]. split; [reflexivity|].
      right. exists w1. split; [exact Hmk|]. split; [exact Hmv | reflexivity]. }
  destruct Hbody as (s1 & Hraise & Hd1 & Hs1 & Hl1 & Hw1).
  subst r. rewrite (iteration_raised _ _ _ _ _ _ _ _ _ _ Hraise).
  pose proof (report_progress_state progress_callback total i file
                (set_log_entry (error_line file e) s1)) as Hrep.
  cbv zeta in Hrep. destruct Hrep as (Hra & Hrw & _ & Hrd & Hrs).
  rewrite Hra, Hrw, Hrd, Hrs. simpl. rewrite Hl1.
  split; [exact Hd1|]. split; [exact Hs1|]. split; [reflexivity|].
  split; [apply error_line_not_duplicate_line|]. split; [exact Hw1|]. split.
  - intros elapsed s' Hcb.
    destruct (finish_report progress_callback elapsed s' Hcb)
      as (report & Hfin & Hdr & Hss & _).
    exists report. repeat split; assumption.
  - vm_compute. eexists. eexists. repeat split.
Qed.

(** The second file of the read-only folder, once the first has been
    seen: counted as a duplicate, not moved. *)
Lemma duplicate_counters_survive_failed_move_witness :
  let s := set_seen_hashes {[ "746f20646f" := "notes.txt" ]} (initial_state locked_world 2) in
  let r := iteration (Path_of_str "/ro") "Category Only" true (Some quiet) 2 2
                     (mk_path true ["ro"; "copy.txt"]) s in
  st_duplicate_files r.2 = 1
  /\ st_space_saved_bytes r.2 = 5
  /\ logs (st_analytics r.2)
     = ["ERROR moving copy.txt: [Errno 13] Permission denied: '/ro/Duplicates (Removed)'"].
Proof.
  pose proof (duplicate_counters_survive_failed_move (Path_of_str "/ro") "Category Only"
                (Some quiet) 2 2 (mk_path true ["ro"; "copy.txt"])
                (set_seen_hashes {[ "746f20646f" := "notes.txt" ]}
                                 (initial_state locked_world 2))) as Hthm.
  cbv zeta in Hthm.
  edestruct Hthm as (Hdup & Hsaved & Hlogs & _).
  - vm_compute. reflexivity.
  - vm_compute. reflexivity.
  - vm_compute. reflexivity.
  - left. vm_compute. reflexivity.
  - split; [exact Hdup|]. split; [exact Hsaved | exact Hlogs].
Defined.

Section AbsentHashFacts.
Context `{PyLib} {World Path : Type} `{Pathlib Path} `{FileSystem World Path}.
Variables (folder : Path) (organize_mode : string)
          (progress_callback : option callback) (total : Z).

(** Lines 108-109: an absent digest assigns the warning to [log_entry]
    and nothing else. *)
Lemma duplicate_check_hash_absent i file size (s : state World) :
  calculate_hash (st_world s) file default_block_size = None ->
  duplicate_check folder true progress_callback total i file size s
  = (Ok Fallthrough, set_log_entry (warning_line file) s).
Proof.
  intros Hhash. unfold duplicate_check, bind, gets, modify, ret. rewrite Hhash.
  reflexivity.
Qed.

(** Whatever [log_entry] holds when lines 129-139 start is overwritten by
    the time the line is logged: by "Moved" at line 139 or by "ERROR
    moving" at line 141. *)
Lemma categorize_and_move_forgets_log_entry file ext pending (s : state World) :
  try_except (categorize_and_move folder organize_mode file ext) (except_clause file)
             (set_log_entry pending s)
  = try_except (categorize_and_move folder organize_mode file ext) (except_clause file) s.
Proof.
  unfold try_except. rewrite !categorize_and_move_spec. simpl.
  destruct (get_destination_path _ _ _ _ _) as [dest|e]; [|reflexivity].
  destruct (fs_mkdir _ _ _ _) as [w1|e]; [|reflexivity].
  destruct (shutil_move _ _ _) as [w2|e]; [|reflexivity].
  destruct (path_relative_to _ _) as [rel|e]; reflexivity.
Qed.

(** The line that an iteration logs for a file that reaches lines
    129-139 in state [s2]. *)
Lemma categorize_and_move_line file ext (s2 : state World) :
  exists line s3,
    try_except (categorize_and_move folder organize_mode file ext) (except_clause file) s2
    = (Ok Fallthrough, s3)
    /\ st_log_entry s3 = line
    /\ st_analytics s3 = st_analytics (counted (get_category ext) s2)
    /\ st_seen_hashes s3 = st_seen_hashes s2
    /\ st_duplicate_files s3 = st_duplicate_files s2
    /\ st_space_saved_bytes s3 = st_space_saved_bytes s2
    /\ ((exists relative, line = moved_line file relative)
        \/ (exists e, line = error_line file e)).
Proof.
  unfold try_except. rewrite categorize_and_move_spec. unfold except_clause, bind, modify, ret.
  destruct (get_destination_path _ _ _ _ _) as [dest|e];
    [|eexists; eexists; repeat split; eauto].
  destruct (fs_mkdir _ _ _ _) as [w1|e]; [|eexists; eexists; repeat split; eauto].
  destruct (shutil_move _ _ _) as [w2|e]; [|eexists; eexists; repeat split; eauto].
  destruct (path_relative_to _ _) as [rel|e]; eexists; eexists; repeat split; eauto.
Qed.

(** The [try] statement of a readable-metadata file whose digest is
    absent, with and without the duplicate check. *)
Lemma try_hash_absent i file st (s : state World) check_duplicates :
  fs_stat (st_world s) file = Ok st ->
  (check_duplicates = true ->
   calculate_hash (st_world s) file default_block_size = None) ->
  (check_duplicates = true \/ check_duplicates = false) ->
  try_except (try_body folder organize_mode check_duplicates progress_callback total i file)
             (except_clause file) s
  = try_except (categorize_and_move folder organize_mode file (path_suffix file))
               (except_clause file)
               (set_analytics (add_total_size_bytes (st_size st) (st_analytics s)) s).
Proof.
  intros Hstat Hhash Hcases.
  assert (Hbody :
    try_body folder organize_mode check_duplicates progress_callback total i file s
    = categorize_and_move folder organize_mode file (path_suffix file)
        (if check_duplicates
         then set_log_entry (warning_line file)
                (set_analytics (add_total_size_bytes (st_size st) (st_analytics s)) s)
         else set_analytics (add_total_size_bytes (st_size st) (st_analytics s)) s)).
  { apply (try_body_not_duplicate _ _ _ _ _ _ _ st); [exact Hstat|].
    destruct check_duplicates.
    - apply duplicate_check_hash_absent. simpl. auto.
    - reflexivity. }
  destruct check_duplicates.
  - rewrite <- (categorize_and_move_forgets_log_entry file (path_suffix file)
                  (warning_line file)).
    unfold try_except. rewrite Hbody. reflexivity.
  - unfold try_except. rewrite Hbody. reflexivity.
Qed.

End AbsentHashFacts.

Section AbsentHashIteration.
Context `{PyLib} {World Path : Type} `{Pathlib Path} `{FileSystem World Path}.
Variables (folder : Path) (organize_mode : string)
          (progress_callback : option callback) (total : Z).

(** The iteration of a file whose digest is absent (or whose duplicate
    check is off): the pending line is logged by lines 144-147. *)
Lemma iteration_hash_absent i file st (s : state World) check_duplicates :
  fs_stat (st_world s) file = Ok st ->
  (check_duplicates = true ->
   calculate_hash (st_world s) file default_block_size = None) ->
  exists s3,
    try_except (categorize_and_move folder organize_mode file (path_suffix file))
               (except_clause file)
               (set_analytics (add_total_size_bytes (st_size st) (st_analytics s))
                              (set_log_entry "" s))
    = (Ok Fallthrough, s3)
    /\ iteration folder organize_mode check_duplicates progress_callback total i file s
       = report_progress progress_callback total i file s3.
Proof.
  intros Hstat Hhash.
  destruct (categorize_and_move_line folder organize_mode file (path_suffix file)
              (set_analytics (add_total_size_bytes (st_size st) (st_analytics s))
                             (set_log_entry "" s)))
    as (line & s3 & Htry & _).
  exists s3. split; [exact Htry|].
  unfold iteration, bind at 1, modify. unfold bind at 1.
  rewrite (try_hash_absent folder organize_mode progress_callback total i file st
             (set_log_entry "" s) check_duplicates Hstat Hhash)
    by (destruct check_duplicates; auto).
  simpl st_analytics. rewrite Htry. reflexivity.
Qed.

End AbsentHashIteration.

(** C2 (the program does not do this).  For a file processed with the
    duplicate check on whose digest is absent, line 109 assigns the
    warning to [log_entry], but the one line that the iteration appends to
    the log is the "Moved" line or the "ERROR moving" line that overwrote
    it, never the warning.  In the run over the demo folder the film
    cannot be opened, and the log has its "Moved" line only. *)
Theorem warning_line_lost `{PyLib} {World Path : Type} `{Pathlib Path}
        `{FileSystem World Path}
        (folder : Path) (organize_mode : string)
        (progress_callback : option callback) (total i : Z) (file : Path)
        (s : state World) (st : stat_result) :
  fs_stat (st_world s) file = Ok st ->
  calculate_hash (st_world s) file default_block_size = None ->
  let r := iteration folder organize_mode true progress_callback total i file s in
  duplicate_check folder true progress_callback total i file (st_size st)
    (set_analytics (add_total_size_bytes (st_size st) (st_analytics s))
                   (set_log_entry "" s))
  = (Ok Fallthrough,
     set_log_entry (warning_line file)
       (set_analytics (add_total_size_bytes (st_size st) (st_analytics s))
                      (set_log_entry "" s)))
  /\ (exists line,
         logs (st_analytics r.2) = (logs (st_analytics s) ++ [line])%list
         /\ line <> warning_line file
         /\ ((exists relative, line = moved_line file relative)
             \/ (exists e, line = error_line file e)))
  /\ (calculate_hash demo_world (mk_path true ["home"; "film.webm"]) default_block_size
      = None
      /\ exists report,
           demo_run.1
           = Ok (["Moved: a.JPG → Images/2024-07";
                  "Moved: notes.txt → Documents/2023-11";
                  "DUPLICATE REMOVED: b.jpeg -> Duplicates";
                  "Moved: film.webm → Videos/2020-09"], report)).
Proof.
  intros Hstat Hhash r. split; [|split].
  - apply duplicate_check_hash_absent. exact Hhash.
  - destruct (categorize_and_move_line folder organize_mode file (path_suffix file)
                (set_analytics (add_total_size_bytes (st_size st) (st_analytics s))
                               (set_log_entry "" s)))
      as (line & s3 & Htry & Hline & Ha & _ & _ & _ & Hkind).
    destruct (iteration_hash_absent folder organize_mode progress_callback total i file st s
                true Hstat (fun _ => Hhash)) as (s3' & Htry' & Hiter).
    rewrite Htry in Htry'. injection Htry' as <-.
    subst r. rewrite Hiter.
    pose proof (report_progress_state progress_callback total i file s3) as Hrep.
    cbv zeta in Hrep. destruct Hrep as (Hra & _).
    exists line. rewrite Hra, Hline. simpl. rewrite Ha. split; [reflexivity|].
    split; [|exact Hkind].
    destruct Hkind as [[rel ->]|[e ->]].
    + apply moved_line_not_warning_line.
    + apply error_line_not_warning_line.
  - split; [vm_compute; reflexivity|]. vm_compute. eexists. reflexivity.
Qed.

(** The film of the demo folder, as the fourth file of the run. *)
Lemma warning_line_lost_witness :
  let film := mk_path true ["home"; "film.webm"] in
  let r := iteration (Path_of_str "/home") "Category Only" true (Some quiet) 4 4 film
                     (initial_state demo_world 4) in
  exists line,
    logs (st_analytics r.2) = [line] /\ line <> warning_line film.
Proof.
  cbv zeta.
  pose proof (warning_line_lost (Path_of_str "/home") "Category Only" (Some quiet) 4 4
                (mk_path true ["home"; "film.webm"]) (initial_state demo_world 4)
                (mk_stat 6 1600000000)) as Hthm.
  cbv zeta in Hthm.
  destruct Hthm as (_ & (line & Hlogs & Hne & _) & _).
  - vm_compute. reflexivity.
  - vm_compute. reflexivity.
  - exists line. split; [exact Hlogs | exact Hne].
Defined.

(** C7. A file whose content cannot be read for hashing gets the absent
    digest ([calculate_hash] returns [None], it does not raise), and with
    the duplicate check on its iteration is the iteration the file has
    with the check off: it is counted in its category, it is not entered
    in [seen_hashes], the duplicate counters do not move, and when the
    destination can be created and the move succeeds the file is moved to
    its categorised destination and the log gets its "Moved" line. *)
Theorem unhashable_file_is_organized `{PyLib} {World Path : Type} `{Pathlib Path}
        `{FileSystem World Path}
        (folder : Path) (organize_mode : string)
        (progress_callback : option callback) (total i : Z) (file : Path)
        (s : state World) (st : stat_result) :
  let category := get_category (path_suffix file) in
  fs_stat (st_world s) file = Ok st ->
  calculate_hash (st_world s) file default_block_size = None ->
  let r := iteration folder organize_mode true progress_callback total i file s in
  (forall (w' : World) (unreadable : Path) e,
      fs_open_rb w' unreadable = Raise e ->
      calculate_hash w' unreadable default_block_size = None)
  /\ iteration folder organize_mode true progress_callback total i file s
     = iteration folder organize_mode false progress_callback total i file s
  /\ categories (st_analytics r.2) !! category
     = Some (default 0 (categories (st_analytics s) !! category) + 1)
  /\ st_seen_hashes r.2 = st_seen_hashes s
  /\ st_duplicate_files r.2 = st_duplicate_files s
  /\ st_space_saved_bytes r.2 = st_space_saved_bytes s
  /\ (forall dest_dir w1 w2 relative,
         get_destination_path (st_world s) folder file category organize_mode = Ok dest_dir ->
         fs_mkdir (st_world s) dest_dir true true = Ok w1 ->
         shutil_move w1 (path_str file) (dest_dir // path_name file) = Ok w2 ->
         path_relative_to dest_dir folder = Ok relative ->
         st_world r.2 = w2
         /\ logs (st_analytics r.2)
            = (logs (st_analytics s) ++ [moved_line file relative])%list).
Proof.
  intros category Hstat Hhash r.
  destruct (iteration_hash_absent folder organize_mode progress_callback total i file st s
              true Hstat (fun _ => Hhash)) as (s3 & Htry & Hiter).
  destruct (iteration_hash_absent folder organize_mode progress_callback total i file st s
              false Hstat (fun Hf => ltac:(discriminate Hf))) as (s3' & Htry' & Hiter').
  rewrite Htry in Htry'. injection Htry' as <-.
  pose proof (report_progress_state progress_callback total i file s3) as Hrep.
  cbv zeta in Hrep. destruct Hrep as (Hra & Hrw & Hrs & Hrd & Hrb).
  destruct (categorize_and_move_line folder organize_mode file (path_suffix file)
              (set_analytics (add_total_size_bytes (st_size st) (st_analytics s))
                             (set_log_entry "" s)))
    as (line & s3' & Htry' & Hline & Ha & Hseen & Hdup & Hsaved & _).
  rewrite Htry in Htry'. injection Htry' as <-.
  subst r. rewrite Hiter, Hra, Hrw, Hrs, Hrd, Hrb.
  split; [intros w' unreadable e; apply calculate_hash_open_raises|].
  split; [rewrite Hiter'; reflexivity|].
  split; [simpl; rewrite Ha; apply dict_count_lookup|].
  split; [exact Hseen|]. split; [exact Hdup|]. split; [exact Hsaved|].
  intros dest_dir w1 w2 relative Hdest Hmk Hmv Hrel.
  unfold try_except in Htry. rewrite categorize_and_move_spec in Htry.
  simpl in Htry. fold category in Htry. rewrite Hdest, Hmk, Hmv, Hrel in Htry.
  injection Htry as <-. split; reflexivity.
Qed.

(** The film of the demo folder: it cannot be opened, and it is moved to
    Videos. *)
Lemma unhashable_file_is_organized_witness :
  let film := mk_path true ["home"; "film.webm"] in
  let r := iteration (Path_of_str "/home") "Category Only" true (Some quiet) 4 4 film
                     (initial_state demo_world 4) in
  categories (st_analytics r.2) !! "Videos" = Some 1
  /\ fs_is_file (st_world r.2) (mk_path true ["home"; "Videos"; "film.webm"]) = true
  /\ logs (st_analytics r.2) = ["Moved: film.webm → Videos"].
Proof.
  cbv zeta.
  pose proof (unhashable_file_is_organized (Path_of_str "/home") "Category Only"
                (Some quiet) 4 4 (mk_path true ["home"; "film.webm"])
                (initial_state demo_world 4) (mk_stat 6 1600000000)) as Hthm.
  cbv zeta in Hthm.
  destruct Hthm as (_ & _ & Hcount & _ & _ & _ & Hmoved).
  - vm_compute. reflexivity.
  - vm_compute. reflexivity.
  - edestruct Hmoved as (Hworld & Hlogs).
    + vm_compute. reflexivity.
    + vm_compute. reflexivity.
    + vm_compute. reflexivity.
    + vm_compute. reflexivity.
    + split; [exact Hcount|]. split; [rewrite Hworld; vm_compute; reflexivity | exact Hlogs].
Defined.

Section SuccessFacts.
Context `{PyLib} {World Path : Type} `{Pathlib Path} `{FileSystem World Path}.
Variables (folder : Path) (organize_mode : string)
          (progress_callback : option callback) (total : Z).



End SuccessFacts.




(** ** Progress events *)

(** A list that runs through [f 1], ..., [f n] and ends in [top] is
    non-decreasing when [f] is and stays below [top]. *)
Lemma percent_list_sorted (total : Z) (j k : nat) (p q : Z) :
  0 < total -> (j <= k)%nat ->
  percent_sequence total !! j = Some p ->
  percent_sequence total !! k = Some q ->
  p <= q.
Proof.
  intros Htotal Hjk Hp Hq.
  assert (Hshape : forall (n : nat) (x : Z),
             percent_sequence total !! n = Some x ->
             (Z.of_nat n < total /\ x = percent_value (1 + Z.of_nat n) total)
             \/ (total <= Z.of_nat n /\ x = 100)).
  { intros n x Hn. unfold percent_sequence in Hn.
    apply lookup_app_Some in Hn as [Hn|[Hlen Hn]].
    - left. rewrite list_lookup_fmap in Hn.
      destruct (seqZ 1 total !! n) as [y|] eqn:Hy; [|discriminate].
      apply lookup_seqZ in Hy as [-> Hlt]. simpl in Hn.
      assert (x = percent_value (1 + Z.of_nat n) total) by congruence.
      split; [lia|assumption].
    - right. rewrite length_fmap, length_seqZ in Hlen, Hn.
      destruct (n - Z.to_nat total)%nat as [|m]; [|destruct m; discriminate Hn].
      assert (x = 100) by (simpl in Hn; congruence).
      split; [lia|assumption]. }
  destruct (Hshape j p Hp) as [[Hj ->]|[Hj ->]];
    destruct (Hshape k q Hq) as [[Hk ->]|[Hk ->]].
  - apply percent_value_mono; lia.
  - apply percent_value_range. lia.
  - lia.
  - lia.
Qed.

(** C8, as the program has it.  In every run over a non-empty list of
    files with a callback that returns, the event of file [i] of [total]
    carries [int((i / total) * 100)] as binary64 arithmetic evaluates it
    ([percent_value i total], which is 57 and not 58 for file 29 of 50);
    these percentages, followed by the 100 of the final event, are
    non-decreasing, and the last event emitted reports 100. *)
Theorem progress_events_spec `{PyLib} {World Path : Type} `{Pathlib Path}
        `{FileSystem World Path}
        (w : World) (start now : Z) (folder_path organize_mode : string)
        (check_duplicates : bool) (cb : callback) (entries : list Path) :
  fs_iterdir w (Path_of_str folder_path) = Ok entries ->
  filter (fun f => eligible w f = true) entries <> [] ->
  callback_returns (Some cb) ->
  let total := Z.of_nat (length (filter (fun f => eligible w f = true) entries)) in
  let r := organize_files w start now folder_path organize_mode check_duplicates (Some cb) in
  (st_events r.2).*1 = percent_sequence total
  /\ (forall i, 1 <= i <= total ->
                percent_of i total = Ok (percent_value i total)
                /\ 0 <= percent_value i total <= 100)
  /\ (forall (j k : nat) p q,
         (j <= k)%nat -> (st_events r.2).*1 !! j = Some p ->
         (st_events r.2).*1 !! k = Some q -> p <= q)
  /\ (exists message, last (st_events r.2) = Some (100, message)).
Proof.
  intros Henum Hne Hcb total r.
  assert (Htotal : 0 < total).
  { unfold total. destruct (filter _ entries); [contradiction|simpl; lia]. }
  remember r as r' eqn:Hr. unfold r in Hr. clear r.
  rewrite (organize_files_nonempty _ _ _ _ _ _ _ _ Henum Hne) in Hr.
  fold total in Hr.
  assert (Hbound : 1 + total - 1 <= total) by lia.
  pose proof (for_loop_spec (Path_of_str folder_path) organize_mode check_duplicates
                (Some cb) total (filter (fun f => eligible w f = true) entries)
                (initial_state w total) 1 Hcb ltac:(lia) Hbound)
    as Hloop.
  cbv zeta in Hloop. destruct Hloop as (Hret & _ & Hev). fold total in Hev.
  unfold bind in Hr.
  destruct (for_loop _ _ _ _ _ _ _ _) as [o s'].
  simpl in Hret, Hev. subst o.
  destruct (finish_report (Some cb) (now - start) s' Hcb)
    as (report & _ & _ & _ & _ & _ & _ & _ & _ & _ & Hfin).
  unfold emitted in Hfin.
  assert (Hall : (st_events r'.2).*1 = percent_sequence total).
  { subst r'. rewrite Hfin, fmap_app, Hev. reflexivity. }
  split; [exact Hall|].
  split; [intros i Hi; split; [apply percent_of_value | apply percent_value_range]; exact Hi|].
  split.
  - intros j k p q Hjk Hp Hq. rewrite Hall in Hp, Hq.
    exact (percent_list_sorted total j k p q Htotal Hjk Hp Hq).
  - subst r'. rewrite Hfin. rewrite last_snoc. eexists. reflexivity.
Qed.

(** The demo folder: four files, five events. *)
Lemma progress_events_spec_witness :
  (st_events demo_run.2).*1 = [25; 50; 75; 100; 100]
  /\ exists message, last (st_events demo_run.2) = Some (100, message).
Proof.
  assert (Henum : fs_iterdir demo_world (Path_of_str "/home")
                  = Ok (mk_path true <$> [["home"; "a.JPG"]; ["home"; "notes.txt"];
                                          ["home"; "b.jpeg"]; ["home"; "film.webm"];
                                          ["home"; "organizer.py"]; ["home"; "sub"]]))
    by (vm_compute; reflexivity).
  assert (Hfiles : filter (fun f => eligible demo_world f = true)
                     (mk_path true <$> [["home"; "a.JPG"]; ["home"; "notes.txt"];
                                        ["home"; "b.jpeg"]; ["home"; "film.webm"];
                                        ["home"; "organizer.py"]; ["home"; "sub"]])
                   = mk_path true <$> [["home"; "a.JPG"]; ["home"; "notes.txt"];
                                       ["home"; "b.jpeg"]; ["home"; "film.webm"]])
    by (vm_compute; reflexivity).
  destruct (progress_events_spec demo_world 0 250 "/home" "Category / Year-Month" true
              quiet _ Henum) as (Hall & _ & _ & Hlast).
  - rewrite Hfiles. discriminate.
  - exact quiet_returns.
  - split; [|exact Hlast]. unfold demo_run. rewrite Hall, Hfiles.
    vm_compute. reflexivity.
Defined.

(** The claim as the specification states it fails twice.  Among the
    per-file events of the run over fifty files, that of file 29 carries
    57, and floor(29/50 * 100) is 58.  And the final event does not report
    100 in every run with a callback: with a callback that raises, the last
    event that the run over the two pictures emits is that of the first
    picture, with 50. *)
Lemma progress_percent_counterexample :
  ~ (forall (i : nat) (p : Z) (message : string),
        (i < 50)%nat ->
        st_events fifty_run.2 !! i = Some (p, message) ->
        p = percent_exact (Z.of_nat i + 1) 50)
  /\ ~ (forall progress_callback : callback,
          exists message,
            last (st_events (twin_run false (Some progress_callback)).2)
            = Some (100, message)).
Proof.
  split.
  - intros Hclaim.
    specialize (Hclaim 28%nat 57 "Processing f29.txt (29/50)" ltac:(lia)).
    assert (Hevent : st_events fifty_run.2 !! 28%nat
                     = Some (57, "Processing f29.txt (29/50)"))
      by (vm_compute; reflexivity).
    specialize (Hclaim Hevent). vm_compute in Hclaim. discriminate Hclaim.
  - intros Hclaim. destruct (Hclaim broken) as [message Hlast].
    vm_compute in Hlast. discriminate Hlast.
Qed.

(** * Further properties of the program *)

(** ** Hasher: blocks, faults and the block size *)

Section ChunkFacts.
Context `{PyLib} {World Path : Type} `{FileSystem World Path}.

(** With a hasher whose [update] concatenates, the loop over a file read
    without a fault hashes the buffer at hand followed by the rest. *)
Lemma read_loop_whole fuel block_size hasher data buf :
  (forall h a b, md5_update (md5_update h a) b = md5_update h (a ++ b)) ->
  (0 < block_size)%nat -> buf <> [] ->
  (length buf + length data <= fuel)%nat ->
  read_loop fuel block_size hasher (mk_handle data None) buf
  = Some (Ok (md5_update hasher (buf ++ data))).
Proof.
  intros Hlaw Hbs. revert hasher data buf.
  induction fuel as [|fuel IH]; intros hasher data buf Hbuf Hfuel.
  - destruct buf; [contradiction | simpl in Hfuel; lia].
  - destruct buf as [|b buf]; [contradiction|].
    cbn [read_loop file_read fh_fault fh_data].
    destruct (firstn block_size data) as [|c rest] eqn:Hfirst.
    + assert (data = []) as ->.
      { destruct data as [|d data]; [reflexivity|].
        destruct block_size; [lia | discriminate Hfirst]. }
      rewrite app_nil_r. destruct fuel; reflexivity.
    + rewrite IH.
      * rewrite Hlaw, <- Hfirst, firstn_skipn. reflexivity.
      * discriminate.
      * rewrite <- Hfirst. rewrite <- (firstn_skipn block_size data) in Hfuel.
        rewrite length_app in Hfuel. simpl in Hfuel. lia.
Qed.

(** The read that is to fail is reached. *)
Lemma read_loop_fault block_size e : forall n fuel hasher data buf,
  (0 < block_size)%nat -> buf <> [] ->
  (n * block_size < length data + block_size)%nat -> (n < fuel)%nat ->
  read_loop fuel block_size hasher (mk_handle data (Some (n, e))) buf = Some (Raise e).
Proof.
  induction n as [|n IH]; intros fuel hasher data buf Hbs Hbuf Hn Hfuel.
  - destruct fuel as [|fuel]; [lia|]. destruct buf; [contradiction|]. reflexivity.
  - destruct fuel as [|fuel]; [lia|]. destruct buf as [|b buf]; [contradiction|].
    cbn [read_loop file_read fh_fault fh_data].
    assert (Hlen : length (skipn block_size data) = (length data - block_size)%nat)
      by apply length_skipn.
    apply IH; [exact Hbs| | |lia].
    + destruct data as [|d data]; [simpl in Hn; lia|].
      destruct block_size; [lia | discriminate].
    + rewrite Hlen. simpl in Hn.
      destruct (Nat.le_gt_cases block_size (length data)); [lia|].
      assert (n = 0%nat) by nia. subst n. lia.
Qed.

(** The read that is to fail is not reached: the file ends first. *)
Lemma read_loop_fault_late block_size e : forall fuel n hasher data buf,
  (0 < block_size)%nat ->
  (length data + block_size <= n * block_size)%nat ->
  read_loop fuel block_size hasher (mk_handle data (Some (n, e))) buf
  = read_loop fuel block_size hasher (mk_handle data None) buf.
Proof.
  induction fuel as [|fuel IH]; intros n hasher data buf Hbs Hn; [reflexivity|].
  destruct buf as [|b buf]; [reflexivity|].
  destruct n as [|n]; [simpl in Hn; lia|].
  cbn [read_loop file_read fh_fault fh_data].
  destruct (firstn block_size data) as [|c rest] eqn:Hfirst.
  - destruct fuel; reflexivity.
  - apply IH; [exact Hbs|].
    rewrite length_skipn. simpl in Hn.
    assert (data <> []) by (intros ->; rewrite firstn_nil in Hfirst; discriminate).
    assert (0 < length data)%nat by (destruct data; [contradiction | simpl; lia]).
    destruct (Nat.le_gt_cases block_size (length data)); [lia|].
    assert (1 <= n)%nat by nia. nia.
Qed.

End ChunkFacts.

(** X8. [calculate_hash] reads a file in blocks and gives the digest of
    its whole content, whatever the (positive) block size: with a hasher
    for which two updates are one update with the concatenation, as MD5
    is, the digest of a file read without a fault is the digest of its
    bytes, and that of an empty file is the digest of a fresh hasher. *)
Theorem calculate_hash_whole_content `{PyLib} {World Path : Type}
        `{FileSystem World Path}
        (w : World) (filepath : Path) (block_size : nat) (data : list byte) :
  (forall h a b, md5_update (md5_update h a) b = md5_update h (a ++ b)) ->
  (0 < block_size)%nat ->
  fs_open_rb w filepath = Ok (mk_handle data None) ->
  calculate_hash w filepath block_size
  = Some (md5_hexdigest match data with
                        | [] => hashlib_md5
                        | _ :: _ => md5_update hashlib_md5 data
                        end).
Proof.
  intros Hlaw Hbs Hopen. unfold calculate_hash. rewrite Hopen.
  cbn [file_read fh_fault fh_data].
  destruct data as [|d data]; [rewrite firstn_nil; reflexivity|].
  rewrite read_loop_whole; try assumption.
  - rewrite firstn_skipn. reflexivity.
  - destruct block_size; [lia | discriminate].
  - rewrite <- length_app, firstn_skipn. lia.
Qed.

(** The first picture of the twin folder, read four bytes at a time. *)
Lemma calculate_hash_whole_content_witness :
  calculate_hash twin_world (mk_path true ["home"; "a.JPG"]) 4 = Some "73756e736574".
Proof.
  rewrite (calculate_hash_whole_content twin_world (mk_path true ["home"; "a.JPG"]) 4
             (bytes_of "sunset")).
  - reflexivity.
  - intros h a b. symmetry. apply app_assoc.
  - lia.
  - vm_compute. reflexivity.
Defined.

(** X9. With the block size 0 the first read returns no byte, the loop
    is not entered, and every file that can be opened gets the digest of
    the empty input, whatever it holds. *)
Theorem calculate_hash_zero_block `{PyLib} {World Path : Type}
        `{FileSystem World Path}
        (w : World) (filepath : Path) (f : file_handle) :
  fs_open_rb w filepath = Ok f ->
  (forall e, fh_fault f <> Some (0%nat, e)) ->
  calculate_hash w filepath 0 = Some (md5_hexdigest hashlib_md5).
Proof.
  intros Hopen Hfault. unfold calculate_hash. rewrite Hopen.
  unfold file_read. destruct (fh_fault f) as [[[|k] e]|].
  - destruct (Hfault e eq_refl).
  - reflexivity.
  - reflexivity.
Qed.

(** The text file of the demo folder: its digest is that of no byte. *)
Lemma calculate_hash_zero_block_witness :
  calculate_hash demo_world (mk_path true ["home"; "notes.txt"]) 0 = Some "".
Proof.
  refine (calculate_hash_zero_block demo_world (mk_path true ["home"; "notes.txt"])
            (mk_handle (bytes_of "to do") None) _ _).
  - vm_compute. reflexivity.
  - intros e. discriminate.
Defined.

(** X10. A read that fails while the file is being hashed gives the
    absent digest, not the digest of the part read: when the [n]-th read
    after the first is the one that raises and the loop gets that far
    ([n] blocks do not go past the end of the file by a whole block),
    [calculate_hash] returns [None]; when the file ends first, the digest
    is that of the same content read without a fault. *)
Theorem calculate_hash_read_fault `{PyLib} {World Path : Type}
        `{FileSystem World Path}
        (w : World) (filepath : Path) (block_size : nat) (data : list byte)
        (n : nat) (e : exn) :
  (0 < block_size)%nat ->
  fs_open_rb w filepath = Ok (mk_handle data (Some (n, e))) ->
  ((n * block_size < length data + block_size)%nat ->
   calculate_hash w filepath block_size = None)
  /\ ((length data + block_size <= n * block_size)%nat ->
      forall (w' : World) (intact : Path),
        fs_open_rb w' intact = Ok (mk_handle data None) ->
        calculate_hash w filepath block_size = calculate_hash w' intact block_size).
Proof.
  intros Hbs Hopen. unfold calculate_hash. rewrite Hopen. split.
  - intros Hn. destruct n as [|n]; [reflexivity|].
    cbn [file_read fh_fault fh_data].
    assert (Hdata : data <> []).
    { intros ->. simpl in Hn. lia. }
    rewrite read_loop_fault; [reflexivity|exact Hbs| | |].
    + destruct data as [|d data]; [contradiction|].
      destruct block_size; [lia | discriminate].
    + rewrite length_skipn. simpl in Hn.
      destruct (Nat.le_gt_cases block_size (length data)); [lia|].
      assert (n = 0%nat) by nia. subst n. lia.
    + assert (n * 1 <= n * block_size)%nat by (apply Nat.mul_le_mono_l; lia). 
      simpl in Hn. lia.
  - intros Hn w' intact Hintact. rewrite Hintact.
    destruct n as [|n]; [simpl in Hn; lia|].
    cbn [file_read fh_fault fh_data].
    destruct (firstn block_size data) as [|c rest] eqn:Hfirst.
    + reflexivity.
    + rewrite read_loop_fault_late; [reflexivity | exact Hbs |].
      rewrite length_skipn. simpl in Hn.
      assert (data <> []) by (intros ->; rewrite firstn_nil in Hfirst; discriminate).
      assert (0 < length data)%nat by (destruct data; [contradiction | simpl; lia]).
      destruct (Nat.le_gt_cases block_size (length data)); [lia|].
      assert (1 <= n)%nat by nia. nia.
Qed.

(** A file of six bytes read four at a time, whose second read fails. *)
Lemma calculate_hash_read_fault_witness :
  calculate_hash faulty_world (mk_path true ["home"; "disk.img"]) 4 = None.
Proof.
  destruct (calculate_hash_read_fault faulty_world (mk_path true ["home"; "disk.img"]) 4
              (bytes_of "sunset") 1 (Exception "[Errno 5] Input/output error"))
    as [Hnone _].
  - lia.
  - vm_compute. reflexivity.
  - apply Hnone. vm_compute. lia.
Defined.

(** ** Path Resolver: failures *)

(** X11. [get_destination_path] raises exactly when the mode is not
    "Category Only" and either the file's metadata cannot be read or its
    modification time is out of the range of [datetime.fromtimestamp]; it
    then raises that exception.  So an unrecognised mode, which ends at
    root/category like "Category Only", still fails on such a file. *)
Theorem get_destination_path_failure `{PyLib} {World Path : Type} `{Pathlib Path}
        `{FileSystem World Path}
        (w : World) (folder file : Path) (category mode : string) (e : exn) :
  get_destination_path w folder file category mode = Raise e
  <-> mode <> "Category Only"
      /\ (fs_stat w file = Raise e
          \/ exists st, fs_stat w file = Ok st
                        /\ datetime_fromtimestamp (st_mtime st) = Raise e).
Proof.
  unfold get_destination_path.
  destruct (String.eqb_spec mode "Category Only") as [->|Hmode].
  - split; [discriminate|]. intros [Hne _]. contradiction.
  - destruct (fs_stat w file) as [st|e1]; simpl.
    + destruct (datetime_fromtimestamp (st_mtime st)) as [dt|e2] eqn:Hdt; simpl.
      * split.
        -- repeat case_match; discriminate.
        -- intros [_ [Hst|(st' & Hst & Hraise)]]; [discriminate|].
           injection Hst as <-. rewrite Hdt in Hraise. discriminate.
      * split.
        -- intros [= ->]. split; [exact Hmode|]. right. exists st. split; reflexivity || exact Hdt.
        -- intros [_ [Hst|(st' & Hst & Hraise)]]; [discriminate|].
           injection Hst as <-. rewrite Hdt in Hraise. injection Hraise as ->.
           reflexivity.
    + split.
      * intros [= ->]. split; [exact Hmode|]. left. reflexivity.
      * intros [_ [Hst|(st' & Hst & _)]]; [|discriminate].
        injection Hst as ->. reflexivity.
Qed.
(** A file that is not there, under the mode "Category / Year". *)
Lemma get_destination_path_failure_witness :
  exists e,
    get_destination_path demo_world (Path_of_str "/home") (Path_of_str "/home/ghost.txt")
      "Documents" "Category / Year" = Raise e.
Proof.
  eexists. apply get_destination_path_failure.
  split; [discriminate|]. left. vm_compute. reflexivity.
Defined.

(** ** Orchestrator: what every iteration keeps *)

Lemma category_total_insert (d : gmap string Z) k v :
  d !! k = None -> category_total (<[k := v]> d) = v + category_total d.
Proof.
  intros Hk. unfold category_total.
  apply (map_fold_insert_L (fun _ v acc => v + acc)); [|exact Hk].
  intros. lia.
Qed.

Lemma category_total_count (d : gmap string Z) k :
  category_total (dict_incr (dict_setdefault d k 0) k) = category_total d + 1.
Proof.
  unfold dict_incr, dict_setdefault.
  destruct (d !! k) as [v|] eqn:Hk.
  - rewrite <- (insert_delete_id d k v Hk) at 1.
    rewrite alter_insert_eq.
    rewrite <- (insert_delete_id d k v Hk) at 2.
    rewrite !category_total_insert by apply lookup_delete_eq. lia.
  - rewrite alter_insert_eq. rewrite !category_total_insert by exact Hk.
    unfold category_total. lia.
Qed.

Lemma prefix_append (p s : string) : String.prefix p (p +:+ s) = true.
Proof.
  induction p as [|c p IH]; [destruct s; reflexivity|].
  change (String c p +:+ s) with (String c (p +:+ s)). simpl.
  destruct (ascii_dec c c); [exact IH | contradiction].
Qed.

Section StepFacts.
Context `{PyLib} {World Path : Type} `{Pathlib Path} `{FileSystem World Path}.
Variables (folder : Path) (organize_mode : string) (check_duplicates : bool)
          (progress_callback : option callback) (total : Z).

Lemma moved_line_shape (file rel : Path) : log_line_shape (moved_line file rel) = true.
Proof.
  unfold log_line_shape, moved_line. rewrite prefix_append. reflexivity.
Qed.

Lemma error_line_shape (file : Path) e : log_line_shape (error_line file e) = true.
Proof.
  unfold log_line_shape, error_line. rewrite prefix_append.
  rewrite orb_true_r. reflexivity.
Qed.

Lemma duplicate_line_shape (file : Path) : log_line_shape (duplicate_line file) = true.
Proof.
  unfold log_line_shape, duplicate_line. rewrite prefix_append. apply orb_true_r.
Qed.

Lemma try_body_step s i file :
  let counted_map :=
    dict_incr (dict_setdefault (categories (st_analytics s))
                 (get_category (path_suffix file)) 0)
              (get_category (path_suffix file)) in
  match try_body folder organize_mode check_duplicates progress_callback total i file s with
  | (o, s1) =>
      total_files (st_analytics s1) = total_files (st_analytics s)
      /\ (categories (st_analytics s1) = categories (st_analytics s)
          \/ categories (st_analytics s1) = counted_map)
      /\ st_duplicate_files s <= st_duplicate_files s1
      /\ (forall h v, st_seen_hashes s !! h = Some v -> st_seen_hashes s1 !! h = Some v)
      /\ (st_seen_hashes s1 = st_seen_hashes s
          \/ categories (st_analytics s1) = counted_map
             /\ exists h, calculate_hash (st_world s) file default_block_size = Some h
                          /\ st_seen_hashes s !! h = None
                          /\ st_seen_hashes s1 = <[h := path_name file]> (st_seen_hashes s))
      /\ (st_duplicate_files s1 = st_duplicate_files s
          \/ exists h, is_Some (st_seen_hashes s !! h))
      /\ (check_duplicates = false ->
          st_seen_hashes s1 = st_seen_hashes s
          /\ st_duplicate_files s1 = st_duplicate_files s
          /\ st_space_saved_bytes s1 = st_space_saved_bytes s
          /\ o <> Ok Continue
          /\ logs (st_analytics s1) = logs (st_analytics s))
      /\ match fs_stat (st_world s) file with
         | Ok st =>
             total_size_bytes (st_analytics s1)
             = total_size_bytes (st_analytics s) + st_size st
             /\ category_total (categories (st_analytics s1)) + st_duplicate_files s1
                = category_total (categories (st_analytics s)) + st_duplicate_files s + 1
             /\ (st_duplicate_files s1 = st_duplicate_files s
                 /\ st_space_saved_bytes s1 = st_space_saved_bytes s
                 \/ st_duplicate_files s1 = st_duplicate_files s + 1
                    /\ st_space_saved_bytes s1 = st_space_saved_bytes s + st_size st)
         | Raise e =>
             o = Raise e /\ s1 = s
         end
      /\ match o with
         | Ok Continue =>
             logs (st_analytics s1) = (logs (st_analytics s) ++ [duplicate_line file])%list
         | Ok Fallthrough =>
             logs (st_analytics s1) = logs (st_analytics s)
             /\ exists rel, st_log_entry s1 = moved_line file rel
         | Raise e =>
             logs (st_analytics s1) = logs (st_analytics s)
             \/ logs (st_analytics s1) = (logs (st_analytics s) ++ [duplicate_line file])%list
         end
  end.
Proof.
  cbv zeta. munfold.
  repeat (case_match; simplify_eq/=; try done);
    rewrite ?category_total_count;
    repeat split; try done; try lia; eauto 10.
  all: repeat match goal with
       | Hb : bool_decide _ = true |- _ => apply bool_decide_eq_true_1 in Hb
       | Hb : bool_decide _ = false |- _ =>
           apply bool_decide_eq_false_1 in Hb; apply eq_None_not_Some in Hb
       end.
  all: try (intros h v Hv; rewrite lookup_insert_ne; [exact Hv | congruence]).
  all: try (right; split; [reflexivity|]; eexists; split; [reflexivity|]; split; done).
  all: try (right; eexists; eassumption).
Qed.

(** The iteration of a file that was removed as a duplicate. *)
Lemma iteration_continued i file (s s1 : state World) :
  try_body folder organize_mode check_duplicates progress_callback total i file
           (set_log_entry "" s) = (Ok Continue, s1) ->
  iteration folder organize_mode check_duplicates progress_callback total i file s
  = (Ok tt, s1).
Proof.
  intros Hok. unfold iteration, try_except, except_clause, bind, modify, ret.
  rewrite Hok. reflexivity.
Qed.

Lemma iteration_step s i file :
  let counted_map :=
    dict_incr (dict_setdefault (categories (st_analytics s))
                 (get_category (path_suffix file)) 0)
              (get_category (path_suffix file)) in
  let s' := (iteration folder organize_mode check_duplicates progress_callback total
                       i file s).2 in
  total_files (st_analytics s') = total_files (st_analytics s)
  /\ (categories (st_analytics s') = categories (st_analytics s)
      \/ categories (st_analytics s') = counted_map)
  /\ st_duplicate_files s <= st_duplicate_files s'
  /\ (forall h v, st_seen_hashes s !! h = Some v -> st_seen_hashes s' !! h = Some v)
  /\ (st_seen_hashes s' = st_seen_hashes s
      \/ categories (st_analytics s') = counted_map
         /\ exists h, calculate_hash (st_world s) file default_block_size = Some h
                      /\ st_seen_hashes s !! h = None
                      /\ st_seen_hashes s' = <[h := path_name file]> (st_seen_hashes s))
  /\ (st_duplicate_files s' = st_duplicate_files s
      \/ exists h, is_Some (st_seen_hashes s !! h))
  /\ match fs_stat (st_world s) file with
     | Ok st =>
         total_size_bytes (st_analytics s')
         = total_size_bytes (st_analytics s) + st_size st
         /\ category_total (categories (st_analytics s')) + st_duplicate_files s'
            = category_total (categories (st_analytics s)) + st_duplicate_files s + 1
         /\ (st_duplicate_files s' = st_duplicate_files s
             /\ st_space_saved_bytes s' = st_space_saved_bytes s
             \/ st_duplicate_files s' = st_duplicate_files s + 1
                /\ st_space_saved_bytes s' = st_space_saved_bytes s + st_size st)
     | Raise e =>
         st_analytics s' = append_log (error_line file e) (st_analytics s)
         /\ st_world s' = st_world s
         /\ st_seen_hashes s' = st_seen_hashes s
         /\ st_duplicate_files s' = st_duplicate_files s
         /\ st_space_saved_bytes s' = st_space_saved_bytes s
     end
  /\ (exists new,
         logs (st_analytics s') = (logs (st_analytics s) ++ new)%list
         /\ ((exists rel, new = [moved_line file rel])
             \/ (exists e, new = [error_line file e])
             \/ check_duplicates = true
                /\ (new = [duplicate_line file]
                    \/ exists e, new = [duplicate_line file; error_line file e])))
  /\ (check_duplicates = false ->
      st_seen_hashes s' = st_seen_hashes s
      /\ st_duplicate_files s' = st_duplicate_files s
      /\ st_space_saved_bytes s' = st_space_saved_bytes s).
Proof.
  cbv zeta.
  pose proof (try_body_step (set_log_entry "" s) i file) as Hbody. cbv zeta in Hbody.
  destruct (try_body folder organize_mode check_duplicates progress_callback total i file
              (set_log_entry "" s)) as [o s1] eqn:Htry.
  destruct Hbody as (Htf & Hcat & Hdup & Hseen & Hnew & Hfirst & Hoff & Hstat & Hlog).
  simpl in Htf, Hcat, Hdup, Hseen, Hnew, Hfirst, Hoff, Hstat, Hlog.
  assert (Hchk : check_duplicates = false \/ check_duplicates = true)
    by (destruct check_duplicates; auto).
  destruct o as [[|]|e].
  - rewrite (iteration_fell_through _ _ _ _ _ _ _ _ _ Htry).
    pose proof (report_progress_state progress_callback total i file s1) as Hrep.
    cbv zeta in Hrep. destruct Hrep as (Hra & Hrw & Hrs & Hrd & Hrb).
    rewrite Hra, Hrs, Hrd, Hrb. simpl.
    destruct Hlog as (Hlogs & rel & Hentry).
    repeat split; try assumption.
    + destruct (fs_stat (st_world s) file) as [st|e]; [exact Hstat|].
      destruct Hstat as [Hne _]. discriminate Hne.
    + exists [moved_line file rel]. rewrite Hlogs, Hentry. split; [reflexivity|].
      left. eexists. reflexivity.
    + apply Hoff; assumption.
    + apply Hoff; assumption.
    + apply Hoff; assumption.
  - rewrite (iteration_continued _ _ _ _ Htry). simpl.
    repeat split; try assumption.
    + destruct (fs_stat (st_world s) file) as [st|e]; [exact Hstat|].
      destruct Hstat as [Hne _]. discriminate Hne.
    + exists [duplicate_line file]. split; [exact Hlog|].
      right. right. split; [|left; reflexivity].
      destruct Hchk as [Hf|Ht]; [|exact Ht].
      destruct (Hoff Hf) as (_ & _ & _ & Hne & _). contradiction.
    + apply Hoff; assumption.
    + apply Hoff; assumption.
    + apply Hoff; assumption.
  - rewrite (iteration_raised _ _ _ _ _ _ _ _ _ _ Htry).
    pose proof (report_progress_state progress_callback total i file
                  (set_log_entry (error_line file e) s1)) as Hrep.
    cbv zeta in Hrep. destruct Hrep as (Hra & Hrw & Hrs & Hrd & Hrb).
    rewrite Hra, Hrw, Hrs, Hrd, Hrb. simpl.
    repeat split; try assumption.
    + destruct (fs_stat (st_world s) file) as [st|e']; [exact Hstat|].
      destruct Hstat as [[= ->] ->]. repeat split.
    + destruct Hlog as [Hlogs|Hlogs]; rewrite Hlogs.
      * exists [error_line file e]. split; [reflexivity|]. right. left. eexists. reflexivity.
      * exists [duplicate_line file; error_line file e].
        split; [rewrite <- app_assoc; reflexivity|].
        right. right. split; [|right; eexists; reflexivity].
        destruct Hchk as [Hf|Ht]; [|exact Ht].
        destruct (Hoff Hf) as (_ & _ & _ & _ & Hsame).
        rewrite Hlogs in Hsame. apply (f_equal length) in Hsame.
        rewrite length_app in Hsame. simpl in Hsame. lia.
    + apply Hoff; assumption.
    + apply Hoff; assumption.
    + apply Hoff; assumption.
Qed.

End StepFacts.

(** X3. Each file is accounted for once.  When its metadata can be
    read, its size is added to [total_size_bytes] whether the file ends up
    moved, removed as a duplicate or in error, and exactly one of the
    duplicate counter and the per-category counts goes up by one (the
    space saved grows by the size with the former).  When its metadata
    cannot be read nothing is counted: the iteration only appends the
    "ERROR moving" line. *)
Theorem iteration_accounting `{PyLib} {World Path : Type} `{Pathlib Path}
        `{FileSystem World Path}
        (folder : Path) (organize_mode : string) (check_duplicates : bool)
        (progress_callback : option callback) (total i : Z) (file : Path)
        (s : state World) :
  let r := iteration folder organize_mode check_duplicates progress_callback total
                     i file s in
  match fs_stat (st_world s) file with
  | Ok st =>
      total_size_bytes (st_analytics r.2)
      = total_size_bytes (st_analytics s) + st_size st
      /\ category_total (categories (st_analytics r.2)) + st_duplicate_files r.2
         = category_total (categories (st_analytics s)) + st_duplicate_files s + 1
      /\ (st_duplicate_files r.2 = st_duplicate_files s
          /\ st_space_saved_bytes r.2 = st_space_saved_bytes s
          \/ st_duplicate_files r.2 = st_duplicate_files s + 1
             /\ st_space_saved_bytes r.2 = st_space_saved_bytes s + st_size st)
  | Raise e =>
      st_analytics r.2 = append_log (error_line file e) (st_analytics s)
      /\ st_world r.2 = st_world s
      /\ st_seen_hashes r.2 = st_seen_hashes s
      /\ st_duplicate_files r.2 = st_duplicate_files s
      /\ st_space_saved_bytes r.2 = st_space_saved_bytes s
  end.
Proof.
  cbv zeta.
  pose proof (iteration_step folder organize_mode check_duplicates progress_callback total
                s i file) as Hstep.
  cbv zeta in Hstep. destruct Hstep as (_ & _ & _ & _ & _ & _ & Hstat & _).
  exact Hstat.
Qed.

Lemma category_total_empty : category_total ∅ = 0.
Proof. reflexivity. Qed.

Lemma category_total_ge (d : gmap string Z) k v :
  (forall k' v', d !! k' = Some v' -> 0 <= v') ->
  d !! k = Some v -> v <= category_total d.
Proof.
  revert k v. induction d as [|j x d Hj IH] using map_ind; intros k v Hpos Hk.
  - rewrite lookup_empty in Hk. discriminate.
  - rewrite category_total_insert by exact Hj.
    assert (Hd : forall k' v', d !! k' = Some v' -> 0 <= v').
    { intros k' v' Hk'. apply (Hpos k' v'). rewrite lookup_insert_ne; [exact Hk'|].
      intros ->. rewrite Hj in Hk'. discriminate. }
    assert (Hnn : 0 <= category_total d).
    { clear -Hd. induction d as [|j x d Hj IH] using map_ind; [reflexivity|].
      rewrite category_total_insert by exact Hj.
      assert (0 <= x) by (apply (Hd j x), lookup_insert_eq).
      assert (0 <= category_total d); [|lia].
      apply IH. intros k' v' Hk'. apply (Hd k' v'). rewrite lookup_insert_ne; [exact Hk'|].
      intros ->. rewrite Hj in Hk'. discriminate. }
    destruct (decide (k = j)) as [->|Hne].
    + rewrite lookup_insert_eq in Hk. injection Hk as ->. lia.
    + rewrite lookup_insert_ne in Hk by done.
      specialize (IH k v Hd Hk). specialize (Hpos j x (lookup_insert_eq _ _ _)). lia.
Qed.

Lemma get_category_range `{PyLib} (extension : string) :
  get_category extension
    ∈ ["Documents"; "Images"; "Videos"; "Music"; "Archives"; "Audios"; "Others"].
Proof.
  destruct (first_category (str_lower extension) FILE_CATEGORIES) as [cat|] eqn:Hf.
  - unfold get_category. rewrite Hf. apply first_category_range in Hf. list_mem.
  - rewrite (get_category_inferred _ Hf).
    destruct (mimetypes_guess_type _) as [m|]; [|list_mem].
    cbv zeta. repeat (destruct (String.eqb _ _); [list_mem|]). list_mem.
Qed.

Section LoopFacts.
Context `{PyLib} {World Path : Type} `{Pathlib Path} `{FileSystem World Path}.
Variables (folder : Path) (organize_mode : string) (check_duplicates : bool)
          (progress_callback : option callback) (total : Z).

(** A property of the state that every iteration keeps holds when the
    loop ends, however it ends; [n] counts the iterations. *)
Lemma for_loop_invariant (P : nat -> state World -> Prop) (all : list Path) :
  (forall n s, P n s -> P (S n) s) ->
  (forall n s i file, file ∈ all -> P n s ->
     P (S n) (iteration folder organize_mode check_duplicates progress_callback total
                        i file s).2) ->
  forall files s i n, files ⊆ all -> P n s ->
    P (n + length files)%nat
      (for_loop folder organize_mode check_duplicates progress_callback total i files s).2.
Proof.
  intros Hmono Hstep.
  assert (Hpad : forall k n s, P n s -> P (n + k)%nat s).
  { induction k as [|k IH]; intros n s Hn.
    - rewrite Nat.add_0_r. exact Hn.
    - rewrite Nat.add_succ_r. apply Hmono, IH, Hn. }
  induction files as [|file rest IH]; intros s i n Hsub Hn.
  - simpl. rewrite Nat.add_0_r. exact Hn.
  - assert (Hin : file ∈ all) by (apply Hsub; left).
    assert (Hrest : rest ⊆ all) by (intros x Hx; apply Hsub; right; exact Hx).
    specialize (Hstep n s i file Hin Hn).
    simpl for_loop. unfold bind at 1.
    destruct (iteration folder organize_mode check_duplicates progress_callback total
                        i file s) as [[[]|e] s'].
    + simpl in Hstep. simpl length. rewrite Nat.add_succ_r.
      apply (IH s' (i + 1) (S n) Hrest Hstep).
    + simpl in Hstep. simpl length. rewrite Nat.add_succ_r.
      apply (Hpad (length rest) (S n) s' Hstep).
Qed.

Lemma counters_sound_step tf n s i file :
  counters_sound tf n s ->
  counters_sound tf (S n)
    (iteration folder organize_mode check_duplicates progress_callback total i file s).2.
Proof.
  intros (Htf & Hdup & Hct & Hsum & Hcats & Hseen & Hfirst).
  pose proof (iteration_step folder organize_mode check_duplicates progress_callback total
                s i file) as Hstep.
  cbv zeta in Hstep.
  destruct Hstep as (Stf & Scat & Sdup & Skeep & Snew & Sfirst & Sstat & _ & _).
  set (s' := (iteration folder organize_mode check_duplicates progress_callback total
                        i file s).2) in *.
  assert (Hct' : category_total (categories (st_analytics s))
                 <= category_total (categories (st_analytics s'))).
  { destruct Scat as [->| ->]; [lia|]. rewrite category_total_count. lia. }
  unfold counters_sound. split; [congruence|]. split; [lia|]. split; [lia|].
  split; [|split; [|split]].
  - destruct (fs_stat (st_world s) file) as [st|e].
    + destruct Sstat as (_ & Hacc & _). lia.
    + destruct Sstat as (Ha & _ & _ & Hd & _). rewrite Ha, Hd. simpl. lia.
  - intros k v Hk. destruct Scat as [Hsame|Hcounted].
    + rewrite Hsame in Hk. apply Hcats, Hk.
    + rewrite Hcounted in Hk.
      destruct (decide (get_category (path_suffix file) = k)) as [<-|Hne].
      * rewrite dict_count_lookup in Hk. injection Hk as <-.
        split; [apply get_category_range|].
        destruct (categories (st_analytics s) !! get_category (path_suffix file))
          as [v0|] eqn:Hv0; simpl; [|lia].
        destruct (Hcats _ _ Hv0). lia.
      * rewrite dict_count_other in Hk by exact Hne. apply Hcats, Hk.
  - intros h Hh. destruct Snew as [Hsame|(Hcounted & _)].
    + rewrite Hsame in Hh. specialize (Hseen h Hh). lia.
    + rewrite Hcounted, category_total_count. lia.
  - destruct Sfirst as [Hsame|(h & Hh)].
    + destruct Hfirst as [Hz|Hpos]; [left; congruence | right; lia].
    + right. specialize (Hseen h Hh). lia.
Qed.

Lemma counters_sound_loop files : forall s i tf n,
  counters_sound tf n s ->
  counters_sound tf (n + length files)
    (for_loop folder organize_mode check_duplicates progress_callback total i files s).2.
Proof.
  intros s i tf n Hs.
  apply (for_loop_invariant (counters_sound tf) files); [| |done|exact Hs].
  - intros m s0 (Htf & Hdup & Hct & Hsum & Hcats & Hseen & Hfirst).
    unfold counters_sound. split; [exact Htf|]. split; [exact Hdup|].
    split; [exact Hct|]. split; [lia|]. split; [exact Hcats|].
    split; [exact Hseen | exact Hfirst].
  - intros m s0 j file _. apply counters_sound_step.
Qed.

End LoopFacts.

Section RunFacts.
Context `{PyLib} {World Path : Type} `{Pathlib Path} `{FileSystem World Path}.

Lemma counters_sound_initial (w : World) (total : Z) :
  counters_sound total 0 (initial_state w total).
Proof.
  unfold counters_sound, initial_state, initial_analytics. simpl.
  split; [reflexivity|]. split; [lia|]. split; [reflexivity|].
  split; [rewrite category_total_empty; lia|].
  split; [intros k v Hk; rewrite lookup_empty in Hk; discriminate|].
  split; [|left; reflexivity].
  intros h [v Hv]. rewrite lookup_empty in Hv. discriminate.
Qed.

(** A run whose callback returns: the report is read off the state in
    which the loop ended. *)
Lemma organize_files_report (w : World) (start now : Z) (folder_path organize_mode : string)
      (check_duplicates : bool) (progress_callback : option callback)
      (entries : list Path) :
  callback_returns progress_callback ->
  fs_iterdir w (Path_of_str folder_path) = Ok entries ->
  let files := filter (fun f => eligible w f = true) entries in
  let total := Z.of_nat (length files) in
  let s := (for_loop (Path_of_str folder_path) organize_mode check_duplicates
                     progress_callback total 1 files (initial_state w total)).2 in
  exists report,
    (organize_files w start now folder_path organize_mode check_duplicates
                    progress_callback).1 = Ok (logs report, report)
    /\ duplicates_removed report = st_duplicate_files s
    /\ space_saved_bytes report = st_space_saved_bytes s
    /\ categories report = categories (st_analytics s)
    /\ total_files report = total_files (st_analytics s)
    /\ logs report = logs (st_analytics s)
    /\ counters_sound total (length files) s.
Proof.
  intros Hcb Henum files total s.
  assert (Hsound : counters_sound total (length files) s).
  { apply (counters_sound_loop (Path_of_str folder_path) organize_mode check_duplicates
             progress_callback total files (initial_state w total) 1 total 0%nat).
    apply counters_sound_initial. }
  revert Hsound. generalize (counters_sound total (length files) s). intros Sound Hsound.
  destruct files as [|f fs] eqn:Hfiles.
  - unfold organize_files. rewrite Henum. fold files. rewrite Hfiles.
    subst s total. simpl.
    unfold bind, modify, gets, ret, invoke.
    destruct progress_callback as [cb|]; [rewrite (Hcb cb eq_refl)|]; simpl;
      eexists (mk_analytics _ _ _ _ _ _ _); repeat split; exact Hsound.
  - rewrite (organize_files_nonempty w start now folder_path organize_mode check_duplicates
               progress_callback entries Henum)
      by (fold files; rewrite Hfiles; discriminate).
    fold files. rewrite Hfiles. fold total.
    pose proof (for_loop_spec (Path_of_str folder_path) organize_mode check_duplicates
                  progress_callback total (f :: fs) (initial_state w total) 1 Hcb
                  ltac:(lia) ltac:(unfold total; lia)) as Hloop.
    cbv zeta in Hloop. destruct Hloop as (Hret & _).
    unfold bind. fold s in Hret |- *.
    destruct (for_loop (Path_of_str folder_path) organize_mode check_duplicates
                progress_callback total 1 (f :: fs) (initial_state w total))
      as [o s1] eqn:Hrun.
    simpl in Hret. subst o. subst s. simpl.
    destruct (finish_report progress_callback (now - start) s1 Hcb)
      as (report & Hfin & Hd & Hsp & _ & Hc & Hl & Ht & _).
    exists report. repeat split; assumption.
Qed.

End RunFacts.

(** X4. The report of a run whose callback returns adds up:
    [total_files] is the number of eligible files, whatever became of
    them; the per-category counts and [duplicates_removed] together do not
    exceed it; and when the folder has an eligible file at least one file
    is not counted as a duplicate. *)
Theorem organize_files_accounting `{PyLib} {World Path : Type} `{Pathlib Path}
        `{FileSystem World Path}
        (w : World) (start now : Z) (folder_path organize_mode : string)
        (check_duplicates : bool) (progress_callback : option callback)
        (entries : list Path) :
  callback_returns progress_callback ->
  fs_iterdir w (Path_of_str folder_path) = Ok entries ->
  exists log report,
    (organize_files w start now folder_path organize_mode check_duplicates
                    progress_callback).1 = Ok (log, report)
    /\ total_files report
       = Z.of_nat (length (filter (fun f => eligible w f = true) entries))
    /\ 0 <= duplicates_removed report
    /\ 0 <= category_total (categories report)
    /\ category_total (categories report) + duplicates_removed report
       <= total_files report
    /\ (total_files report <> 0 -> duplicates_removed report < total_files report).
Proof.
  intros Hcb Henum.
  destruct (organize_files_report w start now folder_path organize_mode check_duplicates
              progress_callback entries Hcb Henum)
    as (report & Hrun & Hd & _ & Hc & Ht & _ & Stf & Sdup & Sct & Ssum & _ & _ & Sfirst).
  rewrite <- Hd, <- Hc in *. rewrite <- Ht in Stf.
  exists (logs report), report.
  split; [exact Hrun|]. split; [exact Stf|]. split; [exact Sdup|]. split; [exact Sct|].
  split; [lia|]. intros Hne. destruct Sfirst; lia.
Qed.

(** The demo folder: four eligible files. *)
Lemma organize_files_accounting_witness :
  exists log report,
    demo_run.1 = Ok (log, report)
    /\ total_files report = 4
    /\ category_total (categories report) + duplicates_removed report <= 4.
Proof.
  edestruct (organize_files_accounting demo_world 0 250 "/home" "Category / Year-Month"
               true (Some quiet)) as (log & report & Hrun & Htf & _ & _ & Hsum & _).
  - exact quiet_returns.
  - vm_compute. reflexivity.
  - assert (Hfour : total_files report = 4) by (rewrite Htf; vm_compute; reflexivity).
    exists log, report. split; [exact Hrun|]. split; [exact Hfour|].
    rewrite <- Hfour. exact Hsum.
Defined.

(** X12. In the report of a run whose callback returns, every key of
    the per-category map is one of the seven category names and its count
    is at least 1 and at most [total_files]: no category is reported with
    a count of zero. *)
Theorem organize_files_categories `{PyLib} {World Path : Type} `{Pathlib Path}
        `{FileSystem World Path}
        (w : World) (start now : Z) (folder_path organize_mode : string)
        (check_duplicates : bool) (progress_callback : option callback)
        (entries : list Path) :
  callback_returns progress_callback ->
  fs_iterdir w (Path_of_str folder_path) = Ok entries ->
  exists log report,
    (organize_files w start now folder_path organize_mode check_duplicates
                    progress_callback).1 = Ok (log, report)
    /\ forall category count,
         categories report !! category = Some count ->
         category ∈ ["Documents"; "Images"; "Videos"; "Music"; "Archives"; "Audios";
                     "Others"]
         /\ 1 <= count <= total_files report.
Proof.
  intros Hcb Henum.
  destruct (organize_files_report w start now folder_path organize_mode check_duplicates
              progress_callback entries Hcb Henum)
    as (report & Hrun & Hd & _ & Hc & Ht & _ & Stf & Sdup & Sct & Ssum & Scats & _ & _).
  rewrite <- Hd, <- Hc in *. rewrite <- Ht in Stf.
  exists (logs report), report.
  split; [exact Hrun|]. intros category count Hk.
  destruct (Scats category count Hk) as [Hin Hone].
  split; [exact Hin|]. split; [exact Hone|].
  assert (count <= category_total (categories report)); [|lia].
  apply (category_total_ge _ category); [|exact Hk].
  intros k' v' Hk'. destruct (Scats k' v' Hk'). lia.
Qed.

(** The demo folder. *)
Lemma organize_files_categories_witness :
  exists log report,
    demo_run.1 = Ok (log, report)
    /\ forall category count,
         categories report !! category = Some count -> 1 <= count <= total_files report.
Proof.
  edestruct (organize_files_categories demo_world 0 250 "/home" "Category / Year-Month"
               true (Some quiet)) as (log & report & Hrun & Hcats).
  - exact quiet_returns.
  - vm_compute. reflexivity.
  - exists log, report. split; [exact Hrun|].
    intros category count Hc. apply (Hcats category count Hc).
Defined.

(** ** Orchestrator: exceptions that leave [organize_files] *)

(** X1. The only exceptions that leave [organize_files] are the one
    raised by the enumeration of the folder and those raised by the
    progress callback: whatever happens to a file is caught. *)
Theorem organize_files_raises `{PyLib} {World Path : Type} `{Pathlib Path}
        `{FileSystem World Path}
        (w : World) (start now : Z) (folder_path organize_mode : string)
        (check_duplicates : bool) (progress_callback : option callback) (e : exn) :
  (organize_files w start now folder_path organize_mode check_duplicates
                  progress_callback).1 = Raise e ->
  fs_iterdir w (Path_of_str folder_path) = Raise e
  \/ exists f percent message,
       progress_callback = Some f /\ f percent message = Raise e.
Proof.
  unfold organize_files.
  destruct (fs_iterdir w (Path_of_str folder_path)) as [entries|e'];
    [|simpl; intros [= ->]; left; reflexivity].
  intros Hrun. right. revert Hrun.
  set (files := filter (fun f => eligible w f = true) entries).
  destruct (Z.eqb_spec (Z.of_nat (length files)) 0) as [Hz|Hnz].
  - unfold bind, modify, gets, ret, invoke.
    destruct progress_callback as [f|]; [|discriminate]. simpl.
    destruct (f 100 "No files to organize") eqn:Hf; [discriminate|].
    simpl. intros [= ->]. eauto.
  - unfold bind at 1.
    pose proof (for_loop_raises (Path_of_str folder_path) organize_mode check_duplicates
                  progress_callback (Z.of_nat (length files)) files) as Hloop.
    destruct (for_loop _ _ _ _ _ _ _ _) as [[[]|e'] s1] eqn:Hrun.
    + unfold finish, bind, modify, gets, ret, invoke.
      destruct progress_callback as [f|]; [|discriminate]. simpl.
      destruct (f 100 _) eqn:Hf; [discriminate|].
      simpl. intros [= ->]. eauto.
    + simpl. intros [= ->].
      apply (Hloop e (initial_state w (Z.of_nat (length files))) 1); [lia|lia|].
      rewrite Hrun. reflexivity.
Qed.

(** The twin folder with a callback that raises. *)
Lemma organize_files_raises_witness :
  fs_iterdir twin_world (Path_of_str "/home") = Raise (Exception "display closed")
  \/ exists f percent message,
       Some broken = Some f /\ f percent message = Raise (Exception "display closed").
Proof.
  apply (organize_files_raises twin_world 0 5 "/home" "Category Only" true (Some broken)).
  vm_compute. reflexivity.
Defined.

(** X2. The progress call of a removed duplicate (line 123) is made
    inside the [try] block.  When the callback raises there, the file has
    been moved to the duplicates folder and counted, its "DUPLICATE
    REMOVED" line is in the log, and the exception is caught: the
    iteration appends an "ERROR moving" line for the same file and calls
    the callback a second time, at line 147. *)
Theorem duplicate_callback_failure `{PyLib} {World Path : Type} `{Pathlib Path}
        `{FileSystem World Path}
        (folder : Path) (organize_mode : string) (f : callback) (total i : Z)
        (file : Path) (s : state World) (st : stat_result) (h : string)
        (w1 w2 : World) (e : exn) :
  let duplicate_dir := folder // "Duplicates (Removed)" in
  let percent := percent_value i total in
  fs_stat (st_world s) file = Ok st ->
  calculate_hash (st_world s) file default_block_size = Some h ->
  is_Some (st_seen_hashes s !! h) ->
  fs_mkdir (st_world s) duplicate_dir false true = Ok w1 ->
  shutil_move w1 (path_str file) (duplicate_dir // path_name file) = Ok w2 ->
  1 <= i <= total ->
  f percent (duplicate_line file) = Raise e ->
  let r := iteration folder organize_mode true (Some f) total i file s in
  r.1 = f percent (processing_message i total file)
  /\ logs (st_analytics r.2)
     = (logs (st_analytics s) ++ [duplicate_line file; error_line file e])%list
  /\ st_events r.2
     = (st_events s ++ [(percent, duplicate_line file);
                        (percent, processing_message i total file)])%list
  /\ st_world r.2 = w2
  /\ st_duplicate_files r.2 = st_duplicate_files s + 1
  /\ st_space_saved_bytes r.2 = st_space_saved_bytes s + st_size st
  /\ categories (st_analytics r.2) = categories (st_analytics s).
Proof.
  intros duplicate_dir percent Hstat Hhash Hseen Hmk Hmv Hi Hf r.
  subst r duplicate_dir percent. munfold. simpl.
  rewrite Hstat. simpl. rewrite Hhash. simpl.
  rewrite bool_decide_eq_true_2 by exact Hseen. simpl.
  rewrite Hmk. simpl. rewrite Hmv. simpl.
  rewrite !percent_of_value by lia. simpl. rewrite Hf. simpl.
  replace (total =? 0) with false by (symmetry; apply Z.eqb_neq; lia).
  simpl. rewrite <- !app_assoc. repeat split.
Qed.

(** The second picture of the twin folder, with a callback that raises
    when it is told of a duplicate. *)
Lemma duplicate_callback_failure_witness :
  let a := mk_path true ["home"; "a.JPG"] in
  let b := mk_path true ["home"; "b.jpeg"] in
  let s := (iteration (Path_of_str "/home") "Category Only" true (Some fussy) 2 1 a
                      (initial_state twin_world 2)).2 in
  let r := iteration (Path_of_str "/home") "Category Only" true (Some fussy) 2 2 b s in
  exists first,
    logs (st_analytics r.2)
    = [first; "DUPLICATE REMOVED: b.jpeg -> Duplicates";
       "ERROR moving b.jpeg: display closed"].
Proof.
  cbv zeta.
  pose proof (duplicate_callback_failure (Path_of_str "/home") "Category Only" fussy 2 2
                (mk_path true ["home"; "b.jpeg"])
                (iteration (Path_of_str "/home") "Category Only" true (Some fussy) 2 1
                           (mk_path true ["home"; "a.JPG"])
                           (initial_state twin_world 2)).2) as Hthm.
  cbv zeta in Hthm.
  edestruct Hthm as (_ & Hlogs & _).
  - vm_compute. reflexivity.
  - vm_compute. reflexivity.
  - vm_compute. eexists. reflexivity.
  - vm_compute. reflexivity.
  - vm_compute. reflexivity.
  - lia.
  - vm_compute. reflexivity.
  - eexists. rewrite Hlogs. vm_compute. reflexivity.
Defined.

(** ** Orchestrator: the log and the duplicate check *)

Section LogFacts.
Context `{PyLib} {World Path : Type} `{Pathlib Path} `{FileSystem World Path}.

Lemma moved_line_not_duplicate (file rel : Path) :
  not_duplicate_line (moved_line file rel) = true.
Proof.
  unfold not_duplicate_line, moved_line. rewrite prefix_append. reflexivity.
Qed.

Lemma error_line_not_duplicate (file : Path) e :
  not_duplicate_line (error_line file e) = true.
Proof.
  unfold not_duplicate_line, error_line. rewrite prefix_append. apply orb_true_r.
Qed.

Lemma finish_logs progress_callback elapsed (s : state World) :
  let r := finish progress_callback elapsed s in
  logs (st_analytics r.2) = logs (st_analytics s)
  /\ st_seen_hashes r.2 = st_seen_hashes s
  /\ forall log report, r.1 = Ok (log, report) ->
       log = logs report /\ log = logs (st_analytics s).
Proof.
  cbv zeta. unfold finish, bind, modify, gets, ret, invoke.
  destruct progress_callback as [f|]; simpl.
  - destruct (f 100 _) as [[]|e]; simpl;
      (split; [reflexivity|]; split; [reflexivity|]);
      intros lg rp Hr; [|discriminate Hr];
      injection Hr as <- <-; split; reflexivity.
  - split; [reflexivity|]. split; [reflexivity|].
    intros lg rp Hr. injection Hr as <- <-. split; reflexivity.
Qed.

Variables (folder : Path) (organize_mode : string) (check_duplicates : bool)
          (progress_callback : option callback) (total : Z).

(** Every line the loop appends has one of the three shapes. *)
Lemma for_loop_log_shape files s i :
  Forall (fun l => log_line_shape l = true) (logs (st_analytics s)) ->
  Forall (fun l => log_line_shape l = true)
    (logs (st_analytics
       (for_loop folder organize_mode check_duplicates progress_callback total
                 i files s).2)).
Proof.
  intros Hs.
  apply (for_loop_invariant folder organize_mode check_duplicates progress_callback total
           (fun _ s' => Forall (fun l => log_line_shape l = true) (logs (st_analytics s')))
           files (fun _ _ H => H)) with (n := 0%nat); [|done|exact Hs].
  intros _ s0 j file _ Hs0.
  pose proof (iteration_step folder organize_mode check_duplicates progress_callback total
                s0 j file) as Hstep.
  cbv zeta in Hstep.
  destruct Hstep as (_ & _ & _ & _ & _ & _ & _ & (new & -> & Hnew) & _).
  apply Forall_app. split; [exact Hs0|].
  destruct Hnew as [[rel ->]|[[e ->]|[_ [->|[e ->]]]]];
    repeat constructor;
    apply moved_line_shape || apply error_line_shape || apply duplicate_line_shape.
Qed.

(** With the duplicate check off the loop leaves [seen_hashes] and the
    two duplicate counters alone and appends no "DUPLICATE REMOVED" line. *)
Lemma for_loop_check_off files s i :
  check_duplicates = false ->
  Forall (fun l => not_duplicate_line l = true) (logs (st_analytics s)) ->
  let s' := (for_loop folder organize_mode check_duplicates progress_callback total
                      i files s).2 in
  st_seen_hashes s' = st_seen_hashes s
  /\ st_duplicate_files s' = st_duplicate_files s
  /\ st_space_saved_bytes s' = st_space_saved_bytes s
  /\ Forall (fun l => not_duplicate_line l = true) (logs (st_analytics s')).
Proof.
  intros Hoff Hs.
  apply (for_loop_invariant folder organize_mode check_duplicates progress_callback total
           (fun _ s' =>
              st_seen_hashes s' = st_seen_hashes s
              /\ st_duplicate_files s' = st_duplicate_files s
              /\ st_space_saved_bytes s' = st_space_saved_bytes s
              /\ Forall (fun l => not_duplicate_line l = true) (logs (st_analytics s')))
           files (fun _ _ H => H)) with (n := 0%nat); [|done|repeat split; exact Hs].
  intros _ s0 j file _ (Hseen & Hdup & Hsp & Hlog).
  pose proof (iteration_step folder organize_mode check_duplicates progress_callback total
                s0 j file) as Hstep.
  cbv zeta in Hstep.
  destruct Hstep as (_ & _ & _ & _ & _ & _ & _ & (new & Hlogs & Hnew) & Hsame).
  destruct (Hsame Hoff) as (-> & -> & ->).
  repeat split; try assumption.
  rewrite Hlogs. apply Forall_app. split; [exact Hlog|].
  destruct Hnew as [[rel ->]|[[e ->]|[Hon _]]]; [| |congruence];
    repeat constructor;
    apply moved_line_not_duplicate || apply error_line_not_duplicate.
Qed.

End LogFacts.

(** X6. Every line of the log of every run, whatever the callback
    does, starts with "Moved: ", "ERROR moving " or "DUPLICATE REMOVED: ";
    the log that a run returns is the report's [logs]; and the warning of
    line 109 has none of these shapes, so no run logs it. *)
Theorem organize_files_log_shape `{PyLib} {World Path : Type} `{Pathlib Path}
        `{FileSystem World Path}
        (w : World) (start now : Z) (folder_path organize_mode : string)
        (check_duplicates : bool) (progress_callback : option callback) :
  let r := organize_files w start now folder_path organize_mode check_duplicates
                          progress_callback in
  Forall (fun l => log_line_shape l = true) (logs (st_analytics r.2))
  /\ (forall log report,
         r.1 = Ok (log, report) ->
         log = logs report /\ Forall (fun l => log_line_shape l = true) log)
  /\ (forall file : Path, log_line_shape (warning_line file) = false).
Proof.
  cbv zeta. split; [|split; [|reflexivity]].
  - unfold organize_files.
    destruct (fs_iterdir w (Path_of_str folder_path)) as [entries|e]; [|constructor].
    set (files := filter (fun f => eligible w f = true) entries).
    destruct (Z.of_nat (length files) =? 0).
    + unfold bind, modify, gets, ret, invoke.
      destruct progress_callback as [f|]; simpl; [|constructor].
      destruct (f 100 "No files to organize") as [[]|e]; constructor.
    + unfold bind at 1.
      pose proof (for_loop_log_shape (Path_of_str folder_path) organize_mode
                    check_duplicates progress_callback (Z.of_nat (length files)) files
                    (initial_state w (Z.of_nat (length files))) 1
                    ltac:(constructor)) as Hloop.
      destruct (for_loop _ _ _ _ _ _ _ _) as [[[]|e] s1]; simpl in Hloop; [|exact Hloop].
      pose proof (finish_logs progress_callback (now - start) s1) as Hfin.
      cbv zeta in Hfin. destruct Hfin as (-> & _). exact Hloop.
  - unfold organize_files.
    destruct (fs_iterdir w (Path_of_str folder_path)) as [entries|e]; [|discriminate].
    set (files := filter (fun f => eligible w f = true) entries).
    destruct (Z.of_nat (length files) =? 0).
    + unfold bind, modify, gets, ret, invoke.
      destruct progress_callback as [f|]; simpl.
      * destruct (f 100 "No files to organize") as [[]|e]; simpl;
          intros lg rp Hr; [|discriminate Hr].
        injection Hr as <- <-. split; [reflexivity | constructor].
      * intros lg rp Hr. injection Hr as <- <-. split; [reflexivity | constructor].
    + unfold bind at 1.
      pose proof (for_loop_log_shape (Path_of_str folder_path) organize_mode
                    check_duplicates progress_callback (Z.of_nat (length files)) files
                    (initial_state w (Z.of_nat (length files))) 1
                    ltac:(constructor)) as Hloop.
      destruct (for_loop _ _ _ _ _ _ _ _) as [[[]|e] s1]; simpl in Hloop;
        [|discriminate].
      pose proof (finish_logs progress_callback (now - start) s1) as Hfin.
      cbv zeta in Hfin. destruct Hfin as (_ & _ & Hret).
      intros lg rp Hr. destruct (Hret lg rp Hr) as [Hl Hs].
      split; [exact Hl|]. rewrite Hs. exact Hloop.
Qed.

(** The demo folder. *)
Lemma organize_files_log_shape_witness :
  Forall (fun l => log_line_shape l = true) (logs (st_analytics demo_run.2)).
Proof.
  exact (proj1 (organize_files_log_shape demo_world 0 250 "/home" "Category / Year-Month"
                  true (Some quiet))).
Defined.

(** X5. With the duplicate check off a run whose callback returns
    reports no duplicate and no space saved, and its log has no
    "DUPLICATE REMOVED" line: every line is a "Moved" or an "ERROR moving"
    line, also for files of the same content. *)
Theorem organize_files_check_off `{PyLib} {World Path : Type} `{Pathlib Path}
        `{FileSystem World Path}
        (w : World) (start now : Z) (folder_path organize_mode : string)
        (progress_callback : option callback) (entries : list Path) :
  callback_returns progress_callback ->
  fs_iterdir w (Path_of_str folder_path) = Ok entries ->
  exists log report,
    (organize_files w start now folder_path organize_mode false progress_callback).1
    = Ok (log, report)
    /\ duplicates_removed report = 0
    /\ space_saved_bytes report = 0
    /\ Forall (fun l => not_duplicate_line l = true) log.
Proof.
  intros Hcb Henum.
  destruct (organize_files_report w start now folder_path organize_mode false
              progress_callback entries Hcb Henum)
    as (report & Hrun & Hd & Hsp & _ & _ & Hl & _).
  set (files := filter (fun f => eligible w f = true) entries) in *.
  pose proof (for_loop_check_off (Path_of_str folder_path) organize_mode false
                progress_callback (Z.of_nat (length files)) files
                (initial_state w (Z.of_nat (length files))) 1 eq_refl
                ltac:(constructor)) as Hoff.
  cbv zeta in Hoff. destruct Hoff as (_ & Hdup & Hspace & Hlog).
  exists (logs report), report. split; [exact Hrun|].
  split; [rewrite Hd; exact Hdup|]. split; [rewrite Hsp; exact Hspace|].
  rewrite Hl. exact Hlog.
Qed.

(** The twin folder with the check off. *)
Lemma organize_files_check_off_witness :
  exists log report,
    (twin_run false (Some quiet)).1 = Ok (log, report)
    /\ duplicates_removed report = 0
    /\ Forall (fun l => not_duplicate_line l = true) log.
Proof.
  edestruct (organize_files_check_off twin_world 0 5 "/home" "Category Only" (Some quiet))
    as (log & report & Hrun & Hd & _ & Hlog).
  - exact quiet_returns.
  - vm_compute. reflexivity.
  - exists log, report. split; [exact Hrun|]. split; [exact Hd | exact Hlog].
Defined.

(** X7. [seen_hashes] only grows, and the first file wins: over any
    part of the loop an entry is never removed and never overwritten by a
    later file of the same digest, and every entry that is added holds
    the name of one of the files of that part. *)
Theorem seen_hashes_first_wins `{PyLib} {World Path : Type} `{Pathlib Path}
        `{FileSystem World Path}
        (folder : Path) (organize_mode : string) (check_duplicates : bool)
        (progress_callback : option callback) (total i : Z) (files : list Path)
        (s : state World) :
  let s' := (for_loop folder organize_mode check_duplicates progress_callback total
                      i files s).2 in
  (forall h name, st_seen_hashes s !! h = Some name -> st_seen_hashes s' !! h = Some name)
  /\ (forall h name, st_seen_hashes s' !! h = Some name ->
        st_seen_hashes s !! h = Some name \/ name ∈ path_name <$> files).
Proof.
  apply (for_loop_invariant folder organize_mode check_duplicates progress_callback total
           (fun _ s' =>
              (forall h name, st_seen_hashes s !! h = Some name ->
                 st_seen_hashes s' !! h = Some name)
              /\ (forall h name, st_seen_hashes s' !! h = Some name ->
                    st_seen_hashes s !! h = Some name \/ name ∈ path_name <$> files))
           files (fun _ _ H => H)) with (n := 0%nat); [|done|split; auto].
  intros _ s0 j file Hin (Hkeep & Hnew).
  pose proof (iteration_step folder organize_mode check_duplicates progress_callback total
                s0 j file) as Hstep.
  cbv zeta in Hstep.
  destruct Hstep as (_ & _ & _ & Skeep & Snew & _).
  split.
  - intros h name Hh. apply Skeep, Hkeep, Hh.
  - intros h name Hh. destruct Snew as [Hsame|(_ & h' & _ & Hnone & Hins)].
    + rewrite Hsame in Hh. apply Hnew, Hh.
    + rewrite Hins in Hh. destruct (decide (h' = h)) as [->|Hne].
      * rewrite lookup_insert_eq in Hh. injection Hh as <-.
        right. apply list_elem_of_fmap_2. exact Hin.
      * rewrite lookup_insert_ne in Hh by exact Hne. apply Hnew, Hh.
Qed.

(** The twin folder: after the second picture the digest still names the
    first. *)
Lemma seen_hashes_first_wins_witness :
  let a := mk_path true ["home"; "a.JPG"] in
  let b := mk_path true ["home"; "b.jpeg"] in
  let s := (iteration (Path_of_str "/home") "Category Only" true None 2 1 a
                      (initial_state twin_world 2)).2 in
  st_seen_hashes (for_loop (Path_of_str "/home") "Category Only" true None 2 2 [b] s).2
    !! "73756e736574" = Some "a.JPG".
Proof.
  cbv zeta.
  apply (proj1 (seen_hashes_first_wins (Path_of_str "/home") "Category Only" true None 2 2
                  [mk_path true ["home"; "b.jpeg"]]
                  (iteration (Path_of_str "/home") "Category Only" true None 2 1
                             (mk_path true ["home"; "a.JPG"])
                             (initial_state twin_world 2)).2)).
  vm_compute. reflexivity.
Defined.

(** ** Orchestrator: the order of the log *)

Section OrderFacts.
Context `{PyLib} {World Path : Type} `{Pathlib Path} `{FileSystem World Path}.
Variables (folder : Path) (organize_mode : string) (check_duplicates : bool)
          (progress_callback : option callback) (total : Z).

(** The lines the loop appends, file by file. *)
Lemma for_loop_lines files : forall s i,
  callback_returns progress_callback ->
  1 <= i -> i + Z.of_nat (length files) - 1 <= total ->
  exists lines,
    logs (st_analytics
            (for_loop folder organize_mode check_duplicates progress_callback total
                      i files s).2)
    = (logs (st_analytics s) ++ lines)%list
    /\ Forall2 line_about files lines.
Proof.
  induction files as [|file rest IH]; intros s i Hcb Hi Htotal.
  - exists []. simpl. rewrite app_nil_r. split; [reflexivity | constructor].
  - simpl length in Htotal.
    pose proof (iteration_spec folder organize_mode check_duplicates progress_callback
                  total s i file Hcb ltac:(lia)) as Hspec.
    pose proof (iteration_step folder organize_mode check_duplicates progress_callback
                  total s i file) as Hstep.
    cbv zeta in Hspec, Hstep.
    destruct Hspec as (Hret & [line Hline] & _).
    destruct Hstep as (_ & _ & _ & _ & _ & _ & _ & (new & Hnew & Hshape) & _).
    destruct (iteration folder organize_mode check_duplicates progress_callback total
                        i file s) as [o s1] eqn:Hiter.
    simpl in Hret, Hline, Hnew. subst o.
    rewrite (for_loop_continues _ _ _ _ _ _ _ _ _ _ Hiter).
    destruct (IH s1 (i + 1) Hcb ltac:(lia) ltac:(lia)) as (lines & Hlines & Hall).
    exists (line :: lines). rewrite Hlines, Hline, <- app_assoc.
    split; [reflexivity|]. constructor; [|exact Hall].
    rewrite Hline in Hnew. apply app_inv_head in Hnew. subst new.
    destruct Hshape as [[rel [= ->]]|[[e [= ->]]|[_ [[= ->]|[e Htwo]]]]].
    + left. eexists. reflexivity.
    + right. left. eexists. reflexivity.
    + right. right. reflexivity.
    + discriminate Htwo.
Qed.

End OrderFacts.

(** X14. The log of a run whose callback returns follows the files in
    enumeration order: its k-th line is the "Moved", "ERROR moving" or
    "DUPLICATE REMOVED" line of the k-th eligible file. *)
Theorem organize_files_log_order `{PyLib} {World Path : Type} `{Pathlib Path}
        `{FileSystem World Path}
        (w : World) (start now : Z) (folder_path organize_mode : string)
        (check_duplicates : bool) (progress_callback : option callback)
        (entries : list Path) :
  callback_returns progress_callback ->
  fs_iterdir w (Path_of_str folder_path) = Ok entries ->
  exists log report,
    (organize_files w start now folder_path organize_mode check_duplicates
                    progress_callback).1 = Ok (log, report)
    /\ Forall2 line_about (filter (fun f => eligible w f = true) entries) log.
Proof.
  intros Hcb Henum.
  destruct (organize_files_report w start now folder_path organize_mode check_duplicates
              progress_callback entries Hcb Henum)
    as (report & Hrun & _ & _ & _ & _ & Hl & _).
  set (files := filter (fun f => eligible w f = true) entries) in *.
  destruct (for_loop_lines (Path_of_str folder_path) organize_mode check_duplicates
              progress_callback (Z.of_nat (length files)) files
              (initial_state w (Z.of_nat (length files))) 1 Hcb ltac:(lia) ltac:(lia))
    as (lines & Hlines & Hall).
  exists (logs report), report. split; [exact Hrun|].
  rewrite Hl, Hlines. exact Hall.
Qed.

(** The demo folder: four files, four lines. *)
Lemma organize_files_log_order_witness :
  exists log report, demo_run.1 = Ok (log, report) /\ length log = 4%nat.
Proof.
  edestruct (organize_files_log_order demo_world 0 250 "/home" "Category / Year-Month"
               true (Some quiet)) as (log & report & Hrun & Hall).
  - exact quiet_returns.
  - vm_compute. reflexivity.
  - exists log, report. split; [exact Hrun|].
    apply Forall2_length in Hall. rewrite <- Hall. vm_compute. reflexivity.
Defined.

(** ** Orchestrator: the callback is an observer *)

Section ObserverFacts.
Context `{PyLib} {World Path : Type} `{Pathlib Path} `{FileSystem World Path}.
Variables (folder : Path) (organize_mode : string) (check_duplicates : bool)
          (total : Z).

Lemma iteration_observer (f : callback) ev s i file :
  (forall percent message, f percent message = Ok tt) -> 1 <= i <= total ->
  (iteration folder organize_mode check_duplicates None total i file s).1 = Ok tt
  /\ exists ev',
       iteration folder organize_mode check_duplicates (Some f) total i file
                 (set_events ev s)
       = (Ok tt,
          set_events ev'
            (iteration folder organize_mode check_duplicates None total i file s).2).
Proof.
  intros Hf Hi. munfold. rewrite !percent_of_value by lia.
  replace (total =? 0) with false by (symmetry; apply Z.eqb_neq; lia).
  repeat (first [ match goal with
                  | Hx : ?x = _ |- context [match ?x with _ => _ end] => rewrite Hx
                  end
                | case_match ];
          simplify_eq/=; rewrite ?Hf in *; try done);
    (split; [reflexivity|]); eexists; unfold set_events; simpl; reflexivity.
Qed.

Lemma for_loop_observer (f : callback) files : forall ev s i,
  (forall percent message, f percent message = Ok tt) ->
  1 <= i -> i + Z.of_nat (length files) - 1 <= total ->
  (for_loop folder organize_mode check_duplicates None total i files s).1 = Ok tt
  /\ exists ev',
       for_loop folder organize_mode check_duplicates (Some f) total i files
                (set_events ev s)
       = (Ok tt,
          set_events ev'
            (for_loop folder organize_mode check_duplicates None total i files s).2).
Proof.
  induction files as [|file rest IH]; intros ev s i Hf Hi Htotal.
  - simpl. split; [reflexivity|]. exists ev. reflexivity.
  - simpl length in Htotal.
    destruct (iteration_observer f ev s i file Hf ltac:(lia)) as (Hsilent & ev1 & Hobs).
    simpl for_loop. unfold bind at 1 2 3. rewrite Hobs.
    destruct (iteration folder organize_mode check_duplicates None total i file s)
      as [o s1].
    simpl in Hsilent. subst o. simpl.
    apply IH; [exact Hf | lia | lia].
Qed.

Lemma finish_observer (f : callback) ev elapsed (s : state World) :
  (forall percent message, f percent message = Ok tt) ->
  (finish (Some f) elapsed (set_events ev s)).1 = (finish None elapsed s).1
  /\ set_events (st_events s) (finish (Some f) elapsed (set_events ev s)).2
     = (finish None elapsed s).2.
Proof.
  intros Hf. unfold finish, bind, modify, gets, ret, invoke. simpl.
  rewrite Hf. simpl. split; reflexivity.
Qed.

End ObserverFacts.

(** X13. A callback that returns changes nothing but the progress
    events: the run returns the same log and report, and ends in the same
    file system with the same counters, as the run without a callback. *)
Theorem callback_is_observer `{PyLib} {World Path : Type} `{Pathlib Path}
        `{FileSystem World Path}
        (w : World) (start now : Z) (folder_path organize_mode : string)
        (check_duplicates : bool) (f : callback) :
  (forall percent message, f percent message = Ok tt) ->
  let observed :=
    organize_files w start now folder_path organize_mode check_duplicates (Some f) in
  let silent :=
    organize_files w start now folder_path organize_mode check_duplicates None in
  observed.1 = silent.1 /\ set_events [] observed.2 = silent.2.
Proof.
  intros Hf. cbv zeta. unfold organize_files.
  destruct (fs_iterdir w (Path_of_str folder_path)) as [entries|e];
    [|split; reflexivity].
  set (files := filter (fun f => eligible w f = true) entries).
  destruct (Z.eqb_spec (Z.of_nat (length files)) 0) as [Hz|Hnz].
  - unfold bind, modify, gets, ret, invoke. simpl. rewrite Hf. simpl.
    split; reflexivity.
  - destruct (for_loop_observer (Path_of_str folder_path) organize_mode check_duplicates
                (Z.of_nat (length files)) f files []
                (initial_state w (Z.of_nat (length files))) 1 Hf ltac:(lia) ltac:(lia))
      as (Hsilent & ev' & Hobs).
    change (set_events [] (initial_state w (Z.of_nat (length files))))
      with (initial_state w (Z.of_nat (length files))) in Hobs.
    assert (Hnone : callback_returns None) by (intros cb Hcb; discriminate Hcb).
    pose proof (for_loop_spec (Path_of_str folder_path) organize_mode check_duplicates
                  None (Z.of_nat (length files)) files
                  (initial_state w (Z.of_nat (length files))) 1 Hnone
                  ltac:(lia) ltac:(lia)) as Hquiet.
    cbv zeta in Hquiet. destruct Hquiet as (_ & _ & Hquiet).
    unfold bind. rewrite Hobs.
    destruct (for_loop (Path_of_str folder_path) organize_mode check_duplicates None
                (Z.of_nat (length files)) 1 files
                (initial_state w (Z.of_nat (length files)))) as [o s1] eqn:Hrun.
    simpl in Hsilent, Hquiet. subst o. simpl.
    apply fmap_nil_inv in Hquiet.
    destruct (finish_observer f ev' (now - start) s1 Hf) as (Hret & Hstate).
    rewrite Hquiet in Hstate. split; [exact Hret | exact Hstate].
Qed.

(** The demo folder with and without the quiet callback. *)
Lemma callback_is_observer_witness :
  demo_run.1
  = (organize_files demo_world 0 250 "/home" "Category / Year-Month" true None).1.
Proof.
  exact (proj1 (callback_is_observer demo_world 0 250 "/home" "Category / Year-Month"
                  true quiet (fun _ _ => eq_refl))).
Defined.
